(** * PMM Deep Agent: prompt templates, evaluation models and tool selection

    A shallow embedding of the Python package [pmm_agent]:

    - [models/evaluation.py]: the scoring enumerations and the pydantic
      records of an assessment, with the validation their field
      declarations ask for ([Field(..., ge=0, le=100)], [Literal[...]]);
    - [tools/evaluation.py], [tools/web.py], [tools/creation.py]: the
      seventeen template operations, each building one dictionary that is
      handed to [json.dumps];
    - [subagents/specialists.py] and [agent.py]: the tool registry, the
      factory that assembles the arguments of [create_deep_agent], and the
      quick start functions;
    - [cli.py]: the interactive shell.

    Python strings are modelled by [string], read as the UTF-8 bytes of the
    text: concatenation, emptiness and the substring relation are the same
    on code points and on their UTF-8 encoding.  Python dictionaries are
    finite maps ([gmap]) keyed by strings.

    Of the argument schema that the [@tool] decorator derives from a
    signature, the check of the [Literal] annotations is modelled
    ([tool_invoke]).  Left to the libraries they come from: the
    serialisation by [json.dumps], the coercions pydantic applies before
    it checks a field, [create_deep_agent] itself and what the assembled agent
    answers.  The quick start functions of [agent.py] are modelled by the
    request they make, and the command-line shell ([cli.py]) by its runs
    over an explicit console, with [str.strip], [str.lower] and the agent
    as parameters. *)

From Stdlib Require Import ZArith Ascii String List Lia.
From stdpp Require Import base decidable option list strings gmap.

Local Open Scope Z_scope.

(** ** The Python values the package handles *)

Module Py.

(** The double quote, which the templates use in their sample sentences. *)
Definition dq : string := String (ascii_of_nat 34) EmptyString.

(** The backslash and the control characters [repr] escapes by name. *)
Definition backslash : ascii := ascii_of_nat 92.
Definition squote : ascii := ascii_of_nat 39.
Definition dquote : ascii := ascii_of_nat 34.
Definition tab : ascii := ascii_of_nat 9.
Definition newline : ascii := ascii_of_nat 10.
Definition carriage_return : ascii := ascii_of_nat 13.

(** A line break, as a string. *)
Definition nl : string := String newline EmptyString.

(** [sub in s] on [str]: does [sub] start at the head of [s], or anywhere
    in it. *)
Fixpoint startswith (s sub : string) : bool :=
  match sub, s with
  | EmptyString, _ => true
  | String _ _, EmptyString => false
  | String a sub', String b s' => Ascii.eqb a b && startswith s' sub'
  end.

Fixpoint contains (s sub : string) : bool :=
  startswith s sub ||
  match s with
  | EmptyString => false
  | String _ s' => contains s' sub
  end.

(** What [contains] decides: [sub] occurs in [s] between some [pre] and
    some [post]. *)
Definition Substring (sub s : string) : Prop :=
  exists pre post : string, s = pre +:+ sub +:+ post.

(** A value that a template operation receives or stores in its
    dictionary: [None], a [bool], a [str] or a [list[str]]. *)
Inductive value : Type :=
| VNone
| VBool (b : bool)
| VStr (s : string)
| VList (l : list string).

#[global] Instance value_eq_dec : EqDecision value.
Proof. solve_decision. Defined.

(** The dictionary literal of a template operation, as handed to
    [json.dumps]. *)
Abbreviation dict := (gmap string value).

(** Lower-case hexadecimal digit of a number below sixteen. *)
Definition hex_digit (n : nat) : ascii :=
  ascii_of_nat (if Nat.ltb n 10 then 48 + n else 87 + n)%nat.

(** [repr] of one character of a [str] whose quote is [quote]: the quote
    and the backslash are escaped, tab, newline and carriage return are
    written by name, the other ASCII control characters as [\xNN].  Bytes
    from 128 up belong to the UTF-8 encoding of a character beyond ASCII
    and are kept: that is what Python does with the printable ones, while
    it escapes those that [str.isprintable] refuses (the no-break space,
    say), by a table of the Unicode database that is not modelled.  What
    is proved of the rendering of a single character is therefore stated
    for ASCII text. *)
Definition repr_char (quote c : ascii) : string :=
  let n := nat_of_ascii c in
  if Ascii.eqb c quote || Ascii.eqb c backslash then String backslash (String c EmptyString)
  else if Ascii.eqb c tab then String backslash "t"
  else if Ascii.eqb c newline then String backslash "n"
  else if Ascii.eqb c carriage_return then String backslash "r"
  else if Nat.ltb n 32 || Nat.eqb n 127 then
    String backslash
      (String "x" (String (hex_digit (n / 16)) (String (hex_digit (n mod 16)) EmptyString)))
  else String c EmptyString.

Fixpoint has_char (c : ascii) (s : string) : bool :=
  match s with
  | EmptyString => false
  | String a s' => Ascii.eqb a c || has_char c s'
  end.

Fixpoint repr_chars (quote : ascii) (s : string) : string :=
  match s with
  | EmptyString => EmptyString
  | String c s' => repr_char quote c +:+ repr_chars quote s'
  end.

(** [repr(s)] for a [str]: single quotes, unless the text holds a single
    quote and no double quote. *)
Definition repr_str (s : string) : string :=
  let quote := if has_char squote s && negb (has_char dquote s) then dquote else squote in
  String quote EmptyString +:+ repr_chars quote s +:+ String quote EmptyString.

Fixpoint join (sep : string) (l : list string) : string :=
  match l with
  | [] => EmptyString
  | [x] => x
  | x :: l' => x +:+ sep +:+ join sep l'
  end.

(** [str(l)] for a [list[str]], which is what an f-string writes for it. *)
Definition repr_list (l : list string) : string :=
  "[" +:+ join ", " (map repr_str l) +:+ "]".

(** Truth value, f-string rendering and dictionary value of the Python
    types of the operations' parameters. *)
Class PyType (A : Type) := {
  truthy : A -> bool;
  format : A -> string;
  to_value : A -> value
}.

#[export] Instance PyType_str : PyType string := {|
  truthy s := negb (String.eqb s EmptyString);
  format s := s;
  to_value s := VStr s
|}.

#[export] Instance PyType_bool : PyType bool := {|
  truthy b := b;
  format b := if b then "True" else "False";
  to_value b := VBool b
|}.

#[export] Instance PyType_list : PyType (list string) := {|
  truthy l := match l with [] => false | _ :: _ => true end;
  format l := repr_list l;
  to_value l := VList l
|}.

(** [T | None]. *)
#[export] Instance PyType_optional {A : Type} `{PyType A} : PyType (option A) := {|
  truthy o := match o with Some a => truthy a | None => false end;
  format o := match o with Some a => format a | None => "None" end;
  to_value o := match o with Some a => to_value a | None => VNone end
|}.

(** [x or default] for [x : str | None]. *)
Definition or_else (x : option string) (default : string) : string :=
  match x with
  | Some s => if truthy s then s else default
  | None => default
  end.

End Py.

(** ** [models/evaluation.py]: scoring enumerations and assessment records *)

Module models.

(** *** Validation of a pydantic model *)

(** The kinds of error the field declarations of this file can raise. *)
Inductive error_type : Type :=
| greater_than_equal
| less_than_equal
| literal_error.

(** One step of an error location: a field name or a list index. *)
Inductive loc_item : Type :=
| Field (name : string)
| Index (i : nat).

Record ErrorDetails : Type := {
  loc : list loc_item;
  type : error_type
}.

(** Either the validated instance or a [ValidationError] with its
    errors. *)
Inductive result (A : Type) : Type :=
| Ok (a : A)
| ValidationError (errors : list ErrorDetails).

#[global] Arguments Ok {A} a.
#[global] Arguments ValidationError {A} errors.

(** [int = Field(..., ge=lo, le=hi)]. *)
Definition check_ge_le (lo hi : Z) (field : string) (v : Z) : list ErrorDetails :=
  if v <? lo then [ {| loc := [Field field]; type := greater_than_equal |} ]
  else if hi <? v then [ {| loc := [Field field]; type := less_than_equal |} ]
  else [].

(** Every score of the file is declared [Field(..., ge=0, le=100)]. *)
Definition check_score : string -> Z -> list ErrorDetails := check_ge_le 0 100.

(** [Literal[a, b, ...]]. *)
Definition check_literal
    (allowed : list string) (field v : string) : list ErrorDetails :=
  if bool_decide (v ∈ allowed) then []
  else [ {| loc := [Field field]; type := literal_error |} ].

(** Errors of a nested model, reported under the field that holds it. *)
Definition under (item : loc_item) (errors : list ErrorDetails) : list ErrorDetails :=
  map (fun e => {| loc := item :: loc e; type := type e |}) errors.

(** Errors of the items of a list field, each under its index. *)
Fixpoint each_from {A : Type} (validate : A -> list ErrorDetails) (i : nat) (l : list A)
    : list ErrorDetails :=
  match l with
  | [] => []
  | a :: l' => under (Index i) (validate a) ++ each_from validate (S i) l'
  end.

Definition each {A : Type} (validate : A -> list ErrorDetails) (field : string) (l : list A)
    : list ErrorDetails :=
  under (Field field) (each_from validate 0 l).

(** A [BaseModel] subclass: the errors its field declarations find in a
    candidate instance. *)
Class BaseModel (M : Type) := { field_errors : M -> list ErrorDetails }.

(** Calling the class [M] on field values: the instance when no declaration is violated, and a
    [ValidationError] listing every violation otherwise. *)
Definition model_validate {M : Type} `{BaseModel M} (m : M) : result M :=
  match field_errors m with
  | [] => Ok m
  | e :: errors => ValidationError (e :: errors)
  end.

(** *** Scoring enums *)

(** [class ScoreLevel(IntEnum)], in the order of its declaration. *)
Inductive ScoreLevel : Type :=
| FAILING
| POOR
| NEEDS_WORK
| GOOD
| EXCELLENT.

Definition ScoreLevel_value (s : ScoreLevel) : Z :=
  match s with
  | FAILING => 0
  | POOR => 25
  | NEEDS_WORK => 50
  | GOOD => 75
  | EXCELLENT => 100
  end.

(** [list(ScoreLevel)]. *)
Definition ScoreLevel_members : list ScoreLevel :=
  [FAILING; POOR; NEEDS_WORK; GOOD; EXCELLENT].

(** [class Severity(IntEnum)]. *)
Inductive Severity : Type :=
| LOW
| MEDIUM
| HIGH
| CRITICAL.

Definition Severity_value (s : Severity) : Z :=
  match s with
  | LOW => 1
  | MEDIUM => 2
  | HIGH => 3
  | CRITICAL => 4
  end.

#[global] Instance ScoreLevel_eq_dec : EqDecision ScoreLevel.
Proof. solve_decision. Defined.

#[global] Instance Severity_eq_dec : EqDecision Severity.
Proof. solve_decision. Defined.

(** [list(Severity)]. *)
Definition Severity_members : list Severity := [LOW; MEDIUM; HIGH; CRITICAL].

(** An [IntEnum] compares as its integer value. *)
Definition ScoreLevel_lt (a b : ScoreLevel) : Prop := ScoreLevel_value a < ScoreLevel_value b.
Definition Severity_lt (a b : Severity) : Prop := Severity_value a < Severity_value b.

(** *** Positioning models *)

Module CompetitiveAlternative.
Record t : Type := {
  alternative_type : string;
  name : string;
  pain_points : list string;
  is_explicit : bool
}.
Definition alternative_type_literal : list string :=
  ["direct_competitor"; "manual_process"; "status_quo"; "homegrown"; "spreadsheets"].
Definition errors (m : t) : list ErrorDetails :=
  check_literal alternative_type_literal "alternative_type" (alternative_type m).
#[global] Instance model : BaseModel t := {| field_errors := errors |}.
End CompetitiveAlternative.

Module TargetCustomer.
Record t : Type := {
  role_title : option string;
  company_type : option string;
  company_size : option string;
  industry : option string;
  situation_trigger : option string;
  specificity_score : Z
}.
Definition errors (m : t) : list ErrorDetails :=
  check_score "specificity_score" (specificity_score m).
#[global] Instance model : BaseModel t := {| field_errors := errors |}.
End TargetCustomer.

Module Differentiation.
Record t : Type := {
  unique_approach : option string;
  key_capability : option string;
  is_defensible : bool;
  is_meaningful : bool;
  could_competitor_say_same : bool
}.
Definition errors (m : t) : list ErrorDetails := [].
#[global] Instance model : BaseModel t := {| field_errors := errors |}.
End Differentiation.

Module PositioningStrategy.
Record t : Type := {
  strategy_type : string;
  category_or_use_case : option string;
  competitive_frame_score : Z;
  target_audience_score : Z;
  differentiation_score : Z;
  problem_clarity_score : Z
}.
Definition strategy_type_literal : list string :=
  ["category_based"; "use_case_based"; "unclear"].
Definition errors (m : t) : list ErrorDetails :=
  check_literal strategy_type_literal "strategy_type" (strategy_type m)
  ++ check_score "competitive_frame_score" (competitive_frame_score m)
  ++ check_score "target_audience_score" (target_audience_score m)
  ++ check_score "differentiation_score" (differentiation_score m)
  ++ check_score "problem_clarity_score" (problem_clarity_score m).
#[global] Instance model : BaseModel t := {| field_errors := errors |}.
End PositioningStrategy.

Module PositioningAnalysis.
Record t : Type := {
  target_customer : TargetCustomer.t;
  competitive_alternative : option CompetitiveAlternative.t;
  differentiation : Differentiation.t;
  strategy : PositioningStrategy.t;
  overall_score : Z;
  strengths : list string;
  weaknesses : list string;
  refusing_to_pigeonhole : bool;
  positioning_on_outcomes_only : bool;
  platform_before_point_solution : bool;
  no_competitive_frame : bool
}.
Definition errors (m : t) : list ErrorDetails :=
  under (Field "target_customer") (TargetCustomer.errors (target_customer m))
  ++ under (Field "competitive_alternative")
       (match competitive_alternative m with
        | Some c => CompetitiveAlternative.errors c
        | None => []
        end)
  ++ under (Field "differentiation") (Differentiation.errors (differentiation m))
  ++ under (Field "strategy") (PositioningStrategy.errors (strategy m))
  ++ check_score "overall_score" (overall_score m).
#[global] Instance model : BaseModel t := {| field_errors := errors |}.
End PositioningAnalysis.

(** *** Messaging models *)

Module MessagingLayer.
Record t : Type := {
  layer_name : string;
  present : bool;
  quality_score : Z;
  content_found : option string;
  issues : list string
}.
Definition layer_name_literal : list string :=
  ["positioning_statement"; "value_proposition"; "key_messages"; "proof_points"; "micro_copy"].
Definition errors (m : t) : list ErrorDetails :=
  check_literal layer_name_literal "layer_name" (layer_name m)
  ++ check_score "quality_score" (quality_score m).
#[global] Instance model : BaseModel t := {| field_errors := errors |}.
End MessagingLayer.

Module MessagingHouse.
Record t : Type := {
  value_proposition : option string;
  pillars : list string;
  proof_points_per_pillar : gmap string (list string);
  foundation_defined : bool;
  structure_score : Z
}.
Definition errors (m : t) : list ErrorDetails :=
  check_score "structure_score" (structure_score m).
#[global] Instance model : BaseModel t := {| field_errors := errors |}.
End MessagingHouse.

Module MessagingAnalysis.
Record t : Type := {
  layers : list MessagingLayer.t;
  messaging_house : MessagingHouse.t;
  clarity_score : Z;
  specificity_score : Z;
  benefit_orientation_score : Z;
  feature_dumping : bool;
  jargon_buzzwords : list string;
  clever_over_clear : bool;
  saying_everything : bool;
  no_specificity : bool;
  overall_score : Z
}.
Definition errors (m : t) : list ErrorDetails :=
  each MessagingLayer.errors "layers" (layers m)
  ++ under (Field "messaging_house") (MessagingHouse.errors (messaging_house m))
  ++ check_score "clarity_score" (clarity_score m)
  ++ check_score "specificity_score" (specificity_score m)
  ++ check_score "benefit_orientation_score" (benefit_orientation_score m)
  ++ check_score "overall_score" (overall_score m).
#[global] Instance model : BaseModel t := {| field_errors := errors |}.
End MessagingAnalysis.

(** *** Homepage and asset models *)

Module FiveSecondTest.
Record t : Type := {
  what_they_do : string;
  who_its_for : string;
  whats_different : string;
  what_to_do_next : string;
  passed : bool;
  notes : string
}.
Definition clarity_literal : list string := ["clear"; "partial"; "unclear"].
Definition errors (m : t) : list ErrorDetails :=
  check_literal clarity_literal "what_they_do" (what_they_do m)
  ++ check_literal clarity_literal "who_its_for" (who_its_for m)
  ++ check_literal clarity_literal "whats_different" (whats_different m)
  ++ check_literal clarity_literal "what_to_do_next" (what_to_do_next m).
#[global] Instance model : BaseModel t := {| field_errors := errors |}.
End FiveSecondTest.

Module HeroSection.
Record t : Type := {
  headline : option string;
  subheadline : option string;
  cta_text : option string;
  social_proof_present : bool;
  headline_clarity_score : Z;
  cta_clarity_score : Z
}.
Definition errors (m : t) : list ErrorDetails :=
  check_score "headline_clarity_score" (headline_clarity_score m)
  ++ check_score "cta_clarity_score" (cta_clarity_score m).
#[global] Instance model : BaseModel t := {| field_errors := errors |}.
End HeroSection.

Module SocialProof.
Record t : Type := {
  logos_present : bool;
  logos_recognizable : bool;
  testimonials_present : bool;
  testimonials_have_names_titles : bool;
  metrics_present : bool;
  specific_results : bool;
  overall_score : Z
}.
Definition errors (m : t) : list ErrorDetails :=
  check_score "overall_score" (overall_score m).
#[global] Instance model : BaseModel t := {| field_errors := errors |}.
End SocialProof.

Module HomepageAnalysis.
Record t : Type := {
  five_second_test : FiveSecondTest.t;
  hero : HeroSection.t;
  social_proof : SocialProof.t;
  information_hierarchy_score : Z;
  scannable : bool;
  cta_count : Z;
  primary_cta_clear : bool;
  unclear_hero : bool;
  too_many_ctas : bool;
  missing_social_proof : bool;
  wall_of_text : bool;
  stock_photos : bool;
  overall_score : Z
}.
Definition errors (m : t) : list ErrorDetails :=
  under (Field "five_second_test") (FiveSecondTest.errors (five_second_test m))
  ++ under (Field "hero") (HeroSection.errors (hero m))
  ++ under (Field "social_proof") (SocialProof.errors (social_proof m))
  ++ check_score "information_hierarchy_score" (information_hierarchy_score m)
  ++ check_score "overall_score" (overall_score m).
#[global] Instance model : BaseModel t := {| field_errors := errors |}.
End HomepageAnalysis.

(** *** Issue tracking *)

Module PMMIssue.
Record t : Type := {
  category : string;
  severity : Severity;
  issue : string;
  why_it_matters : string;
  recommendation : string;
  suggested_rewrite : option string;
  location : option string
}.
Definition category_literal : list string :=
  ["positioning"; "messaging"; "homepage"; "icp"; "gtm"].
Definition errors (m : t) : list ErrorDetails :=
  check_literal category_literal "category" (category m).
#[global] Instance model : BaseModel t := {| field_errors := errors |}.
End PMMIssue.

Module PMMEvaluationResult.
Record t : Type := {
  asset_type : string;
  asset_url : option string;
  positioning : PositioningAnalysis.t;
  messaging : MessagingAnalysis.t;
  homepage : option HomepageAnalysis.t;
  critical_issues : list PMMIssue.t;
  high_priority_issues : list PMMIssue.t;
  medium_issues : list PMMIssue.t;
  low_issues : list PMMIssue.t;
  strengths : list string;
  overall_score : Z;
  ready_to_ship : bool;
  executive_summary : string;
  anti_patterns_detected : list string
}.
Definition asset_type_literal : list string :=
  ["homepage"; "landing_page"; "sales_deck"; "email"; "ad"; "other"].
Definition errors (m : t) : list ErrorDetails :=
  check_literal asset_type_literal "asset_type" (asset_type m)
  ++ under (Field "positioning") (PositioningAnalysis.errors (positioning m))
  ++ under (Field "messaging") (MessagingAnalysis.errors (messaging m))
  ++ under (Field "homepage")
       (match homepage m with
        | Some h => HomepageAnalysis.errors h
        | None => []
        end)
  ++ each PMMIssue.errors "critical_issues" (critical_issues m)
  ++ each PMMIssue.errors "high_priority_issues" (high_priority_issues m)
  ++ each PMMIssue.errors "medium_issues" (medium_issues m)
  ++ each PMMIssue.errors "low_issues" (low_issues m)
  ++ check_score "overall_score" (overall_score m).
#[global] Instance model : BaseModel t := {| field_errors := errors |}.
End PMMEvaluationResult.

(** *** Positioning canvas (template for generation) *)

Module PositioningCanvas.
Record t : Type := {
  role_title : string;
  company_type : string;
  company_size : string;
  industry : string;
  situation_trigger : string;
  primary_alternative : string;
  alternative_type : string;
  pain_point_1 : string;
  pain_point_2 : string;
  pain_point_3 : string;
  key_differentiator : string;
  methodology : string;
  unique_capability : string;
  primary_benefit : string;
  supporting_benefit : string;
  proof_point : string;
  positioning_approach : string;
  category_or_use_case : string;
  internal_positioning_statement : string;
  differentiation_summary : string;
  homepage_one_liner : string;
  is_validated : bool;
  validation_notes : option string
}.
Definition alternative_type_literal : list string :=
  ["direct_competitor"; "manual_process"; "status_quo"; "homegrown"].
Definition positioning_approach_literal : list string :=
  ["category_based"; "use_case_based"].
Definition errors (m : t) : list ErrorDetails :=
  check_literal alternative_type_literal "alternative_type" (alternative_type m)
  ++ check_literal positioning_approach_literal "positioning_approach" (positioning_approach m).
#[global] Instance model : BaseModel t := {| field_errors := errors |}.
End PositioningCanvas.

End models.

(** ** The template operations

    Every operation is a function decorated with [@tool] that returns
    [json.dumps] of one dictionary literal.  The definitions below build
    that dictionary, the JSON object a caller reads back; a parameter
    annotated [Literal[...]] is a [str] to the function body, which never
    checks the annotation. *)

(** *** [tools/evaluation.py] *)

Module evaluation.
Import Py.

(** [run_five_second_test] (lines 34-81): run a 5-second test on a marketing asset.
    Defaults: [asset_type = 'homepage']. *)
Definition run_five_second_test_instructions : string :=
"Analyze this asset and answer:

1. **What do they do?** (clear/partial/unclear)
   - Can you tell what the product/service is within 5 seconds?
   - Quote the text that tells you (or note its absence)

2. **Who is it for?** (clear/partial/unclear)
   - Is the target audience specific or generic?
   - Quote any persona/audience indicators

3. **What makes it different?** (clear/partial/unclear)
   - Is there a unique value proposition?
   - What's the competitive alternative?

4. **What to do next?** (clear/partial/unclear)
   - Is there a clear call-to-action?
   - Is there only ONE primary action?

**Final verdict:** PASS (3-4 clear), PARTIAL (1-2 clear), FAIL (0 clear)

Provide specific evidence for each answer.".

Definition run_five_second_test (asset_content asset_type : string) : dict :=
  {[ "task" := VStr "five_second_test";
     "instructions" := VStr run_five_second_test_instructions;
     "asset_content" := to_value asset_content;
     "asset_type" := to_value asset_type ]}.

(** [analyze_positioning] (lines 88-153): analyze the positioning strategy of a marketing asset.
    Defaults: [company_context = None]. *)
Definition analyze_positioning_instructions : string :=
"Analyze positioning using the Positioning Canvas:

## 1. TARGET CUSTOMER
- Role/Title: (identified or missing?)
- Company Type: (B2B, B2C, size, stage?)
- Industry: (specific or " +:+ dq +:+ "everyone" +:+ dq +:+ "?)
- Situation/Trigger: (what makes them buy now?)
- **Specificity Score (0-100):** How narrow is the targeting?

## 2. COMPETITIVE ALTERNATIVE
- Type: (direct competitor / manual process / status quo / homegrown)
- Named Alternative: (explicit or implied?)
- Is there a " +:+ dq +:+ "unlike X" +:+ dq +:+ " or " +:+ dq +:+ "instead of Y" +:+ dq +:+ "?
- **Frame Score (0-100):** How clear is what they replace?

## 3. DIFFERENTIATION
- Unique Approach: (what do they do differently?)
- Key Capability: (what can they do that others can't?)
- Is it defensible? (hard to copy)
- Is it meaningful? (customers care)
- Could competitor say the same thing?
- **Differentiation Score (0-100)**

## 4. PROBLEM/PAIN
- Is there a specific problem stated?
- Is it the customer's problem or the company's narrative?
- Is it specific or generic (" +:+ dq +:+ "increase revenue" +:+ dq +:+ ")?
- **Problem Clarity Score (0-100)**

## ANTI-PATTERNS DETECTED
- [ ] Refusing to Pigeonhole (serving everyone)
- [ ] Positioning on Outcomes Only (grow revenue)
- [ ] Platform Before Point Solution
- [ ] No Competitive Frame

## OVERALL POSITIONING SCORE (0-100)
- Weighted average of components
- List top 3 strengths
- List top 3 weaknesses".

Definition analyze_positioning (asset_content : string) (company_context : option string) : dict :=
  {[ "task" := VStr "positioning_analysis";
     "instructions" := VStr analyze_positioning_instructions;
     "asset_content" := to_value asset_content;
     "company_context" := to_value company_context ]}.

(** [analyze_messaging] (lines 160-239): analyze the messaging hierarchy of a marketing asset.
    Defaults: [target_persona = None]. *)
Definition analyze_messaging_instructions : string :=
"Analyze messaging using the 5-layer hierarchy:

## LAYER 1: POSITIONING STATEMENT
- Can you infer: " +:+ dq +:+ "For [target] who [situation], [product] is a [category] that [benefit]. Unlike [alternative], we [differentiator]" +:+ dq +:+ "?
- Score (0-100):

## LAYER 2: VALUE PROPOSITION
- Is there a clear value prop in the hero?
- Components present: Capability / Audience / Benefit / Differentiator
- Quote the value proposition if present
- Score (0-100):

## LAYER 3: KEY MESSAGES (Pillars)
- How many key messages/pillars?
- Are they benefit-oriented or feature lists?
- Quote each pillar
- Score (0-100):

## LAYER 4: PROOF POINTS
- Customer quotes present?
- Metrics/results with numbers?
- Logos present?
- Awards/recognition?
- Score (0-100):

## LAYER 5: MICRO-COPY
- CTA button text (benefit-oriented?)
- Headlines (clear or clever?)
- Consistent terminology?
- Score (0-100):

## MESSAGING HOUSE ASSESSMENT
```
Value Prop: [quote]
├── Pillar 1: [quote]
├── Pillar 2: [quote]
├── Pillar 3: [quote]
└── Foundation: [target audience]
```

## CLARITY TESTS
- **5-Second Clarity (0-100):** Immediate understanding?
- **Specificity (0-100):** Numbers, metrics, concrete outcomes?
- **Benefit-Orientation (0-100):** Features → benefits?

## ANTI-PATTERNS DETECTED
- [ ] Feature Dumping
- [ ] Jargon/Buzzwords (list them)
- [ ] Clever Over Clear
- [ ] Saying Everything
- [ ] No Specificity

## OVERALL MESSAGING SCORE (0-100)".

Definition analyze_messaging (asset_content : string) (target_persona : option string) : dict :=
  {[ "task" := VStr "messaging_analysis";
     "instructions" := VStr analyze_messaging_instructions;
     "asset_content" := to_value asset_content;
     "target_persona" := to_value target_persona ]}.

(** [analyze_homepage_structure] (lines 246-314): analyze the structure and UX of a homepage.
    Defaults: [include_screenshots = False]. *)
Definition analyze_homepage_structure_instructions : string :=
"Analyze homepage structure:

## HERO SECTION
- **Headline:** Quote it. Is it clear or clever?
- **Subheadline:** Does it support or repeat?
- **Primary CTA:** Text and placement
- **Social Proof in Hero:** Logos visible?
- **Headline Clarity Score (0-100)**
- **CTA Clarity Score (0-100)**

## INFORMATION HIERARCHY
- What's above the fold?
- Is most important info first?
- Is the page scannable?
- Score (0-100):

## CTA STRATEGY
- Count of CTAs above fold:
- Primary CTA obvious? (yes/no)
- Secondary path for not-ready visitors?
- **Too many CTAs?** (>3 = problem)

## SOCIAL PROOF
- Logos present? Recognizable?
- Testimonials present? Names/titles included?
- Metrics present? Specific results?
- Score (0-100):

## ANTI-PATTERNS DETECTED
- [ ] Unclear Hero
- [ ] Too Many CTAs
- [ ] Missing Social Proof
- [ ] Wall of Text
- [ ] Stock Photos

## SECTION-BY-SECTION BREAKDOWN
List each section with:
- Purpose
- Effectiveness (0-100)
- Issues

## OVERALL HOMEPAGE SCORE (0-100)".

Definition analyze_homepage_structure
    (asset_content : string) (include_screenshots : bool) : dict :=
  {[ "task" := VStr "homepage_structure_analysis";
     "instructions" := VStr analyze_homepage_structure_instructions;
     "asset_content" := to_value asset_content;
     "include_screenshots" := to_value include_screenshots ]}.

(** [detect_anti_patterns] (lines 321-425): scan a marketing asset for common PMM anti-patterns.
    Defaults: [asset_type = 'all']. *)
Definition detect_anti_patterns_instructions : string :=
"Scan for PMM anti-patterns:

## CRITICAL (Must Fix Immediately)

### 1. Refusing to Pigeonhole
- [ ] DETECTED? Evidence:
- Specific text:
- Impact:
- Fix:

### 2. Positioning on Outcomes Only
- [ ] DETECTED? Evidence:
- Specific text:
- Impact:
- Fix:

### 3. No Competitive Frame
- [ ] DETECTED? Evidence:
- Missing elements:
- Fix:

### 4. Unclear Hero (if homepage)
- [ ] DETECTED? Evidence:
- Specific text:
- Fix:

## HIGH PRIORITY (Should Fix)

### 5. Feature Dumping
- [ ] DETECTED?
- Feature list without benefits:
- Fix: " +:+ dq +:+ "So what?" +:+ dq +:+ " translation

### 6. Jargon/Buzzwords
- [ ] DETECTED?
- List all buzzwords found:
- Plain English alternatives:

### 7. Clever Over Clear
- [ ] DETECTED?
- Clever phrase:
- Clear alternative:

### 8. Too Many CTAs (if homepage)
- [ ] DETECTED?
- Count:
- Primary should be:

### 9. Missing Social Proof
- [ ] DETECTED?
- What's missing:
- Recommendation:

### 10. No Specificity
- [ ] DETECTED?
- Generic claims:
- Specific alternatives:

## MEDIUM PRIORITY

### 11. Platform Before Point Solution
- [ ] DETECTED?

### 12. Saying Everything
- [ ] DETECTED?
- Count of use cases/features:

### 13. Too Broad ICP
- [ ] DETECTED?

### 14. Wall of Text
- [ ] DETECTED?

## SUMMARY
- Critical issues: [count]
- High priority: [count]
- Medium: [count]
- Top 3 to fix first:".

Definition detect_anti_patterns (asset_content asset_type : string) : dict :=
  {[ "task" := VStr "anti_pattern_detection";
     "instructions" := VStr detect_anti_patterns_instructions;
     "asset_content" := to_value asset_content;
     "asset_type" := to_value asset_type ]}.

(** The annotation of [issue_type]: [Literal[...]] with eight values. *)
Definition issue_type_literal : list string :=
  ["unclear_headline"; "jargon_buzzwords"; "feature_dump"; "no_specificity";
   "clever_over_clear"; "weak_cta"; "generic_value_prop"; "no_competitive_frame"].

(** The fix approach of each issue type: the local table
    [rewrite_instructions] of [generate_rewrite]. *)
Definition rewrite_instructions : gmap string string :=
  {[ "unclear_headline" := "Rewrite to clearly state WHAT + WHO. No cleverness.";
     "jargon_buzzwords" := "Replace all jargon with customer language. Be specific.";
     "feature_dump" := "Apply 'So what?' to each feature until you reach benefit.";
     "no_specificity" := "Add numbers, timeframes, concrete outcomes.";
     "clever_over_clear" := "Make it boring and clear. State exactly what it does.";
     "weak_cta" := "Make CTA benefit-oriented. What happens when they click?";
     "generic_value_prop" := "Add problem + specific solution + for whom.";
     "no_competitive_frame" := "Add 'Unlike X' or 'Instead of Y' framing." ]}.

(** [generate_rewrite] (lines 432-492): generate improved copy based on identified issues.
    Defaults: [target_persona = None], [competitive_alternative = None]. *)
Definition generate_rewrite_instructions
    (original_copy issue_type : string)
    (target_persona competitive_alternative : option string) : string :=
  "Rewrite this copy to fix: "
  +:+ format issue_type
  +:+ "

**Original:**
"
  +:+ format original_copy
  +:+ "

**Issue:** "
  +:+ format issue_type
  +:+ "
**Fix approach:** "
  +:+ default "Improve clarity and specificity" (rewrite_instructions !! issue_type)
  +:+ "

**Target persona:** "
  +:+ or_else target_persona "Not specified"
  +:+ "
**Competitive alternative:** "
  +:+ or_else competitive_alternative "Not specified"
  +:+ "

Provide:
1. **Analysis:** Why the original fails
2. **Rewrite Option 1:** Conservative improvement
3. **Rewrite Option 2:** Bold improvement
4. **Rewrite Option 3:** If persona specified, persona-specific version
5. **Why these work:** Explanation of improvements".

Definition generate_rewrite
    (original_copy issue_type : string)
    (target_persona competitive_alternative : option string) : dict :=
  {[ "task" := VStr "copy_rewrite";
     "instructions" := VStr
       (generate_rewrite_instructions
          original_copy issue_type target_persona competitive_alternative);
     "original_copy" := to_value original_copy;
     "issue_type" := to_value issue_type ]}.

(** [build_competitive_frame] (lines 499-567): build a competitive frame for positioning.
    Defaults: [known_competitors = None], [current_positioning = None]. *)
Definition build_competitive_frame_instructions : string :=
"Build competitive frame:

## COMPETITIVE ALTERNATIVES ANALYSIS

### Option 1: Direct Competitor
- Who is the most obvious competitor?
- What's their weakness?
- Frame: " +:+ dq +:+ "Unlike [competitor], we..." +:+ dq +:+ "

### Option 2: Manual Process
- What do people do without this product?
- What's painful about it?
- Frame: " +:+ dq +:+ "Instead of [manual process], you can..." +:+ dq +:+ "

### Option 3: Status Quo
- What happens if they do nothing?
- What's the cost of inaction?
- Frame: " +:+ dq +:+ "Stop [painful status quo]. Start..." +:+ dq +:+ "

### Option 4: Homegrown Solution
- Do teams build this internally?
- Why does that fail?
- Frame: " +:+ dq +:+ "Replace your [homegrown solution] with..." +:+ dq +:+ "

## RECOMMENDED FRAME
- Primary alternative:
- Why this frame:
- Positioning statement using this frame:

## DIFFERENTIATION STATEMENTS
Generate 3 " +:+ dq +:+ "Unlike X, we Y" +:+ dq +:+ " statements:
1.
2.
3.

## VALIDATION QUESTIONS
To validate this frame, ask customers:
1.
2.
3.".

Definition build_competitive_frame
    (product_description : string) (known_competitors : option (list string))
    (current_positioning : option string) : dict :=
  {[ "task" := VStr "competitive_frame_building";
     "instructions" := VStr build_competitive_frame_instructions;
     "product_description" := to_value product_description;
     "known_competitors" := to_value known_competitors;
     "current_positioning" := to_value current_positioning ]}.

(** [analyze_icp] (lines 574-637):
    analyze how well an asset defines and targets an Ideal Customer Profile.
    Defaults: [additional_context = None]. *)
Definition analyze_icp_instructions : string :=
"Analyze ICP definition:

## FIRMOGRAPHICS IDENTIFIED
- Company Size: (specific or " +:+ dq +:+ "all sizes" +:+ dq +:+ "?)
- Industry: (specific or " +:+ dq +:+ "any industry" +:+ dq +:+ "?)
- Geography: (specific or global?)
- Tech Stack: (mentioned or not?)
- Specificity Score (0-100):

## SITUATION/TRIGGER
- What triggers the buy? (identified or missing?)
- Is there urgency? (why now?)
- Score (0-100):

## PAIN POINTS
- Specific pain identified?
- Cost of not solving?
- Score (0-100):

## PERSONA CLARITY
- Role/title specific?
- Buyer vs. user distinction?
- How many personas implied?
- Score (0-100):

## ANTI-PATTERNS
- [ ] Too Broad ICP
- [ ] Aspirational ICP (dream vs. actual customers)
- [ ] Demographic-Only (no situation/trigger)
- [ ] Too Many Personas

## INFERRED ICP
Based on the asset, the implied ICP is:
- Role:
- Company:
- Situation:
- Pain:

## RECOMMENDATIONS
- Is this specific enough to execute?
- What should be narrowed?
- What's missing?

## ICP CLARITY SCORE (0-100)".

Definition analyze_icp (asset_content : string) (additional_context : option string) : dict :=
  {[ "task" := VStr "icp_analysis";
     "instructions" := VStr analyze_icp_instructions;
     "asset_content" := to_value asset_content;
     "additional_context" := to_value additional_context ]}.

(** [run_complete_pmm_audit] (lines 644-783): run a complete PMM audit covering all aspects.
    Defaults: [asset_type = 'homepage'], [asset_url = None], [company_context = None]. *)
Definition run_complete_pmm_audit_instructions : string :=
"Run complete PMM audit:

# PMM AUDIT REPORT

## EXECUTIVE SUMMARY
(2-3 sentences on overall state)

## 1. 5-SECOND TEST
- What they do: clear/partial/unclear
- Who it's for: clear/partial/unclear
- What's different: clear/partial/unclear
- What to do next: clear/partial/unclear
- **VERDICT:** PASS/PARTIAL/FAIL

## 2. POSITIONING ANALYSIS
| Element | Score | Notes |
|---------|-------|-------|
| Competitive Frame | /100 | |
| Target Audience | /100 | |
| Differentiation | /100 | |
| Problem Clarity | /100 | |
| **OVERALL** | /100 | |

## 3. MESSAGING ANALYSIS
| Layer | Present | Score | Issues |
|-------|---------|-------|--------|
| Positioning Statement | Y/N | /100 | |
| Value Proposition | Y/N | /100 | |
| Key Messages | Y/N | /100 | |
| Proof Points | Y/N | /100 | |
| Micro-Copy | Y/N | /100 | |
| **OVERALL** | | /100 | |

## 4. HOMEPAGE STRUCTURE (if applicable)
| Element | Score | Issues |
|---------|-------|--------|
| Hero Clarity | /100 | |
| CTA Strategy | /100 | |
| Social Proof | /100 | |
| Information Hierarchy | /100 | |
| **OVERALL** | /100 | |

## 5. ANTI-PATTERNS DETECTED
### Critical (Must Fix)
1.
2.

### High Priority (Should Fix)
1.
2.

### Medium (Consider)
1.

## 6. ICP CLARITY
- Specificity Score: /100
- Issues:

## PRIORITIZED ISSUES

### Critical (Fix This Week)
| Issue | Location | Impact | Recommendation |
|-------|----------|--------|----------------|
| | | | |

### High Priority (Fix This Month)
| Issue | Location | Impact | Recommendation |
|-------|----------|--------|----------------|
| | | | |

### Nice to Have
| Issue | Location | Impact | Recommendation |
|-------|----------|--------|----------------|
| | | | |

## WHAT'S WORKING
1.
2.
3.

## KEY REWRITES NEEDED

**Current:** " +:+ dq +:+ "..." +:+ dq +:+ "
**Suggested:** " +:+ dq +:+ "..." +:+ dq +:+ "
**Why:** ...

(Repeat for top 3 copy issues)

## OVERALL SCORES
| Dimension | Score |
|-----------|-------|
| Positioning | /100 |
| Messaging | /100 |
| Homepage UX | /100 |
| ICP Clarity | /100 |
| **OVERALL PMM SCORE** | /100 |

## READY TO SHIP?
[ ] YES - Minor polish only
[ ] NEEDS WORK - Significant improvements needed
[ ] NO - Critical issues must be addressed

## NEXT STEPS
1.
2.
3.".

Definition run_complete_pmm_audit
    (asset_content asset_type : string) (asset_url company_context : option string) : dict :=
  {[ "task" := VStr "complete_pmm_audit";
     "instructions" := VStr run_complete_pmm_audit_instructions;
     "asset_content" := to_value asset_content;
     "asset_type" := to_value asset_type;
     "asset_url" := to_value asset_url;
     "company_context" := to_value company_context ]}.

End evaluation.

(** *** [tools/web.py] *)

Module web.
Import Py.

(** [fetch_homepage] (lines 12-77): fetch a homepage URL and extract content for PMM analysis.
    Defaults: [extract_mode = 'full']. *)
Definition fetch_homepage_instructions (url extract_mode : string) : string :=
  "Fetch and analyze the homepage at: "
  +:+ format url
  +:+ "

Extract and structure:

## HERO SECTION
- Headline (exact text)
- Subheadline (exact text)
- Primary CTA (button text)
- Secondary CTA (if present)
- Logo/brand name
- Navigation items
- Social proof in hero (logos, stats)

## ABOVE THE FOLD
- All visible text without scrolling
- Visual elements described
- Layout structure

## FULL PAGE SECTIONS (in order)
For each section:
- Section name/purpose
- Headline
- Key copy
- CTAs
- Social proof elements

## SOCIAL PROOF INVENTORY
- Logo bar: [list companies]
- Testimonials: [quote, name, title, company]
- Metrics: [specific numbers claimed]
- Case studies: [titles/summaries]
- Awards/badges: [list]

## CTA INVENTORY
List every CTA on the page:
- Text | Location | Primary/Secondary

## META INFORMATION
- Page title
- Meta description
- Open Graph tags (if visible)

Extract mode: "
  +:+ format extract_mode.

Definition fetch_homepage (url extract_mode : string) : dict :=
  {[ "task" := VStr "fetch_homepage";
     "instructions" := VStr (fetch_homepage_instructions url extract_mode);
     "url" := to_value url;
     "extract_mode" := to_value extract_mode ]}.

(** [fetch_competitor_homepage] (lines 80-133):
    fetch a competitor's homepage for comparative analysis.
    Defaults: [your_url = None]. *)
Definition fetch_competitor_homepage_instructions
    (competitor_url : string) (your_url : option string) : string :=
  "Analyze competitor homepage: "
  +:+ format competitor_url
  +:+ "

## COMPETITOR POSITIONING
- What do they claim to do?
- Who do they target?
- What's their key differentiator?
- What category do they claim?

## COMPETITOR MESSAGING
- Value proposition (hero)
- Key message pillars
- Proof points used
- CTA strategy

## COMPETITOR WEAKNESSES
- What's unclear?
- What's missing?
- What's overpromised?
- Where are they vulnerable?

## DIFFERENTIATION OPPORTUNITIES
Based on their positioning, you could:
1. Own a different segment
2. Solve a different problem
3. Use a different approach
4. Claim a different attribute

## COMPETITIVE FRAME SUGGESTIONS
" +:+ dq +:+ "Unlike [competitor], we..." +:+ dq +:+ "
1.
2.
3.

"
  +:+ (if truthy your_url then "Compare against your site: " +:+ format your_url else EmptyString).

Definition fetch_competitor_homepage (competitor_url : string) (your_url : option string) : dict :=
  {[ "task" := VStr "competitor_analysis";
     "instructions" := VStr (fetch_competitor_homepage_instructions competitor_url your_url);
     "competitor_url" := to_value competitor_url;
     "your_url" := to_value your_url ]}.

(** [analyze_landing_page] (lines 136-205): analyze a landing page for conversion optimization.
    Defaults: [campaign_context = None]. *)
Definition analyze_landing_page_instructions
    (url : string) (campaign_context : option string) : string :=
  "Analyze landing page: "
  +:+ format url
  +:+ "

## MESSAGE MATCH
- Does the headline match the likely ad/source?
- Is there message continuity?
- Score (0-100):

## SINGLE FOCUS
- Is there ONE clear offer?
- Are there distracting navigation/links?
- Score (0-100):

## VALUE PROPOSITION
- Is the value clear above fold?
- Is it specific to this offer?
- Score (0-100):

## FORM ANALYSIS (if present)
- Number of fields:
- Friction level:
- Value exchange clear?

## TRUST ELEMENTS
- Social proof present?
- Security indicators?
- Testimonials specific to offer?

## CTA ANALYSIS
- Primary CTA text:
- Is it benefit-oriented?
- Is there urgency/scarcity?
- Contrast and visibility?

## MOBILE CONSIDERATIONS
- Likely mobile-friendly?
- Key content above fold on mobile?

## CONVERSION BLOCKERS
List anything that might prevent conversion:
1.
2.
3.

## RECOMMENDATIONS
Priority fixes:
1.
2.
3.

"
  +:+ (if truthy campaign_context then "Campaign context: " +:+ format campaign_context
       else EmptyString).

Definition analyze_landing_page (url : string) (campaign_context : option string) : dict :=
  {[ "task" := VStr "landing_page_analysis";
     "instructions" := VStr (analyze_landing_page_instructions url campaign_context);
     "url" := to_value url;
     "campaign_context" := to_value campaign_context ]}.

(** [scrape_social_proof] (lines 208-272): extract and inventory all social proof from a page. *)
Definition scrape_social_proof_instructions (url : string) : string :=
  "Extract all social proof from: "
  +:+ format url
  +:+ "

## LOGO BAR
- Companies shown: [list all]
- Recognizable to target? (yes/partial/no)
- Placement on page:

## TESTIMONIALS
For each testimonial:
| Quote | Name | Title | Company | Specific Result? |
|-------|------|-------|---------|------------------|
| | | | | |

## METRICS/STATS
| Claim | Specific? | Believable? |
|-------|-----------|-------------|
| | | |

## CASE STUDIES
- Titles:
- Specific outcomes mentioned:
- Named companies:

## AWARDS/RECOGNITION
- Badges shown:
- Publications mentioned:
- Certifications:

## SOCIAL PROOF ASSESSMENT

### Strengths
- What's working well?

### Gaps
- What's missing?
- What would strengthen trust?

### Recommendations
1.
2.
3.

## SOCIAL PROOF SCORE (0-100)
- Quantity:
- Quality:
- Specificity:
- Relevance:
- **Overall:**".

Definition scrape_social_proof (url : string) : dict :=
  {[ "task" := VStr "social_proof_inventory";
     "instructions" := VStr (scrape_social_proof_instructions url);
     "url" := to_value url ]}.

End web.

(** *** [tools/creation.py] *)

Module creation.
Import Py.

(** [create_positioning_canvas] (lines 12-151): create a complete positioning canvas for a product.
    Defaults: [target_audience = None], [known_competitors = None], [unique_capabilities = None]. *)
Definition create_positioning_canvas_instructions
    (product_description : string) (target_audience : option string)
    (known_competitors unique_capabilities : option (list string)) : string :=
  "Create positioning canvas:

# POSITIONING CANVAS

## 1. TARGET CUSTOMER

**Role/Title:**
(Be specific - " +:+ dq +:+ "Marketing Directors at B2B SaaS companies" +:+ dq +:+ " not " +:+ dq +:+ "marketers" +:+ dq +:+ ")

**Company Type:**
(B2B/B2C, size, stage, characteristics)

**Industry:**
(Specific vertical or " +:+ dq +:+ "horizontal with focus on X" +:+ dq +:+ ")

**Situation/Trigger:**
(What event makes them look for this solution?)

**Validation:** Is this specific enough that you could build a target list?

---

## 2. COMPETITIVE ALTERNATIVE

**Primary Alternative:**
(What do they do today without your product?)

**Type:**
[ ] Direct Competitor: ___
[ ] Manual Process: ___
[ ] Status Quo: ___
[ ] Homegrown Solution: ___

---

## 3. WHY THAT SUCKS

**Pain Point 1:**
(Most urgent pain)

**Pain Point 2:**
(Second most important)

**Pain Point 3:**
(Supporting pain)

---

## 4. YOUR UNIQUE APPROACH

**Key Differentiator:**
(What do you do fundamentally differently?)

**Methodology/Approach:**
(How do you solve it differently?)

**Unique Capability:**
(What can you do that alternatives can't?)

---

## 5. WHY THAT'S BETTER

**Primary Benefit:**
(The main outcome customers get)

**Supporting Benefit:**
(Secondary value)

**Proof Point:**
(Evidence this is true)

---

## 6. POSITIONING STRATEGY

**Approach:**
[ ] Category-Based: Competing within ___
[ ] Use-Case-Based: Best for ___

---

## 7. POSITIONING STATEMENTS

**Internal Positioning Statement:**
" +:+ dq +:+ "For [target customer] who [situation], [product] is a [category] that [key benefit]. Unlike [competitive alternative], we [key differentiator]." +:+ dq +:+ "

**Differentiation Summary:**
" +:+ dq +:+ "Unlike [competitive alternative], which [problem with alternative], [product] [unique approach] so that [target customer] can [key benefit]." +:+ dq +:+ "

**Homepage One-Liner:**
" +:+ dq +:+ "[Product]: The [category/approach] for [audience]" +:+ dq +:+ "

---

## VALIDATION CHECKLIST

- [ ] Competitive alternative is clearly defined
- [ ] Target customer is specific (not " +:+ dq +:+ "everyone" +:+ dq +:+ ")
- [ ] Differentiation is meaningful (customers care)
- [ ] Differentiation is defensible (hard to copy)
- [ ] Problem/pain is explicit
- [ ] Could NOT be said by any competitor

Product: "
  +:+ format product_description
  +:+ "
"
  +:+ (if truthy target_audience then "Target: " +:+ format target_audience else EmptyString)
  +:+ "
"
  +:+ (if truthy known_competitors then "Competitors: " +:+ format known_competitors
       else EmptyString)
  +:+ "
"
  +:+ (if truthy unique_capabilities then "Unique capabilities: " +:+ format unique_capabilities
       else EmptyString).

Definition create_positioning_canvas
    (product_description : string) (target_audience : option string)
    (known_competitors unique_capabilities : option (list string)) : dict :=
  {[ "task" := VStr "create_positioning_canvas";
     "instructions" := VStr
       (create_positioning_canvas_instructions
          product_description target_audience known_competitors unique_capabilities);
     "product_description" := to_value product_description;
     "target_audience" := to_value target_audience;
     "known_competitors" := to_value known_competitors;
     "unique_capabilities" := to_value unique_capabilities ]}.

(** [create_messaging_framework] (lines 154-325): create a messaging framework based on positioning.
    Defaults: [primary_persona = None], [secondary_personas = None]. *)
Definition create_messaging_framework_instructions
    (positioning_canvas : string) (primary_persona : option string)
    (secondary_personas : option (list string)) : string :=
  "Create messaging framework:

# MESSAGING FRAMEWORK

## VALUE PROPOSITION
(Top of the messaging house - what you do + why it matters)

**Format:** [Product] helps [audience] [achieve outcome] by [unique approach].

**Value Prop:**


---

## MESSAGING HOUSE

```
┌─────────────────────────────────────────────────────┐
│              VALUE PROPOSITION                       │
│  [Write the value prop here]                        │
├─────────────────┬─────────────────┬─────────────────┤
│    PILLAR 1     │    PILLAR 2     │    PILLAR 3     │
│  [Main diff]    │  [Core benefit] │  [Trust/ease]   │
├─────────────────┼─────────────────┼─────────────────┤
│  • Proof 1      │  • Proof 1      │  • Proof 1      │
│  • Proof 2      │  • Proof 2      │  • Proof 2      │
│  • Proof 3      │  • Proof 3      │  • Proof 3      │
├─────────────────┴─────────────────┴─────────────────┤
│  FOUNDATION: [Target audience] + [Competitive alt]  │
└─────────────────────────────────────────────────────┘
```

---

## PILLAR 1: [Primary Differentiation]

**Key Message:**
(Benefit-oriented statement about your main differentiator)

**Supporting Points:**
1.
2.
3.

**Proof Points:**
- Metric:
- Testimonial:
- Case study:

---

## PILLAR 2: [Core Capability Benefit]

**Key Message:**


**Supporting Points:**
1.
2.
3.

**Proof Points:**
- Metric:
- Testimonial:
- Case study:

---

## PILLAR 3: [Trust/Ease/Speed]

**Key Message:**


**Supporting Points:**
1.
2.
3.

**Proof Points:**
- Metric:
- Testimonial:
- Case study:

---

## PERSONA-SPECIFIC MESSAGING

"
  +:+ (if truthy primary_persona then "### Primary Persona: " +:+ format primary_persona
       else "### Primary Persona")
  +:+ "

| Aspect | Message |
|--------|---------|
| Pain Point | |
| Desired Outcome | |
| Key Message | |
| Proof Point | |
| Likely Objection | |
| Objection Response | |

"
  +:+ (if truthy secondary_personas then "### Secondary Personas: " +:+ format secondary_personas
       else EmptyString)
  +:+ "

---

## HEADLINE OPTIONS

**Problem-led:**
1.
2.

**Solution-led:**
1.
2.

**Outcome-led:**
1.
2.

**Differentiation-led:**
1.
2.

---

## CTA OPTIONS

**Primary CTA (high intent):**
1.
2.

**Secondary CTA (low intent):**
1.
2.

---

## ELEVATOR PITCH

**30-second version:**


**10-second version:**


Positioning: "
  +:+ format positioning_canvas.

Definition create_messaging_framework
    (positioning_canvas : string) (primary_persona : option string)
    (secondary_personas : option (list string)) : dict :=
  {[ "task" := VStr "create_messaging_framework";
     "instructions" := VStr
       (create_messaging_framework_instructions
          positioning_canvas primary_persona secondary_personas);
     "positioning_canvas" := to_value positioning_canvas;
     "primary_persona" := to_value primary_persona;
     "secondary_personas" := to_value secondary_personas ]}.

(** [create_homepage_wireframe] (lines 328-502):
    create a homepage wireframe with PMM best practices.
    Defaults: [style = 'standard']. *)
Definition create_homepage_wireframe_instructions
    (messaging_framework style : string) : string :=
  "Create homepage wireframe:

# HOMEPAGE WIREFRAME

## SECTION 1: HERO

**Headline:**
(Clear, not clever. What you do + who for.)

**Subheadline:**
(Supports headline. Adds context, doesn't repeat.)

**Primary CTA:**
(Benefit-oriented. What happens when they click?)

**Secondary CTA:**
(For not-ready visitors. Lower commitment.)

**Social Proof in Hero:**
(Logo bar or key metric)

---

## SECTION 2: SOCIAL PROOF BAR

**Logos to include:**
(5-7 recognizable logos for target audience)

**Alternative if no logos:**
(Key metric or testimonial snippet)

---

## SECTION 3: PROBLEM/PAIN

**Headline:**
(Agitate the problem they have)

**Pain points:**
1.
2.
3.

---

## SECTION 4: SOLUTION/HOW IT WORKS

**Headline:**
(How you solve it)

**3 Steps or Features:**

| Step | Headline | Description |
|------|----------|-------------|
| 1 | | |
| 2 | | |
| 3 | | |

---

## SECTION 5: KEY BENEFITS (Pillars)

**Section Headline:**

**Benefit 1:**
- Headline:
- Description:
- Proof point:

**Benefit 2:**
- Headline:
- Description:
- Proof point:

**Benefit 3:**
- Headline:
- Description:
- Proof point:

---

## SECTION 6: SOCIAL PROOF DEEP

**Testimonial 1:**
- Quote:
- Name, Title, Company:
- Specific result:

**Testimonial 2:**
- Quote:
- Name, Title, Company:
- Specific result:

**Case Study Preview:**
- Company:
- Result:
- CTA to full case study:

---

## SECTION 7: DIFFERENTIATION

**Headline:**
(Why choose us over alternatives)

**Comparison or unique points:**

---

## SECTION 8: CTA SECTION

**Headline:**
(Final push - urgency or benefit)

**Primary CTA:**

**Friction reducers:**
(Free trial, no credit card, etc.)

---

## SECTION 9: FAQ (Optional)

**Q1:**
**A1:**

**Q2:**
**A2:**

**Q3:**
**A3:**

---

## SECTION 10: FOOTER CTA

**Headline:**

**CTA:**

---

## COPY CHECKLIST

- [ ] Hero passes 5-second test
- [ ] Only ONE primary CTA per section
- [ ] All features translated to benefits
- [ ] Social proof includes names and specifics
- [ ] No jargon or buzzwords
- [ ] Scannable structure

Style: "
  +:+ format style
  +:+ "
Messaging: "
  +:+ format messaging_framework.

Definition create_homepage_wireframe (messaging_framework style : string) : dict :=
  {[ "task" := VStr "create_homepage_wireframe";
     "instructions" := VStr (create_homepage_wireframe_instructions messaging_framework style);
     "messaging_framework" := to_value messaging_framework;
     "style" := to_value style ]}.

(** [generate_differentiation_statements] (lines 505-620):
    generate differentiation statements and positioning angles.
    Defaults: [target_audience = None]. *)
Definition generate_differentiation_statements_instructions
    (product_description competitive_alternative : string) (unique_capabilities : list string)
    (target_audience : option string) : string :=
  "Generate differentiation statements:

# DIFFERENTIATION STATEMENTS

## " +:+ dq +:+ "UNLIKE X, WE Y" +:+ dq +:+ " STATEMENTS

**Statement 1 (Primary):**
" +:+ dq +:+ "Unlike [alternative], which [problem], [product] [unique approach] so you can [benefit]." +:+ dq +:+ "

**Statement 2:**


**Statement 3:**


**Statement 4:**


**Statement 5:**


---

## POSITIONING ANGLES

### Angle 1: Problem-Focused
" +:+ dq +:+ "Stop [painful thing]. Start [better outcome]." +:+ dq +:+ "

### Angle 2: Audience-Focused
" +:+ dq +:+ "The [category] built for [specific audience]." +:+ dq +:+ "

### Angle 3: Approach-Focused
" +:+ dq +:+ "The only [category] that [unique approach]." +:+ dq +:+ "

### Angle 4: Outcome-Focused
" +:+ dq +:+ "[Achieve outcome] in [timeframe/easier way]." +:+ dq +:+ "

### Angle 5: Anti-Alternative
" +:+ dq +:+ "[Alternative] wasn't built for [your use case]. We were." +:+ dq +:+ "

---

## CATEGORY OPTIONS

**Option 1: Existing Category**
" +:+ dq +:+ "The [existing category] for [your segment]" +:+ dq +:+ "
Example:

**Option 2: New Category**
" +:+ dq +:+ "[New category name] - [definition]" +:+ dq +:+ "
Example:

**Option 3: Use Case**
" +:+ dq +:+ "The best way to [specific job-to-be-done]" +:+ dq +:+ "
Example:

---

## HEADLINE OPTIONS

**Clear and Direct:**
1.
2.
3.

**Problem-Agitation:**
1.
2.
3.

**Differentiation-Led:**
1.
2.
3.

---

## VALIDATION QUESTIONS

To test these with customers, ask:
1. " +:+ dq +:+ "Does this describe a problem you have?" +:+ dq +:+ "
2. " +:+ dq +:+ "Does this sound different from [competitor]?" +:+ dq +:+ "
3. " +:+ dq +:+ "Would this make you want to learn more?" +:+ dq +:+ "

Product: "
  +:+ format product_description
  +:+ "
Alternative: "
  +:+ format competitive_alternative
  +:+ "
Capabilities: "
  +:+ format unique_capabilities
  +:+ "
"
  +:+ (if truthy target_audience then "Audience: " +:+ format target_audience else EmptyString).

Definition generate_differentiation_statements
    (product_description competitive_alternative : string) (unique_capabilities : list string)
    (target_audience : option string) : dict :=
  {[ "task" := VStr "generate_differentiation";
     "instructions" := VStr
       (generate_differentiation_statements_instructions
          product_description competitive_alternative unique_capabilities target_audience);
     "product_description" := to_value product_description;
     "competitive_alternative" := to_value competitive_alternative;
     "unique_capabilities" := to_value unique_capabilities;
     "target_audience" := to_value target_audience ]}.

End creation.

(** ** The tool objects

    What the [@tool] decorator makes of each function: an object with the
    function's name and signature.  The registry of [agent.py] and the
    specialists of [subagents/specialists.py] list these objects. *)

Module Tool.

Inductive t : Type :=
| run_five_second_test
| analyze_positioning
| analyze_messaging
| analyze_homepage_structure
| detect_anti_patterns
| generate_rewrite
| build_competitive_frame
| analyze_icp
| run_complete_pmm_audit
| fetch_homepage
| fetch_competitor_homepage
| analyze_landing_page
| scrape_social_proof
| create_positioning_canvas
| create_messaging_framework
| create_homepage_wireframe
| generate_differentiation_statements.

#[global] Instance eq_dec : EqDecision t.
Proof. solve_decision. Defined.

(** The tool's name: the name of the decorated function. *)
Definition name (tool : t) : string :=
  match tool with
  | run_five_second_test => "run_five_second_test"
  | analyze_positioning => "analyze_positioning"
  | analyze_messaging => "analyze_messaging"
  | analyze_homepage_structure => "analyze_homepage_structure"
  | detect_anti_patterns => "detect_anti_patterns"
  | generate_rewrite => "generate_rewrite"
  | build_competitive_frame => "build_competitive_frame"
  | analyze_icp => "analyze_icp"
  | run_complete_pmm_audit => "run_complete_pmm_audit"
  | fetch_homepage => "fetch_homepage"
  | fetch_competitor_homepage => "fetch_competitor_homepage"
  | analyze_landing_page => "analyze_landing_page"
  | scrape_social_proof => "scrape_social_proof"
  | create_positioning_canvas => "create_positioning_canvas"
  | create_messaging_framework => "create_messaging_framework"
  | create_homepage_wireframe => "create_homepage_wireframe"
  | generate_differentiation_statements => "generate_differentiation_statements"
  end.

(** The parameters of the decorated function, in order. *)
Definition parameters (tool : t) : list string :=
  match tool with
  | run_five_second_test => ["asset_content"; "asset_type"]
  | analyze_positioning => ["asset_content"; "company_context"]
  | analyze_messaging => ["asset_content"; "target_persona"]
  | analyze_homepage_structure => ["asset_content"; "include_screenshots"]
  | detect_anti_patterns => ["asset_content"; "asset_type"]
  | generate_rewrite =>
      ["original_copy"; "issue_type"; "target_persona"; "competitive_alternative"]
  | build_competitive_frame =>
      ["product_description"; "known_competitors"; "current_positioning"]
  | analyze_icp => ["asset_content"; "additional_context"]
  | run_complete_pmm_audit =>
      ["asset_content"; "asset_type"; "asset_url"; "company_context"]
  | fetch_homepage => ["url"; "extract_mode"]
  | fetch_competitor_homepage => ["competitor_url"; "your_url"]
  | analyze_landing_page => ["url"; "campaign_context"]
  | scrape_social_proof => ["url"]
  | create_positioning_canvas =>
      ["product_description"; "target_audience"; "known_competitors"; "unique_capabilities"]
  | create_messaging_framework =>
      ["positioning_canvas"; "primary_persona"; "secondary_personas"]
  | create_homepage_wireframe => ["messaging_framework"; "style"]
  | generate_differentiation_statements =>
      ["product_description"; "competitive_alternative"; "unique_capabilities";
       "target_audience"]
  end.

(** The defaults of the signature: each optional parameter with the value
    it takes when the caller leaves it out. *)
Definition defaults (tool : t) : list (string * Py.value) :=
  match tool with
  | run_five_second_test => [("asset_type", Py.VStr "homepage")]
  | analyze_positioning => [("company_context", Py.VNone)]
  | analyze_messaging => [("target_persona", Py.VNone)]
  | analyze_homepage_structure => [("include_screenshots", Py.VBool false)]
  | detect_anti_patterns => [("asset_type", Py.VStr "all")]
  | generate_rewrite => [("target_persona", Py.VNone); ("competitive_alternative", Py.VNone)]
  | build_competitive_frame =>
      [("known_competitors", Py.VNone); ("current_positioning", Py.VNone)]
  | analyze_icp => [("additional_context", Py.VNone)]
  | run_complete_pmm_audit =>
      [("asset_type", Py.VStr "homepage"); ("asset_url", Py.VNone);
       ("company_context", Py.VNone)]
  | fetch_homepage => [("extract_mode", Py.VStr "full")]
  | fetch_competitor_homepage => [("your_url", Py.VNone)]
  | analyze_landing_page => [("campaign_context", Py.VNone)]
  | scrape_social_proof => []
  | create_positioning_canvas =>
      [("target_audience", Py.VNone); ("known_competitors", Py.VNone);
       ("unique_capabilities", Py.VNone)]
  | create_messaging_framework =>
      [("primary_persona", Py.VNone); ("secondary_personas", Py.VNone)]
  | create_homepage_wireframe => [("style", Py.VStr "standard")]
  | generate_differentiation_statements => [("target_audience", Py.VNone)]
  end.

(** The optional parameters: those the signature gives a default. *)
Definition optional_parameters (tool : t) : list string := map fst (defaults tool).

End Tool.

(** ** [prompts.py]

    The system prompts are string constants that the factory and the
    specialists pass on unread; they are modelled by their names.
    [COMPETITIVE_ANALYST_PROMPT] is the one [specialists.py] defines
    itself. *)

Module prompts.

Inductive t : Type :=
| PMM_EVALUATOR_SYSTEM_PROMPT
| POSITIONING_ANALYST_PROMPT
| MESSAGING_ANALYST_PROMPT
| HOMEPAGE_ANALYST_PROMPT
| ANTI_PATTERN_DETECTOR_PROMPT
| ICP_ANALYST_PROMPT
| COMPETITIVE_ANALYST_PROMPT.

End prompts.

(** ** [subagents/specialists.py] *)

Module specialists.
Import Py.

(** A subagent configuration: the dictionary with the keys [name],
    [description], [system_prompt] and [tools]. *)
Record SubAgent : Type := {
  name : string;
  description : string;
  system_prompt : prompts.t;
  tools : list Tool.t
}.

Definition positioning_analyst_subagent : SubAgent := {|
  name := "positioning-analyst";
  description := "Use this subagent when you need deep analysis of positioning strategy.

    Specializes in:
    - Positioning Canvas analysis (April Dunford methodology)
    - Competitive frame evaluation
    - Target customer specificity assessment
    - Differentiation meaningfulness and defensibility
    - Category vs. use-case positioning decisions

    Use for:
    - " +:+ dq +:+ "Analyze the positioning of this homepage" +:+ dq +:+ "
    - " +:+ dq +:+ "Is the competitive frame clear?" +:+ dq +:+ "
    - " +:+ dq +:+ "How specific is the target audience?" +:+ dq +:+ "
    - " +:+ dq +:+ "Is the differentiation defensible?" +:+ dq +:+ "
    ";
  system_prompt := prompts.POSITIONING_ANALYST_PROMPT;
  tools :=
    [Tool.analyze_positioning;
     Tool.build_competitive_frame;
     Tool.create_positioning_canvas;
     Tool.generate_differentiation_statements;
     Tool.fetch_competitor_homepage]
|}.

Definition messaging_analyst_subagent : SubAgent := {|
  name := "messaging-analyst";
  description := "Use this subagent when you need deep analysis of messaging.

    Specializes in:
    - Five-layer messaging hierarchy assessment
    - Messaging house structure evaluation
    - Clarity and specificity scoring
    - Feature-to-benefit translation
    - Copy rewriting for clarity

    Use for:
    - " +:+ dq +:+ "Analyze the messaging layers" +:+ dq +:+ "
    - " +:+ dq +:+ "Is the value proposition clear?" +:+ dq +:+ "
    - " +:+ dq +:+ "Are features translated to benefits?" +:+ dq +:+ "
    - " +:+ dq +:+ "Rewrite this jargon-filled copy" +:+ dq +:+ "
    ";
  system_prompt := prompts.MESSAGING_ANALYST_PROMPT;
  tools := [Tool.analyze_messaging; Tool.generate_rewrite; Tool.detect_anti_patterns]
|}.

Definition homepage_analyst_subagent : SubAgent := {|
  name := "homepage-analyst";
  description := "Use this subagent when you need deep analysis of homepage structure and UX.

    Specializes in:
    - 5-second test execution
    - Hero section effectiveness
    - Information hierarchy assessment
    - CTA strategy evaluation
    - Social proof audit

    Use for:
    - " +:+ dq +:+ "Does this homepage pass the 5-second test?" +:+ dq +:+ "
    - " +:+ dq +:+ "Is the hero section effective?" +:+ dq +:+ "
    - " +:+ dq +:+ "How's the CTA strategy?" +:+ dq +:+ "
    - " +:+ dq +:+ "What social proof is missing?" +:+ dq +:+ "
    ";
  system_prompt := prompts.HOMEPAGE_ANALYST_PROMPT;
  tools := [Tool.fetch_homepage; Tool.detect_anti_patterns; Tool.generate_rewrite]
|}.

Definition anti_pattern_detector_subagent : SubAgent := {|
  name := "anti-pattern-detector";
  description := "Use this subagent to scan for PMM anti-patterns and mistakes.

    Detects:
    - Positioning anti-patterns (pigeonholing refusal, outcome-only, no frame)
    - Messaging anti-patterns (jargon, feature dumps, clever over clear)
    - Homepage anti-patterns (unclear hero, too many CTAs)
    - ICP anti-patterns (too broad, aspirational)
    - GTM anti-patterns (founder bias, sales-driven positioning)

    Use for:
    - " +:+ dq +:+ "What anti-patterns exist in this asset?" +:+ dq +:+ "
    - " +:+ dq +:+ "Scan for common PMM mistakes" +:+ dq +:+ "
    - " +:+ dq +:+ "What's hurting conversion?" +:+ dq +:+ "
    ";
  system_prompt := prompts.ANTI_PATTERN_DETECTOR_PROMPT;
  tools := [Tool.detect_anti_patterns; Tool.generate_rewrite]
|}.

Definition icp_analyst_subagent : SubAgent := {|
  name := "icp-analyst";
  description := "Use this subagent for Ideal Customer Profile analysis.

    Specializes in:
    - ICP specificity assessment
    - Persona definition evaluation
    - Situation/trigger identification
    - Firmographic analysis
    - Buyer vs. user distinction

    Use for:
    - " +:+ dq +:+ "How specific is the ICP?" +:+ dq +:+ "
    - " +:+ dq +:+ "Is the target audience well-defined?" +:+ dq +:+ "
    - " +:+ dq +:+ "What triggers the buying decision?" +:+ dq +:+ "
    - " +:+ dq +:+ "Are there too many personas?" +:+ dq +:+ "
    ";
  system_prompt := prompts.ICP_ANALYST_PROMPT;
  tools := [Tool.analyze_icp; Tool.detect_anti_patterns]
|}.

Definition competitive_analyst_subagent : SubAgent := {|
  name := "competitive-analyst";
  description := "Use this subagent for competitive analysis and differentiation.

    Specializes in:
    - Competitor homepage analysis
    - Competitive positioning gaps
    - Differentiation opportunity identification
    - " +:+ dq +:+ "Unlike X, we Y" +:+ dq +:+ " statement generation

    Use for:
    - " +:+ dq +:+ "How do we position against [competitor]?" +:+ dq +:+ "
    - " +:+ dq +:+ "What's our differentiation opportunity?" +:+ dq +:+ "
    - " +:+ dq +:+ "Analyze this competitor's positioning" +:+ dq +:+ "
    ";
  system_prompt := prompts.COMPETITIVE_ANALYST_PROMPT;
  tools :=
    [Tool.fetch_competitor_homepage;
     Tool.build_competitive_frame;
     Tool.generate_differentiation_statements;
     Tool.analyze_positioning]
|}.

Definition PMM_SUBAGENTS : list SubAgent :=
  [positioning_analyst_subagent;
   messaging_analyst_subagent;
   homepage_analyst_subagent;
   anti_pattern_detector_subagent;
   icp_analyst_subagent;
   competitive_analyst_subagent].

End specialists.

(** ** [agent.py]: tool registry and agent factory *)

Module agent.
Import Py.

Definition DEFAULT_MODEL : string := "claude-sonnet-4-20250514".

(** The arguments [get_model] builds its [ChatAnthropic] from. *)
Record ChatAnthropic : Type := {
  model_name : string;
  max_tokens : Z
}.

Definition get_model (model_name : option string) : ChatAnthropic :=
  let name := or_else model_name DEFAULT_MODEL in
  Build_ChatAnthropic name 20000.

(** [os.getenv(LANGGRAPH_API_URL) is not None], read once when the module
    is loaded. *)
Definition running_in_langgraph_api (environ : gmap string string) : bool :=
  bool_decide (is_Some (environ !! "LANGGRAPH_API_URL")).

(** Evaluation tools - for analyzing existing assets. *)
Definition EVALUATION_TOOLS : list Tool.t :=
  [Tool.run_five_second_test;
   Tool.analyze_positioning;
   Tool.analyze_messaging;
   Tool.analyze_homepage_structure;
   Tool.detect_anti_patterns;
   Tool.generate_rewrite;
   Tool.build_competitive_frame;
   Tool.analyze_icp;
   Tool.run_complete_pmm_audit].

(** Web tools - for fetching and analyzing live sites. *)
Definition WEB_TOOLS : list Tool.t :=
  [Tool.fetch_homepage;
   Tool.fetch_competitor_homepage;
   Tool.analyze_landing_page;
   Tool.scrape_social_proof].

(** Creation tools - for generating PMM assets. *)
Definition CREATION_TOOLS : list Tool.t :=
  [Tool.create_positioning_canvas;
   Tool.create_messaging_framework;
   Tool.create_homepage_wireframe;
   Tool.generate_differentiation_statements].

(** All tools combined. *)
Definition ALL_TOOLS : list Tool.t := EVALUATION_TOOLS ++ WEB_TOOLS ++ CREATION_TOOLS.

(** The external agent constructor, known by the arguments it is called
    with. *)
Record DeepAgent : Type := create_deep_agent {
  model : ChatAnthropic;
  tools : list Tool.t;
  subagents : list specialists.SubAgent;
  system_prompt : prompts.t;
  checkpointer : option bool;
  interrupt_on : gmap string bool
}.

(** [create_pmm_agent(model=None, mode=full, use_memory=True,
    include_subagents=True)].  [in_langgraph_api] is the module-level flag
    [running_in_langgraph_api]. *)
Definition create_pmm_agent
    (in_langgraph_api : bool) (model : option string) (mode : string)
    (use_memory include_subagents : bool) : DeepAgent :=
  let tools :=
    if String.eqb mode "evaluate" then EVALUATION_TOOLS ++ WEB_TOOLS
    else if String.eqb mode "create" then CREATION_TOOLS
    else ALL_TOOLS in
  let subagents := if include_subagents then specialists.PMM_SUBAGENTS else [] in
  let model_instance := get_model model in
  create_deep_agent
    model_instance
    tools
    subagents
    prompts.PMM_EVALUATOR_SYSTEM_PROMPT
    (if use_memory && negb in_langgraph_api then Some true else None)
    {[ "create_positioning_canvas" := true;
       "create_messaging_framework" := true;
       "create_homepage_wireframe" := true ]}.

End agent.

(** ** Calling a template operation

    A call names the operation and gives every parameter its value: the
    caller's, or the default of the signature. *)

Import Py.

Inductive call : Type :=
| Call_run_five_second_test (asset_content asset_type : string)
| Call_analyze_positioning (asset_content : string) (company_context : option string)
| Call_analyze_messaging (asset_content : string) (target_persona : option string)
| Call_analyze_homepage_structure (asset_content : string) (include_screenshots : bool)
| Call_detect_anti_patterns (asset_content asset_type : string)
| Call_generate_rewrite (original_copy issue_type : string)
    (target_persona competitive_alternative : option string)
| Call_build_competitive_frame (product_description : string)
    (known_competitors : option (list string)) (current_positioning : option string)
| Call_analyze_icp (asset_content : string) (additional_context : option string)
| Call_run_complete_pmm_audit (asset_content asset_type : string)
    (asset_url company_context : option string)
| Call_fetch_homepage (url extract_mode : string)
| Call_fetch_competitor_homepage (competitor_url : string) (your_url : option string)
| Call_analyze_landing_page (url : string) (campaign_context : option string)
| Call_scrape_social_proof (url : string)
| Call_create_positioning_canvas (product_description : string)
    (target_audience : option string) (known_competitors unique_capabilities : option (list string))
| Call_create_messaging_framework (positioning_canvas : string)
    (primary_persona : option string) (secondary_personas : option (list string))
| Call_create_homepage_wireframe (messaging_framework style : string)
| Call_generate_differentiation_statements (product_description competitive_alternative : string)
    (unique_capabilities : list string) (target_audience : option string).

(** The operation a call is made to. *)
Definition callee (c : call) : Tool.t :=
  match c with
  | Call_run_five_second_test _ _ => Tool.run_five_second_test
  | Call_analyze_positioning _ _ => Tool.analyze_positioning
  | Call_analyze_messaging _ _ => Tool.analyze_messaging
  | Call_analyze_homepage_structure _ _ => Tool.analyze_homepage_structure
  | Call_detect_anti_patterns _ _ => Tool.detect_anti_patterns
  | Call_generate_rewrite _ _ _ _ => Tool.generate_rewrite
  | Call_build_competitive_frame _ _ _ => Tool.build_competitive_frame
  | Call_analyze_icp _ _ => Tool.analyze_icp
  | Call_run_complete_pmm_audit _ _ _ _ => Tool.run_complete_pmm_audit
  | Call_fetch_homepage _ _ => Tool.fetch_homepage
  | Call_fetch_competitor_homepage _ _ => Tool.fetch_competitor_homepage
  | Call_analyze_landing_page _ _ => Tool.analyze_landing_page
  | Call_scrape_social_proof _ => Tool.scrape_social_proof
  | Call_create_positioning_canvas _ _ _ _ => Tool.create_positioning_canvas
  | Call_create_messaging_framework _ _ _ => Tool.create_messaging_framework
  | Call_create_homepage_wireframe _ _ => Tool.create_homepage_wireframe
  | Call_generate_differentiation_statements _ _ _ _ => Tool.generate_differentiation_statements
  end.

(** The values of the parameters, in the order of [Tool.parameters]. *)
Definition argument_values (c : call) : list value :=
  match c with
  | Call_run_five_second_test a b => [to_value a; to_value b]
  | Call_analyze_positioning a b => [to_value a; to_value b]
  | Call_analyze_messaging a b => [to_value a; to_value b]
  | Call_analyze_homepage_structure a b => [to_value a; to_value b]
  | Call_detect_anti_patterns a b => [to_value a; to_value b]
  | Call_generate_rewrite a b c d => [to_value a; to_value b; to_value c; to_value d]
  | Call_build_competitive_frame a b c => [to_value a; to_value b; to_value c]
  | Call_analyze_icp a b => [to_value a; to_value b]
  | Call_run_complete_pmm_audit a b c d => [to_value a; to_value b; to_value c; to_value d]
  | Call_fetch_homepage a b => [to_value a; to_value b]
  | Call_fetch_competitor_homepage a b => [to_value a; to_value b]
  | Call_analyze_landing_page a b => [to_value a; to_value b]
  | Call_scrape_social_proof a => [to_value a]
  | Call_create_positioning_canvas a b c d => [to_value a; to_value b; to_value c; to_value d]
  | Call_create_messaging_framework a b c => [to_value a; to_value b; to_value c]
  | Call_create_homepage_wireframe a b => [to_value a; to_value b]
  | Call_generate_differentiation_statements a b c d =>
      [to_value a; to_value b; to_value c; to_value d]
  end.

(** The arguments of a call: each parameter's name with its value. *)
Definition arguments (c : call) : list (string * value) :=
  zip (Tool.parameters (callee c)) (argument_values c).

(** Running the call: the dictionary the operation builds. *)
Definition invoke (c : call) : dict :=
  match c with
  | Call_run_five_second_test a b => evaluation.run_five_second_test a b
  | Call_analyze_positioning a b => evaluation.analyze_positioning a b
  | Call_analyze_messaging a b => evaluation.analyze_messaging a b
  | Call_analyze_homepage_structure a b => evaluation.analyze_homepage_structure a b
  | Call_detect_anti_patterns a b => evaluation.detect_anti_patterns a b
  | Call_generate_rewrite a b c d => evaluation.generate_rewrite a b c d
  | Call_build_competitive_frame a b c => evaluation.build_competitive_frame a b c
  | Call_analyze_icp a b => evaluation.analyze_icp a b
  | Call_run_complete_pmm_audit a b c d => evaluation.run_complete_pmm_audit a b c d
  | Call_fetch_homepage a b => web.fetch_homepage a b
  | Call_fetch_competitor_homepage a b => web.fetch_competitor_homepage a b
  | Call_analyze_landing_page a b => web.analyze_landing_page a b
  | Call_scrape_social_proof a => web.scrape_social_proof a
  | Call_create_positioning_canvas a b c d => creation.create_positioning_canvas a b c d
  | Call_create_messaging_framework a b c => creation.create_messaging_framework a b c
  | Call_create_homepage_wireframe a b => creation.create_homepage_wireframe a b
  | Call_generate_differentiation_statements a b c d =>
      creation.generate_differentiation_statements a b c d
  end.

(** The string stored under a key of a dictionary, if there is one. *)
Definition get_str (d : dict) (key : string) : option string :=
  match d !! key with
  | Some (VStr s) => Some s
  | _ => None
  end.

(** The [instructions] text of a call's result (empty if the key held no
    string, which no operation produces). *)
Definition instructions (c : call) : string :=
  default EmptyString (get_str (invoke c) "instructions").

(** The operations whose [instructions] is an f-string over the
    parameters, and those whose [instructions] is a plain literal. *)
Definition interpolating_tools : list Tool.t :=
  [Tool.generate_rewrite;
   Tool.fetch_homepage; Tool.fetch_competitor_homepage; Tool.analyze_landing_page;
   Tool.scrape_social_proof;
   Tool.create_positioning_canvas; Tool.create_messaging_framework;
   Tool.create_homepage_wireframe; Tool.generate_differentiation_statements].

Definition literal_tools : list Tool.t :=
  [Tool.run_five_second_test; Tool.analyze_positioning; Tool.analyze_messaging;
   Tool.analyze_homepage_structure; Tool.detect_anti_patterns;
   Tool.build_competitive_frame; Tool.analyze_icp; Tool.run_complete_pmm_audit].


(** ** The argument schema of a tool

    What the package exposes under the name of an operation is the object
    the [@tool] decorator builds from the function.  Called, it checks
    the arguments against the schema it derives from the signature and
    then runs the function: a parameter annotated [Literal[...]] takes one
    of the listed strings, and a call that gives it anything else raises a
    [ValidationError] and returns nothing. *)

(** The [Literal] annotations of the signatures. *)
Definition literal_annotations (tool : Tool.t) : list (string * list string) :=
  match tool with
  | Tool.run_five_second_test =>
      [("asset_type", ["homepage"; "landing_page"; "sales_deck"; "email"; "ad"])]
  | Tool.detect_anti_patterns =>
      [("asset_type", ["homepage"; "landing_page"; "sales_deck"; "email"; "ad"; "all"])]
  | Tool.generate_rewrite => [("issue_type", evaluation.issue_type_literal)]
  | Tool.run_complete_pmm_audit =>
      [("asset_type", ["homepage"; "landing_page"; "sales_deck"; "email"; "ad"])]
  | Tool.fetch_homepage => [("extract_mode", ["full"; "above_fold"; "hero_only"])]
  | Tool.create_homepage_wireframe => [("style", ["minimal"; "standard"; "comprehensive"])]
  | _ => []
  end.

(** The errors the schema of [tool] finds in one argument. *)
Definition argument_errors (tool : Tool.t) (argument : string * value)
    : list models.ErrorDetails :=
  let (key, v) := argument in
  match (list_to_map (literal_annotations tool) : gmap string (list string)) !! key with
  | Some allowed =>
      match v with
      | VStr s => models.check_literal allowed key s
      | _ => [ {| models.loc := [models.Field key]; models.type := models.literal_error |} ]
      end
  | None => []
  end.

Definition schema_errors (c : call) : list models.ErrorDetails :=
  concat (map (argument_errors (callee c)) (arguments c)).

(** [tool.invoke(arguments)]: the envelope, or the [ValidationError] of
    the schema. *)
Definition tool_invoke (c : call) : models.result dict :=
  match schema_errors c with
  | [] => models.Ok (invoke c)
  | e :: errors => models.ValidationError (e :: errors)
  end.

(** ** [agent.py]: quick start functions

    Each of them builds an agent and hands it one user message; what the
    agent answers is outside this package.  A function is modelled by the
    request it makes: the agent it builds and the messages it sends. *)

Module quick_start.
Import Py.

Record Message : Type := {
  role : string;
  content : string
}.

(** [agent.invoke] called on a dictionary with the key [messages]. *)
Record Request : Type := {
  receiver : agent.DeepAgent;
  messages : list Message
}.

(** [evaluate_homepage(url, model=None)]. *)
Definition evaluate_homepage (in_langgraph_api : bool) (url : string) (model : option string)
    : Request :=
  let agent := agent.create_pmm_agent in_langgraph_api model "evaluate" true true in
  {| receiver := agent;
     messages :=
       [ {| role := "user";
            content :=
              "Run a complete PMM audit on the homepage at " +:+ format url +:+ ". "
              +:+ "Include 5-second test, positioning analysis, messaging analysis, "
              +:+ "and anti-pattern detection. Provide prioritized recommendations." |} ] |}.

(** The text [create_positioning] accumulates in its variable [prompt]. *)
Definition create_positioning_prompt (product_description : string)
    (target_audience : option string) (competitors : option (list string)) : string :=
  let prompt := "Create a positioning canvas for: " +:+ format product_description in
  let prompt :=
    if truthy target_audience
    then prompt +:+ (nl +:+ "Target audience: " +:+ format target_audience)
    else prompt in
  let prompt :=
    if truthy competitors
    then prompt +:+ (nl +:+ "Competitors: " +:+ join ", " (default [] competitors))
    else prompt in
  prompt +:+ (nl +:+ nl +:+ "After the positioning canvas, also create a messaging framework.").

(** [create_positioning(product_description, target_audience=None,
    competitors=None, model=None)]. *)
Definition create_positioning (in_langgraph_api : bool) (product_description : string)
    (target_audience : option string) (competitors : option (list string))
    (model : option string) : Request :=
  let agent := agent.create_pmm_agent in_langgraph_api model "create" true true in
  {| receiver := agent;
     messages :=
       [ {| role := "user";
            content :=
              create_positioning_prompt product_description target_audience competitors |} ] |}.

(** The variable [competitor_list] of [compare_competitors]: one line per
    competitor, a dash before each URL. *)
Definition competitor_list (competitor_urls : list string) : string :=
  join nl (map (fun url => "- " +:+ format url) competitor_urls).

(** [compare_competitors(your_url, competitor_urls, model=None)]. *)
Definition compare_competitors (in_langgraph_api : bool) (your_url : string)
    (competitor_urls : list string) (model : option string) : Request :=
  let agent := agent.create_pmm_agent in_langgraph_api model "evaluate" true true in
  {| receiver := agent;
     messages :=
       [ {| role := "user";
            content :=
              "Analyze my homepage (" +:+ format your_url +:+ ") against these competitors:
" +:+ competitor_list competitor_urls +:+ "

For each competitor:
1. Analyze their positioning and messaging
2. Identify their weaknesses
3. Find differentiation opportunities for me

Then provide:
- Overall competitive landscape summary
- My unique positioning opportunities
- " +:+ dq +:+ "Unlike X, we Y" +:+ dq +:+ " statements for each competitor
- Recommended positioning angle
" |} ] |}.

End quick_start.

(** ** [cli.py]: the interactive shell

    The shell reads lines, prints text and calls the agent.  Its run is
    modelled over an explicit console: the events still to come on
    standard input, the text written so far, the agent, and the prompts
    sent to it.  What Python and the agent runtime supply is taken as a
    parameter: [str.strip], [str.lower], the agent built from the
    arguments of [create_deep_agent], and its answer to a prompt. *)

Module cli.
Import Py.

(** An exception, with the text [str] gives for it. [KeyboardInterrupt]
    is not an [Exception]. *)
Inductive exception : Type :=
| KeyboardInterrupt
| Exception (text : string).

(** [EOFError], which [input] raises at the end of standard input, with
    the text Python gives it. *)
Definition EOFError : exception := Exception "EOF when reading a line".

(** What a call of [input] meets while standard input has something to
    give: a line, or an exception raised while reading (Ctrl-C, a
    failing stream). *)
Inductive event : Type :=
| Line (text : string)
| Raises (e : exception).

(** What the shell writes: [print(text)], or the prompt of an [input]. *)
Inductive output : Type :=
| Print (text : string)
| Ask (prompt : string).

Class Runtime : Type := {
  strip : string -> string;
  lower : string -> string;
  Agent : Type;
  start : agent.DeepAgent -> Agent;
  invoke : Agent -> string -> Agent * (string + exception)
}.

Section Shell.
Context `{Runtime}.

(** The console of a run: the events standard input still holds; whether
    standard input ends after them (a file or a pipe, read to its end) or
    stays open (a terminal, where the next read waits for the user); what
    was written; the agent; and the prompts sent to it. *)
Record console : Type := {
  stdin : list event;
  stdin_closed : bool;
  stdout : list output;
  pmm_agent : Agent;
  sent : list string
}.

(** How a step ends: with a value, with an exception, or waiting for input
    that has not come yet (on an open standard input only). *)
Inductive outcome (A : Type) : Type :=
| Return (a : A)
| Raised (e : exception)
| Blocked.

#[global] Arguments Return {A} a.
#[global] Arguments Raised {A} e.
#[global] Arguments Blocked {A}.

Definition M (A : Type) : Type := console -> outcome A * console.

Definition ret {A : Type} (a : A) : M A := fun c => (Return a, c).

Definition bind {A B : Type} (m : M A) (k : A -> M B) : M B :=
  fun c =>
    match m c with
    | (Return a, c') => k a c'
    | (Raised e, c') => (Raised e, c')
    | (Blocked, c') => (Blocked, c')
    end.

Notation "x <- m ;; k" := (bind m (fun x => k))
  (at level 100, m at next level, right associativity).
Notation "m ;; k" := (bind m (fun _ => k))
  (at level 100, right associativity).

Definition write (o : output) (c : console) : console :=
  {| stdin := stdin c; stdin_closed := stdin_closed c; stdout := stdout c ++ [o];
     pmm_agent := pmm_agent c; sent := sent c |}.

(** [print(text)]. *)
Definition print (text : string) : M unit := fun c => (Return tt, write (Print text) c).

(** [input(prompt)]: writes the prompt, then takes the next event. When
    there is none, the read raises [EOFError] if standard input has ended,
    and it does so on every further call; otherwise it waits. *)
Definition input (prompt : string) : M string :=
  fun c =>
    let c := write (Ask prompt) c in
    match stdin c with
    | [] => if stdin_closed c then (Raised EOFError, c) else (Blocked, c)
    | Line text :: rest =>
        (Return text,
         {| stdin := rest; stdin_closed := stdin_closed c; stdout := stdout c;
            pmm_agent := pmm_agent c; sent := sent c |})
    | Raises e :: rest =>
        (Raised e,
         {| stdin := rest; stdin_closed := stdin_closed c; stdout := stdout c;
            pmm_agent := pmm_agent c; sent := sent c |})
    end.

(** [agent.invoke] on one user message, giving the content of the last
    message of the result. *)
Definition ask_agent (prompt : string) : M string :=
  fun c =>
    let (agent', answer) := invoke (pmm_agent c) prompt in
    let c' :=
      {| stdin := stdin c; stdin_closed := stdin_closed c; stdout := stdout c;
         pmm_agent := agent'; sent := sent c ++ [prompt] |} in
    match answer with
    | inl response => (Return response, c')
    | inr e => (Raised e, c')
    end.

(** [try: m except Exception as e: handler(str(e))]. *)
Definition try_except_Exception {A : Type} (m : M A) (handler : string -> M A) : M A :=
  fun c =>
    match m c with
    | (Raised (Exception text), c') => handler text c'
    | other => other
    end.

(** [s * n]. *)
Fixpoint repeat_str (s : string) (n : nat) : string :=
  match n with
  | O => EmptyString
  | S n' => s +:+ repeat_str s n'
  end.

Definition print_welcome : M unit :=
  print (nl +:+ repeat_str "=" 60) ;;
  print "  PMM Deep Agent - Product Marketing Evaluator" ;;
  print (repeat_str "=" 60) ;;
  print EmptyString ;;
  print "Evaluate positioning, messaging, and marketing assets" ;;
  print "using proven PMM frameworks (April Dunford, Fletch PMM)." ;;
  print EmptyString ;;
  print (repeat_str "-" 60) ;;
  print "Quick picks (type the number):" ;;
  print EmptyString ;;
  print "  1. Analyze a homepage URL" ;;
  print "  2. Run a 5-second test" ;;
  print "  3. Detect anti-patterns" ;;
  print "  4. Create positioning canvas" ;;
  print "  5. Build messaging framework" ;;
  print "  6. Compare against competitor" ;;
  print EmptyString ;;
  print (repeat_str "-" 60) ;;
  print "Or just type a question in plain English." ;;
  print "Type 'help' for examples, 'quit' to exit." ;;
  print (repeat_str "=" 60 +:+ nl).

Definition QUICK_PICKS : gmap string string :=
  {[ "1" := "analyze_homepage";
     "2" := "five_second_test";
     "3" := "anti_patterns";
     "4" := "positioning_canvas";
     "5" := "messaging_framework";
     "6" := "competitor_compare" ]}.

(** [run_prompt(agent, prompt)]. *)
Definition run_prompt (prompt : string) : M unit :=
  print (nl +:+ "Analyzing..." +:+ nl) ;;
  try_except_Exception
    (response <- ask_agent prompt ;;
     print response ;;
     print EmptyString)
    (fun e => print (nl +:+ "Error: " +:+ e +:+ nl)).

(** [handle_quick_pick(pick, agent)]. *)
Definition handle_quick_pick (pick : string) : M unit :=
  let action := QUICK_PICKS !! pick in
  if bool_decide (action = Some "analyze_homepage") then
    line <- input "Enter homepage URL: " ;;
    let url := strip line in
    if negb (truthy url) then print "No URL provided."
    else
      run_prompt
        ("Run a complete PMM audit on " +:+ url
         +:+ ". Include 5-second test, positioning analysis, messaging analysis, and anti-pattern detection.")
  else if bool_decide (action = Some "five_second_test") then
    line <- input "Enter URL to test: " ;;
    let url := strip line in
    if negb (truthy url) then print "No URL provided."
    else
      run_prompt
        ("Run a 5-second test on " +:+ url
         +:+ ". Tell me: What do they do? Who is it for? What makes them different? What should I do next?")
  else if bool_decide (action = Some "anti_patterns") then
    line <- input "Enter URL to scan: " ;;
    let url := strip line in
    if negb (truthy url) then print "No URL provided."
    else
      run_prompt
        ("Scan " +:+ url
         +:+ " for PMM anti-patterns. Look for: unclear positioning, jargon, feature dumping, missing social proof, too many CTAs.")
  else if bool_decide (action = Some "positioning_canvas") then
    line <- input "Describe your product: " ;;
    let product := strip line in
    if negb (truthy product) then print "No product description provided."
    else
      line <- input "Who is it for? (optional): " ;;
      let audience := strip line in
      line <- input "Competitors? (optional, comma-separated): " ;;
      let competitors := strip line in
      let prompt := "Create a positioning canvas for: " +:+ product in
      let prompt :=
        if truthy audience then prompt +:+ (nl +:+ "Target audience: " +:+ audience)
        else prompt in
      let prompt :=
        if truthy competitors then prompt +:+ (nl +:+ "Competitors: " +:+ competitors)
        else prompt in
      run_prompt prompt
  else if bool_decide (action = Some "messaging_framework") then
    line <- input "Describe your product: " ;;
    let product := strip line in
    if negb (truthy product) then print "No product description provided."
    else
      run_prompt
        ("Create a complete messaging framework for: " +:+ product
         +:+ ". Include value proposition, 3 key message pillars, and proof points.")
  else if bool_decide (action = Some "competitor_compare") then
    line <- input "Your homepage URL: " ;;
    let your_url := strip line in
    line <- input "Competitor URL: " ;;
    let competitor_url := strip line in
    if negb (truthy your_url) || negb (truthy competitor_url)
    then print "Both URLs are required."
    else
      run_prompt
        ("Compare my homepage (" +:+ your_url +:+ ") against this competitor ("
         +:+ competitor_url
         +:+ "). Identify their weaknesses and my differentiation opportunities.")
  else print "Unknown action.".

(** How one pass through the body of the loop of [main] ends. *)
Inductive control : Type :=
| Continue
| Break.

(** The [try] block of the loop. *)
Definition loop_body : M control :=
  line <- input "You: " ;;
  let user_input := strip line in
  if bool_decide (lower user_input ∈ ["exit"; "quit"; "q"; "bye"]) then
    print (nl +:+ "Goodbye!") ;; ret Break
  else if negb (truthy user_input) then ret Continue
  else if bool_decide (lower user_input ∈ ["help"; "?"; "h"]) then
    print_welcome ;; ret Continue
  else if bool_decide (is_Some (QUICK_PICKS !! user_input)) then
    handle_quick_pick user_input ;; ret Continue
  else run_prompt user_input ;; ret Continue.

(** The [try] block with its two handlers. *)
Definition iteration : M control :=
  fun c =>
    match loop_body c with
    | (Raised KeyboardInterrupt, c') =>
        (print (nl +:+ nl +:+ "Goodbye!") ;; ret Break) c'
    | (Raised (Exception text), c') =>
        (print (nl +:+ "Error: " +:+ text +:+ nl) ;;
         print ("Try a different question, or type 'help' for examples." +:+ nl) ;;
         ret Continue) c'
    | other => other
    end.

(** How a run of the shell stands: [main] returned, the process left by
    [sys.exit], the shell waits for input, an exception escaped, or the
    loop is still going after the given number of passes. *)
Inductive status : Type :=
| Returned
| SystemExit (code : Z)
| Waiting
| Crashed (e : exception)
| OutOfFuel.

(** [while True], for at most [fuel] passes. *)
Fixpoint loop (fuel : nat) (c : console) : status * console :=
  match fuel with
  | O => (OutOfFuel, c)
  | S fuel' =>
      match iteration c with
      | (Return Continue, c') => loop fuel' c'
      | (Return Break, c') => (Returned, c')
      | (Raised e, c') => (Crashed e, c')
      | (Blocked, c') => (Waiting, c')
      end
  end.

(** What a run leaves behind. *)
Record session : Type := {
  state : status;
  transcript : list output;
  prompts : list string;
  unread : list event
}.

(** [main()], followed for at most [fuel] passes of its loop, on a
    standard input that delivers [events] and then has ended ([closed]) or
    stays open.  [environ] is the environment as [load_dotenv] left it. *)
Definition run_main (fuel : nat) (closed : bool) (environ : gmap string string)
    (events : list event) : session :=
  if negb (truthy (environ !! "ANTHROPIC_API_KEY")) then
    {| state := SystemExit 1;
       transcript :=
         [Print "Error: ANTHROPIC_API_KEY not set.";
          Print "Create a .env file with your API key or set the environment variable."];
       prompts := [];
       unread := events |}
  else
    let agent :=
      start (agent.create_pmm_agent (agent.running_in_langgraph_api environ)
               None "full" true true) in
    let c :=
      {| stdin := events;
         stdin_closed := closed;
         stdout := [Print (nl +:+ "Initializing PMM Deep Agent..."); Print "Ready!"];
         pmm_agent := agent;
         sent := [] |} in
    match print_welcome c with
    | (_, c) =>
        let (st, c') := loop fuel c in
        {| state := st; transcript := stdout c'; prompts := sent c'; unread := stdin c' |}
    end.

(** [main()] at a terminal: standard input stays open after [events].
    There every pass of the loop that goes on takes at least one event,
    so one pass more than there are events is enough, and no larger number
    of passes changes the outcome. *)
Definition main (environ : gmap string string) (events : list event) : session :=
  run_main (S (length events)) false environ events.

End Shell.

End cli.

(** ** Vocabulary of the statements *)

Import models.

(** A score is valid when it lies in the closed range from 0 to 100. *)
Definition in_score_range (v : Z) : Prop := 0 <= v <= 100.

(** A candidate was accepted: construction returned the instance. *)
Definition accepted {M : Type} `{BaseModel M} (m : M) : Prop :=
  model_validate m = Ok m.

(** A candidate was refused: construction raised [ValidationError] with at
    least one error. *)
Definition rejected {M : Type} `{BaseModel M} (m : M) : Prop :=
  exists errors, errors <> [] /\ model_validate m = ValidationError errors.

(** The field [get] of the model [M] is enforced as a score: a candidate
    whose value is out of range is refused, whatever its other fields. *)
Definition score_enforced {M : Type} `{BaseModel M} (get : M -> Z) : Prop :=
  forall m : M, ~ in_score_range (get m) -> rejected m.

(** A character that [repr] writes as it is inside single quotes: a
    printable ASCII character other than the single quote and the
    backslash. *)
Definition plain_char (c : ascii) : bool :=
  negb (Ascii.eqb c squote) && negb (Ascii.eqb c backslash)
  && Nat.leb 32 (nat_of_ascii c) && Nat.ltb (nat_of_ascii c) 127.

Fixpoint plain (s : string) : bool :=
  match s with
  | EmptyString => true
  | String c s' => plain_char c && plain s'
  end.

(** Every score of an audit result, those of its nested analyses
    included. *)
Definition positioning_scores (m : PositioningAnalysis.t) : list Z :=
  [TargetCustomer.specificity_score (PositioningAnalysis.target_customer m);
   PositioningStrategy.competitive_frame_score (PositioningAnalysis.strategy m);
   PositioningStrategy.target_audience_score (PositioningAnalysis.strategy m);
   PositioningStrategy.differentiation_score (PositioningAnalysis.strategy m);
   PositioningStrategy.problem_clarity_score (PositioningAnalysis.strategy m);
   PositioningAnalysis.overall_score m].

Definition messaging_scores (m : MessagingAnalysis.t) : list Z :=
  map MessagingLayer.quality_score (MessagingAnalysis.layers m)
  ++ [MessagingHouse.structure_score (MessagingAnalysis.messaging_house m);
      MessagingAnalysis.clarity_score m;
      MessagingAnalysis.specificity_score m;
      MessagingAnalysis.benefit_orientation_score m;
      MessagingAnalysis.overall_score m].

Definition homepage_scores (m : HomepageAnalysis.t) : list Z :=
  [HeroSection.headline_clarity_score (HomepageAnalysis.hero m);
   HeroSection.cta_clarity_score (HomepageAnalysis.hero m);
   SocialProof.overall_score (HomepageAnalysis.social_proof m);
   HomepageAnalysis.information_hierarchy_score m;
   HomepageAnalysis.overall_score m].

Definition all_scores (m : PMMEvaluationResult.t) : list Z :=
  positioning_scores (PMMEvaluationResult.positioning m)
  ++ messaging_scores (PMMEvaluationResult.messaging m)
  ++ match PMMEvaluationResult.homepage m with
     | Some h => homepage_scores h
     | None => []
     end
  ++ [PMMEvaluationResult.overall_score m].

(** Python's truth test on an argument value, negated: [None], [False],
    the empty string and the empty list. *)
Definition falsy (v : value) : bool :=
  match v with
  | VNone => true
  | VBool b => negb b
  | VStr s => negb (truthy s)
  | VList l => negb (truthy l)
  end.

(** Two values that a template renders alike: the same value, or two empty
    ones. *)
Definition alike (v1 v2 : value) : Prop :=
  v1 = v2 \/ (falsy v1 = true /\ falsy v2 = true).

(** The tools the subagents of an agent hold between them. *)
Definition delegated_tools (a : agent.DeepAgent) : list Tool.t :=
  concat (map specialists.tools (agent.subagents a)).

(** ** Vocabulary of the shell's runs *)

(** The number of lines among some events of standard input. *)
Fixpoint lines_read (events : list cli.event) : nat :=
  match events with
  | [] => 0
  | cli.Line _ :: rest => S (lines_read rest)
  | cli.Raises _ :: rest => lines_read rest
  end.

(** Standard input has ended and nothing of it is left to read. *)
Definition at_end `{cli.Runtime} (c : cli.console) : Prop :=
  cli.stdin c = [] /\ cli.stdin_closed c = true.

(** What a step of the shell did, seen from outside: whenever it takes the
    console [c] to [c'] with outcome [r], it has read some events from the
    front of standard input and sent some prompts to the agent, in this
    order, and [Q] holds of the three and of whether [c'] is at the end of
    standard input.  A step never opens or closes standard input, and one
    that stops to wait has used up an open standard input. *)
Definition satisfies `{cli.Runtime} {A : Type} (m : cli.M A)
    (Q : cli.outcome A -> list cli.event -> list string -> Prop -> Prop) : Prop :=
  forall (c : cli.console) (r : cli.outcome A) (c' : cli.console),
    m c = (r, c') ->
    exists (consumed : list cli.event) (new : list string),
      cli.stdin c = consumed ++ cli.stdin c' /\
      cli.sent c' = cli.sent c ++ new /\
      cli.stdin_closed c' = cli.stdin_closed c /\
      (r = cli.Blocked -> cli.stdin c' = [] /\ cli.stdin_closed c' = false) /\
      Q r consumed new (at_end c').

(** The environment holds an API key that is not empty. *)
Definition api_key_set (environ : gmap string string) : Prop :=
  exists key : string, environ !! "ANTHROPIC_API_KEY" = Some key /\ key <> EmptyString.

(** What the loop of [main] writes when a read fails with an exception
    whose text is [text]. *)
Definition failed_read_report (text : string) : list cli.output :=
  [cli.Ask "You: ";
   cli.Print (nl +:+ "Error: " +:+ text +:+ nl);
   cli.Print ("Try a different question, or type 'help' for examples." +:+ nl)].

(** What a quick pick did, in terms of the lines it read and the prompts
    it sent. *)
Definition quick_pick_effect `{cli.Runtime} (pick : string)
    (r : cli.outcome unit) (consumed : list cli.event) (new : list string)
    (ended : Prop) : Prop :=
  (forall p : string,
     p ∈ new ->
     new = [p] /\ p <> EmptyString /\
     forall text : string, cli.Line text ∈ consumed -> Substring (cli.strip text) p) /\
  (forall e : cli.exception, cli.Raises e ∈ consumed -> r = cli.Raised e) /\
  (new <> [] -> exists text : string, cli.Line text ∈ consumed /\ cli.strip text <> EmptyString) /\
  (is_Some (cli.QUICK_PICKS !! pick) -> r = cli.Return tt ->
   consumed <> [] /\
   ((forall text : string, cli.Line text ∈ consumed -> cli.strip text <> EmptyString) ->
    new <> [])) /\
  (cli.QUICK_PICKS !! pick = None -> r = cli.Return tt /\ consumed = [] /\ new = []).

(** What one pass through the body of the loop did.  It has read
    something unless it waits, or unless it met the end of standard input
    at its first read. *)
Definition pass_effect `{cli.Runtime} (r : cli.outcome cli.control)
    (consumed : list cli.event) (new : list string) (ended : Prop) : Prop :=
  Forall (fun p : string => p <> EmptyString) new /\
  (length new <= lines_read consumed)%nat /\
  (forall e : cli.exception, cli.Raises e ∈ consumed -> r = cli.Raised e) /\
  (r <> cli.Blocked ->
   consumed <> [] \/ (r = cli.Raised cli.EOFError /\ new = [] /\ ended)).

(** What one pass of the loop did, handlers included. *)
Definition iteration_effect `{cli.Runtime} (r : cli.outcome cli.control)
    (consumed : list cli.event) (new : list string) (ended : Prop) : Prop :=
  Forall (fun p : string => p <> EmptyString) new /\
  (length new <= lines_read consumed)%nat /\
  (cli.Raises cli.KeyboardInterrupt ∈ consumed -> r = cli.Return cli.Break) /\
  match r with
  | cli.Return cli.Break => consumed <> []
  | cli.Return cli.Continue => consumed <> [] \/ (new = [] /\ ended)
  | cli.Raised _ => False
  | cli.Blocked => True
  end.

(** ** Concrete inputs *)

Definition target_customer_with_score (score : Z) : TargetCustomer.t := {|
  TargetCustomer.role_title := Some "Marketing Director";
  TargetCustomer.company_type := Some "B2B SaaS";
  TargetCustomer.company_size := None;
  TargetCustomer.industry := None;
  TargetCustomer.situation_trigger := None;
  TargetCustomer.specificity_score := score
|}.

Definition alternative_of_type (alternative_type : string) : CompetitiveAlternative.t := {|
  CompetitiveAlternative.alternative_type := alternative_type;
  CompetitiveAlternative.name := "Excel";
  CompetitiveAlternative.pain_points := ["manual"; "error-prone"];
  CompetitiveAlternative.is_explicit := true
|}.

Definition canvas_of_type (alternative_type : string) : PositioningCanvas.t := {|
  PositioningCanvas.role_title := "Marketing Director";
  PositioningCanvas.company_type := "B2B SaaS";
  PositioningCanvas.company_size := "50-200";
  PositioningCanvas.industry := "Software";
  PositioningCanvas.situation_trigger := "New funding round";
  PositioningCanvas.primary_alternative := "Excel";
  PositioningCanvas.alternative_type := alternative_type;
  PositioningCanvas.pain_point_1 := "manual";
  PositioningCanvas.pain_point_2 := "error-prone";
  PositioningCanvas.pain_point_3 := "slow";
  PositioningCanvas.key_differentiator := "automation";
  PositioningCanvas.methodology := "templates";
  PositioningCanvas.unique_capability := "live sync";
  PositioningCanvas.primary_benefit := "saves time";
  PositioningCanvas.supporting_benefit := "fewer errors";
  PositioningCanvas.proof_point := "case study";
  PositioningCanvas.positioning_approach := "use_case_based";
  PositioningCanvas.category_or_use_case := "reporting";
  PositioningCanvas.internal_positioning_statement := "For marketing directors";
  PositioningCanvas.differentiation_summary := "Unlike Excel";
  PositioningCanvas.homepage_one_liner := "Reporting for marketers";
  PositioningCanvas.is_validated := false;
  PositioningCanvas.validation_notes := None
|}.

(** A complete audit result in which every declaration holds. *)
Definition sample_strategy : PositioningStrategy.t := {|
  PositioningStrategy.strategy_type := "use_case_based";
  PositioningStrategy.category_or_use_case := Some "reporting";
  PositioningStrategy.competitive_frame_score := 0;
  PositioningStrategy.target_audience_score := 100;
  PositioningStrategy.differentiation_score := 50;
  PositioningStrategy.problem_clarity_score := 75
|}.

Definition sample_positioning : PositioningAnalysis.t := {|
  PositioningAnalysis.target_customer := target_customer_with_score 80;
  PositioningAnalysis.competitive_alternative := Some (alternative_of_type "spreadsheets");
  PositioningAnalysis.differentiation := {|
    Differentiation.unique_approach := None;
    Differentiation.key_capability := Some "live sync";
    Differentiation.is_defensible := true;
    Differentiation.is_meaningful := true;
    Differentiation.could_competitor_say_same := false
  |};
  PositioningAnalysis.strategy := sample_strategy;
  PositioningAnalysis.overall_score := 70;
  PositioningAnalysis.strengths := ["clear audience"];
  PositioningAnalysis.weaknesses := [];
  PositioningAnalysis.refusing_to_pigeonhole := false;
  PositioningAnalysis.positioning_on_outcomes_only := false;
  PositioningAnalysis.platform_before_point_solution := false;
  PositioningAnalysis.no_competitive_frame := false
|}.

Definition layer_with_score (layer_name : string) (score : Z) : MessagingLayer.t := {|
  MessagingLayer.layer_name := layer_name;
  MessagingLayer.present := true;
  MessagingLayer.quality_score := score;
  MessagingLayer.content_found := None;
  MessagingLayer.issues := []
|}.

Definition sample_messaging : MessagingAnalysis.t := {|
  MessagingAnalysis.layers :=
    [layer_with_score "positioning_statement" 60; layer_with_score "value_proposition" 70;
     layer_with_score "key_messages" 80; layer_with_score "proof_points" 40;
     layer_with_score "micro_copy" 90];
  MessagingAnalysis.messaging_house := {|
    MessagingHouse.value_proposition := Some "Reporting without spreadsheets";
    MessagingHouse.pillars := ["fast"; "accurate"; "shared"];
    MessagingHouse.proof_points_per_pillar := {[ "fast" := ["10x faster"] ]};
    MessagingHouse.foundation_defined := true;
    MessagingHouse.structure_score := 65
  |};
  MessagingAnalysis.clarity_score := 70;
  MessagingAnalysis.specificity_score := 55;
  MessagingAnalysis.benefit_orientation_score := 60;
  MessagingAnalysis.feature_dumping := false;
  MessagingAnalysis.jargon_buzzwords := ["synergy"];
  MessagingAnalysis.clever_over_clear := false;
  MessagingAnalysis.saying_everything := false;
  MessagingAnalysis.no_specificity := false;
  MessagingAnalysis.overall_score := 64
|}.

Definition sample_issue : PMMIssue.t := {|
  PMMIssue.category := "messaging";
  PMMIssue.severity := HIGH;
  PMMIssue.issue := "Jargon in the hero";
  PMMIssue.why_it_matters := "Visitors leave";
  PMMIssue.recommendation := "Use customer language";
  PMMIssue.suggested_rewrite := None;
  PMMIssue.location := Some "hero"
|}.

Definition evaluation_with_score (score : Z) : PMMEvaluationResult.t := {|
  PMMEvaluationResult.asset_type := "homepage";
  PMMEvaluationResult.asset_url := None;
  PMMEvaluationResult.positioning := sample_positioning;
  PMMEvaluationResult.messaging := sample_messaging;
  PMMEvaluationResult.homepage := None;
  PMMEvaluationResult.critical_issues := [];
  PMMEvaluationResult.high_priority_issues := [sample_issue];
  PMMEvaluationResult.medium_issues := [];
  PMMEvaluationResult.low_issues := [];
  PMMEvaluationResult.strengths := ["clear audience"];
  PMMEvaluationResult.overall_score := score;
  PMMEvaluationResult.ready_to_ship := false;
  PMMEvaluationResult.executive_summary := "Solid positioning, weak proof.";
  PMMEvaluationResult.anti_patterns_detected := ["jargon_buzzwords"]
|}.

(** The sample messaging analysis with other layers. *)
Definition messaging_with_layers (layers : list MessagingLayer.t) : MessagingAnalysis.t := {|
  MessagingAnalysis.layers := layers;
  MessagingAnalysis.messaging_house := MessagingAnalysis.messaging_house sample_messaging;
  MessagingAnalysis.clarity_score := 70;
  MessagingAnalysis.specificity_score := 55;
  MessagingAnalysis.benefit_orientation_score := 60;
  MessagingAnalysis.feature_dumping := false;
  MessagingAnalysis.jargon_buzzwords := [];
  MessagingAnalysis.clever_over_clear := false;
  MessagingAnalysis.saying_everything := false;
  MessagingAnalysis.no_specificity := false;
  MessagingAnalysis.overall_score := 64
|}.

(** The sample audit result with other critical issues. *)
Definition evaluation_with_critical (issues : list PMMIssue.t) : PMMEvaluationResult.t := {|
  PMMEvaluationResult.asset_type := "homepage";
  PMMEvaluationResult.asset_url := None;
  PMMEvaluationResult.positioning := sample_positioning;
  PMMEvaluationResult.messaging := sample_messaging;
  PMMEvaluationResult.homepage := None;
  PMMEvaluationResult.critical_issues := issues;
  PMMEvaluationResult.high_priority_issues := [];
  PMMEvaluationResult.medium_issues := [];
  PMMEvaluationResult.low_issues := [];
  PMMEvaluationResult.strengths := [];
  PMMEvaluationResult.overall_score := 67;
  PMMEvaluationResult.ready_to_ship := false;
  PMMEvaluationResult.executive_summary := "Solid positioning, weak proof.";
  PMMEvaluationResult.anti_patterns_detected := []
|}.

(** A rewrite request that names a persona and an alternative. *)
Definition rewrite_call_with_persona : call :=
  Call_generate_rewrite "Revolutionize your workflow" "jargon_buzzwords"
    (Some "CTO") (Some "spreadsheets").

(** A positioning analysis that is given a company context. *)
Definition positioning_call_with_context : call :=
  Call_analyze_positioning "<h1>Acme</h1>" (Some "Series B fintech startup").

(** ** A runtime to run the shell on *)

(** ASCII white space, as [str.strip] removes it: the space, the
    characters 9 to 13 and the separators 28 to 31. *)
Definition is_space (a : ascii) : bool :=
  let n := nat_of_ascii a in
  Nat.eqb n 32 || (Nat.leb 9 n && Nat.leb n 13) || (Nat.leb 28 n && Nat.leb n 31).

Fixpoint lstrip (s : string) : string :=
  match s with
  | String a s' => if is_space a then lstrip s' else s
  | EmptyString => EmptyString
  end.

Fixpoint rstrip (s : string) : string :=
  match s with
  | String a s' =>
      match rstrip s' with
      | EmptyString => if is_space a then EmptyString else String a EmptyString
      | t => String a t
      end
  | EmptyString => EmptyString
  end.

Definition ascii_lower_char (a : ascii) : ascii :=
  let n := nat_of_ascii a in
  if Nat.leb 65 n && Nat.leb n 90 then ascii_of_nat (n + 32) else a.

Fixpoint ascii_lower (s : string) : string :=
  match s with
  | String a s' => String (ascii_lower_char a) (ascii_lower s')
  | EmptyString => EmptyString
  end.

(** A runtime for texts in ASCII whose agent answers every prompt with a
    one-line report, except that it fails on a prompt that starts with
    the word crash. *)
Definition sample_runtime : cli.Runtime := {|
  cli.strip s := rstrip (lstrip s);
  cli.lower := ascii_lower;
  cli.Agent := agent.DeepAgent;
  cli.start a := a;
  cli.invoke a prompt :=
    if startswith prompt "crash" then (a, inr (cli.Exception "rate limited"))
    else (a, inl ("Report on: " +:+ prompt))
|}.

(** An environment that holds an API key and nothing else. *)
Definition sample_environ : gmap string string := {[ "ANTHROPIC_API_KEY" := "sk-ant-test" ]}.

(** The console of the sample runtime before anything was read or written,
    at a terminal. *)
Definition sample_console (events : list cli.event) : @cli.console sample_runtime :=
  @cli.Build_console sample_runtime
    events false [] (agent.create_pmm_agent false None "full" true true) [].

(** * Properties *)

(** Case analysis on membership in a list written out in full. *)
Ltac list_cases H :=
  repeat (apply elem_of_cons in H as [H | H]);
  [ .. | by apply elem_of_nil in H ].

(** ** Strings *)

Lemma append_cons (a : ascii) (s t : string) : String a s +:+ t = String a (s +:+ t).
Proof. reflexivity. Qed.

Lemma append_empty_r (s : string) : s +:+ EmptyString = s.
Proof.
  induction s as [|a s IH]; [reflexivity|].
  rewrite append_cons, IH. reflexivity.
Qed.

Lemma append_assoc (a b c : string) : (a +:+ b) +:+ c = a +:+ b +:+ c.
Proof.
  induction a as [|x a IH]; [reflexivity|].
  rewrite !append_cons, IH. reflexivity.
Qed.

Lemma append_nonempty (s t : string) : s <> EmptyString -> s +:+ t <> EmptyString.
Proof. destruct s as [|a s]; [congruence|]. intros _. rewrite append_cons. discriminate. Qed.

Lemma startswith_spec (s sub : string) :
  startswith s sub = true <-> exists post, s = sub +:+ post.
Proof.
  revert s. induction sub as [|a sub IH]; intros s.
  - split; [intros _; exists s; reflexivity | intros _; destruct s; reflexivity].
  - destruct s as [|b s]; simpl.
    + split; [discriminate | intros [post H]; discriminate H].
    + rewrite andb_true_iff, IH. split.
      * intros [Hab [post ->]]. apply Ascii.eqb_eq in Hab as ->. exists post. reflexivity.
      * intros [post H]. rewrite append_cons in H. injection H as -> ->.
        split; [apply Ascii.eqb_refl | exists post; reflexivity].
Qed.

Lemma contains_empty (sub : string) :
  contains EmptyString sub = startswith EmptyString sub || false.
Proof. reflexivity. Qed.

Lemma contains_cons (b : ascii) (s sub : string) :
  contains (String b s) sub = startswith (String b s) sub || contains s sub.
Proof. reflexivity. Qed.

Lemma contains_spec (s sub : string) : contains s sub = true <-> Substring sub s.
Proof.
  induction s as [|b s IH]; [rewrite contains_empty | rewrite contains_cons].
  - rewrite orb_false_r, startswith_spec. split.
    + intros [post H]. exists EmptyString, post. exact H.
    + intros (pre & post & H). destruct pre as [|x pre]; [exists post; exact H | discriminate H].
  - rewrite orb_true_iff, startswith_spec, IH. split.
    + intros [[post H] | (pre & post & H)].
      * exists EmptyString, post. exact H.
      * exists (String b pre), post. rewrite H. reflexivity.
    + intros (pre & post & H). destruct pre as [|x pre].
      * left. exists post. exact H.
      * right. rewrite append_cons in H. injection H as _ H. exists pre, post. exact H.
Qed.

Lemma not_contains_spec (s sub : string) : contains s sub = false <-> ~ Substring sub s.
Proof.
  rewrite <- contains_spec. destruct (contains s sub); split; congruence.
Qed.

Lemma Substring_prefix (s t : string) : Substring s (s +:+ t).
Proof. exists EmptyString, t. reflexivity. Qed.

Lemma Substring_refl (s : string) : Substring s s.
Proof. exists EmptyString, EmptyString. rewrite append_empty_r. reflexivity. Qed.

Lemma Substring_empty (s : string) : Substring EmptyString s.
Proof. exists EmptyString, s. reflexivity. Qed.

Lemma Substring_app_r (sub p t : string) : Substring sub t -> Substring sub (p +:+ t).
Proof.
  intros (pre & post & ->). exists (p +:+ pre), post. rewrite append_assoc. reflexivity.
Qed.

Lemma Substring_app_l (sub p t : string) : Substring sub t -> Substring sub (t +:+ p).
Proof.
  intros (pre & post & ->). exists pre, (post +:+ p). rewrite !append_assoc. reflexivity.
Qed.

Lemma Substring_trans (a b c : string) : Substring a b -> Substring b c -> Substring a c.
Proof.
  intros (pre & post & ->) (pre' & post' & ->).
  exists (pre' +:+ pre), (post +:+ post'). rewrite !append_assoc. reflexivity.
Qed.

(** ** Validation *)

Lemma check_ge_le_nil (lo hi : Z) (field : string) (v : Z) :
  check_ge_le lo hi field v = [] <-> lo <= v <= hi.
Proof.
  unfold check_ge_le.
  destruct (Z.ltb_spec v lo); [split; [discriminate | lia]|].
  destruct (Z.ltb_spec hi v); [split; [discriminate | lia]|].
  split; [lia | reflexivity].
Qed.

Lemma check_score_nil (field : string) (v : Z) :
  check_score field v = [] <-> in_score_range v.
Proof. apply check_ge_le_nil. Qed.

Lemma check_literal_nil (allowed : list string) (field v : string) :
  check_literal allowed field v = [] <-> v ∈ allowed.
Proof.
  unfold check_literal. case_bool_decide; split; try done.
Qed.

Lemma under_nil (item : loc_item) (errors : list ErrorDetails) :
  under item errors = [] <-> errors = [].
Proof. unfold under. destruct errors; split; done. Qed.

Lemma each_from_nil {A : Type} (validate : A -> list ErrorDetails) (i : nat) (l : list A) :
  each_from validate i l = [] <-> Forall (fun a => validate a = []) l.
Proof.
  revert i. induction l as [|a l IH]; intros i; simpl.
  - split; [constructor | reflexivity].
  - rewrite app_nil, under_nil, IH, Forall_cons. reflexivity.
Qed.

Lemma each_nil {A : Type} (validate : A -> list ErrorDetails) (field : string) (l : list A) :
  each validate field l = [] <-> Forall (fun a => validate a = []) l.
Proof. unfold each. rewrite under_nil. apply each_from_nil. Qed.

Lemma accepted_iff {M : Type} `{BaseModel M} (m : M) :
  accepted m <-> field_errors m = [].
Proof.
  unfold accepted, model_validate. destruct (field_errors m); split; done.
Qed.

Lemma model_validate_rejected {M : Type} `{BaseModel M} (m : M) :
  rejected m <-> field_errors m <> [].
Proof.
  unfold rejected, model_validate. destruct (field_errors m) as [|e errors]; split.
  - intros (? & _ & ?). discriminate.
  - done.
  - done.
  - intros _. exists (e :: errors). done.
Qed.

Lemma model_validate_cases {M : Type} `{BaseModel M} (m : M) :
  (accepted m /\ ~ rejected m) \/ (rejected m /\ ~ accepted m).
Proof.
  rewrite model_validate_rejected, accepted_iff.
  destruct (field_errors m); [left | right]; (split; [done|]).
  - intros Hne. by apply Hne.
  - discriminate.
Qed.

Lemma rejected_iff_not_accepted {M : Type} `{BaseModel M} (m : M) :
  rejected m <-> ~ accepted m.
Proof.
  destruct (model_validate_cases m) as [[Ha Hr] | [Hr Ha]]; split; try done.
Qed.

(** Brings every [field_errors] of the goal back to the [errors] function
    of its model. *)
Ltac to_errors :=
  rewrite ?accepted_iff;
  repeat match goal with
  | |- context [@field_errors _ ?inst ?m] =>
      let e := eval cbv delta [field_errors inst] beta iota in (@field_errors _ inst m) in
      change (@field_errors _ inst m) with e
  end.

(** Splits an equation [errors m = []] along the fields of the model. *)
Ltac by_fields :=
  rewrite ?app_nil, ?under_nil, ?each_nil, ?check_score_nil, ?check_literal_nil.

Lemma TargetCustomer_accepted (m : TargetCustomer.t) :
  accepted m <-> in_score_range (TargetCustomer.specificity_score m).
Proof. to_errors. unfold TargetCustomer.errors. by_fields. reflexivity. Qed.

Lemma CompetitiveAlternative_accepted (m : CompetitiveAlternative.t) :
  accepted m <->
  CompetitiveAlternative.alternative_type m ∈ CompetitiveAlternative.alternative_type_literal.
Proof. to_errors. unfold CompetitiveAlternative.errors. by_fields. reflexivity. Qed.

Lemma Differentiation_accepted (m : Differentiation.t) : accepted m.
Proof. to_errors. reflexivity. Qed.

Lemma PositioningStrategy_accepted (m : PositioningStrategy.t) :
  accepted m <->
  PositioningStrategy.strategy_type m ∈ PositioningStrategy.strategy_type_literal /\
  in_score_range (PositioningStrategy.competitive_frame_score m) /\
  in_score_range (PositioningStrategy.target_audience_score m) /\
  in_score_range (PositioningStrategy.differentiation_score m) /\
  in_score_range (PositioningStrategy.problem_clarity_score m).
Proof. to_errors. unfold PositioningStrategy.errors. by_fields. reflexivity. Qed.

Lemma optional_errors_nil {A : Type} `{BaseModel A} (o : option A) :
  match o with Some a => field_errors a | None => [] end = [] <->
  (forall a, o = Some a -> accepted a).
Proof.
  destruct o as [a|]; split.
  - intros E a' [= <-]. by apply accepted_iff.
  - intros Ha. apply accepted_iff. by apply Ha.
  - intros _ a' [=].
  - reflexivity.
Qed.

Lemma PositioningAnalysis_accepted (m : PositioningAnalysis.t) :
  accepted m <->
  accepted (PositioningAnalysis.target_customer m) /\
  (forall c, PositioningAnalysis.competitive_alternative m = Some c -> accepted c) /\
  accepted (PositioningAnalysis.strategy m) /\
  in_score_range (PositioningAnalysis.overall_score m).
Proof.
  rewrite <- (optional_errors_nil (PositioningAnalysis.competitive_alternative m)).
  to_errors. unfold PositioningAnalysis.errors. by_fields.
  unfold Differentiation.errors. tauto.
Qed.

Lemma MessagingLayer_accepted (m : MessagingLayer.t) :
  accepted m <->
  MessagingLayer.layer_name m ∈ MessagingLayer.layer_name_literal /\
  in_score_range (MessagingLayer.quality_score m).
Proof. to_errors. unfold MessagingLayer.errors. by_fields. reflexivity. Qed.

Lemma MessagingHouse_accepted (m : MessagingHouse.t) :
  accepted m <-> in_score_range (MessagingHouse.structure_score m).
Proof. to_errors. unfold MessagingHouse.errors. by_fields. reflexivity. Qed.

Lemma Forall_accepted {A : Type} `{BaseModel A} (l : list A) :
  Forall (fun a => field_errors a = []) l <-> Forall accepted l.
Proof. apply Forall_iff. intros a. symmetry. apply accepted_iff. Qed.

Lemma MessagingAnalysis_accepted (m : MessagingAnalysis.t) :
  accepted m <->
  Forall accepted (MessagingAnalysis.layers m) /\
  accepted (MessagingAnalysis.messaging_house m) /\
  in_score_range (MessagingAnalysis.clarity_score m) /\
  in_score_range (MessagingAnalysis.specificity_score m) /\
  in_score_range (MessagingAnalysis.benefit_orientation_score m) /\
  in_score_range (MessagingAnalysis.overall_score m).
Proof.
  rewrite <- (Forall_accepted (MessagingAnalysis.layers m)).
  to_errors. unfold MessagingAnalysis.errors. by_fields. reflexivity.
Qed.

Lemma FiveSecondTest_accepted (m : FiveSecondTest.t) :
  accepted m <->
  FiveSecondTest.what_they_do m ∈ FiveSecondTest.clarity_literal /\
  FiveSecondTest.who_its_for m ∈ FiveSecondTest.clarity_literal /\
  FiveSecondTest.whats_different m ∈ FiveSecondTest.clarity_literal /\
  FiveSecondTest.what_to_do_next m ∈ FiveSecondTest.clarity_literal.
Proof. to_errors. unfold FiveSecondTest.errors. by_fields. reflexivity. Qed.

Lemma HeroSection_accepted (m : HeroSection.t) :
  accepted m <->
  in_score_range (HeroSection.headline_clarity_score m) /\
  in_score_range (HeroSection.cta_clarity_score m).
Proof. to_errors. unfold HeroSection.errors. by_fields. reflexivity. Qed.

Lemma SocialProof_accepted (m : SocialProof.t) :
  accepted m <-> in_score_range (SocialProof.overall_score m).
Proof. to_errors. unfold SocialProof.errors. by_fields. reflexivity. Qed.

Lemma HomepageAnalysis_accepted (m : HomepageAnalysis.t) :
  accepted m <->
  accepted (HomepageAnalysis.five_second_test m) /\
  accepted (HomepageAnalysis.hero m) /\
  accepted (HomepageAnalysis.social_proof m) /\
  in_score_range (HomepageAnalysis.information_hierarchy_score m) /\
  in_score_range (HomepageAnalysis.overall_score m).
Proof. to_errors. unfold HomepageAnalysis.errors. by_fields. reflexivity. Qed.

Lemma PMMIssue_accepted (m : PMMIssue.t) :
  accepted m <-> PMMIssue.category m ∈ PMMIssue.category_literal.
Proof. to_errors. unfold PMMIssue.errors. by_fields. reflexivity. Qed.

Lemma PMMEvaluationResult_accepted (m : PMMEvaluationResult.t) :
  accepted m <->
  PMMEvaluationResult.asset_type m ∈ PMMEvaluationResult.asset_type_literal /\
  accepted (PMMEvaluationResult.positioning m) /\
  accepted (PMMEvaluationResult.messaging m) /\
  (forall h, PMMEvaluationResult.homepage m = Some h -> accepted h) /\
  Forall accepted (PMMEvaluationResult.critical_issues m) /\
  Forall accepted (PMMEvaluationResult.high_priority_issues m) /\
  Forall accepted (PMMEvaluationResult.medium_issues m) /\
  Forall accepted (PMMEvaluationResult.low_issues m) /\
  in_score_range (PMMEvaluationResult.overall_score m).
Proof.
  rewrite <- (optional_errors_nil (PMMEvaluationResult.homepage m)).
  rewrite <- !Forall_accepted.
  to_errors. unfold PMMEvaluationResult.errors. by_fields. reflexivity.
Qed.

Lemma PositioningCanvas_accepted (m : PositioningCanvas.t) :
  accepted m <->
  PositioningCanvas.alternative_type m ∈ PositioningCanvas.alternative_type_literal /\
  PositioningCanvas.positioning_approach m ∈ PositioningCanvas.positioning_approach_literal.
Proof. to_errors. unfold PositioningCanvas.errors. by_fields. reflexivity. Qed.

Lemma score_enforced_intro {M : Type} `{BaseModel M} (get : M -> Z) :
  (forall m : M, accepted m -> in_score_range (get m)) -> score_enforced get.
Proof.
  intros Hacc m Hout. apply rejected_iff_not_accepted. intros Ha. apply Hout, Hacc, Ha.
Qed.

(** The bounds are inclusive: 0 and 100 pass, -1 and 101 do not. *)
Example target_customer_score_bounds :
  model_validate (target_customer_with_score 0) = Ok (target_customer_with_score 0) /\
  model_validate (target_customer_with_score 100) = Ok (target_customer_with_score 100) /\
  model_validate (target_customer_with_score (-1)) =
    ValidationError [ {| loc := [Field "specificity_score"]; type := greater_than_equal |} ] /\
  model_validate (target_customer_with_score 101) =
    ValidationError [ {| loc := [Field "specificity_score"]; type := less_than_equal |} ].
Proof. repeat split. Qed.

(** The aggregate result is accepted with every score in range, and
    refused, with the error located at the field, when a score of its own
    or of a nested layer is out of range. *)
Example evaluation_result_scores :
  model_validate (evaluation_with_score 67) = Ok (evaluation_with_score 67) /\
  model_validate (evaluation_with_score 120) =
    ValidationError [ {| loc := [Field "overall_score"]; type := less_than_equal |} ] /\
  model_validate (layer_with_score "key_messages" (-5)) =
    ValidationError [ {| loc := [Field "quality_score"]; type := greater_than_equal |} ].
Proof. repeat split. Qed.

(** C2. Every score field of the evaluation data model is enforced at
    construction: a candidate with a score outside the closed range 0..100
    is refused with a validation error (first eighteen conjuncts, one per
    field), and a candidate is accepted exactly when all of its scores are
    in range and the other declarations of its model (literals, nested
    models) hold (next ten conjuncts, one per model); a candidate is
    either accepted or refused with a validation error (last conjunct). *)
Theorem score_fields_enforced :
  score_enforced TargetCustomer.specificity_score /\
  score_enforced PositioningStrategy.competitive_frame_score /\
  score_enforced PositioningStrategy.target_audience_score /\
  score_enforced PositioningStrategy.differentiation_score /\
  score_enforced PositioningStrategy.problem_clarity_score /\
  score_enforced PositioningAnalysis.overall_score /\
  score_enforced MessagingLayer.quality_score /\
  score_enforced MessagingHouse.structure_score /\
  score_enforced MessagingAnalysis.clarity_score /\
  score_enforced MessagingAnalysis.specificity_score /\
  score_enforced MessagingAnalysis.benefit_orientation_score /\
  score_enforced MessagingAnalysis.overall_score /\
  score_enforced HeroSection.headline_clarity_score /\
  score_enforced HeroSection.cta_clarity_score /\
  score_enforced SocialProof.overall_score /\
  score_enforced HomepageAnalysis.information_hierarchy_score /\
  score_enforced HomepageAnalysis.overall_score /\
  score_enforced PMMEvaluationResult.overall_score /\
  (forall m : TargetCustomer.t,
     accepted m <-> in_score_range (TargetCustomer.specificity_score m)) /\
  (forall m : PositioningStrategy.t,
     accepted m <->
     PositioningStrategy.strategy_type m ∈ ["category_based"; "use_case_based"; "unclear"] /\
     in_score_range (PositioningStrategy.competitive_frame_score m) /\
     in_score_range (PositioningStrategy.target_audience_score m) /\
     in_score_range (PositioningStrategy.differentiation_score m) /\
     in_score_range (PositioningStrategy.problem_clarity_score m)) /\
  (forall m : PositioningAnalysis.t,
     accepted m <->
     accepted (PositioningAnalysis.target_customer m) /\
     (forall c, PositioningAnalysis.competitive_alternative m = Some c -> accepted c) /\
     accepted (PositioningAnalysis.strategy m) /\
     in_score_range (PositioningAnalysis.overall_score m)) /\
  (forall m : MessagingLayer.t,
     accepted m <->
     MessagingLayer.layer_name m ∈
       ["positioning_statement"; "value_proposition"; "key_messages"; "proof_points";
        "micro_copy"] /\
     in_score_range (MessagingLayer.quality_score m)) /\
  (forall m : MessagingHouse.t,
     accepted m <-> in_score_range (MessagingHouse.structure_score m)) /\
  (forall m : MessagingAnalysis.t,
     accepted m <->
     Forall accepted (MessagingAnalysis.layers m) /\
     accepted (MessagingAnalysis.messaging_house m) /\
     in_score_range (MessagingAnalysis.clarity_score m) /\
     in_score_range (MessagingAnalysis.specificity_score m) /\
     in_score_range (MessagingAnalysis.benefit_orientation_score m) /\
     in_score_range (MessagingAnalysis.overall_score m)) /\
  (forall m : HeroSection.t,
     accepted m <->
     in_score_range (HeroSection.headline_clarity_score m) /\
     in_score_range (HeroSection.cta_clarity_score m)) /\
  (forall m : SocialProof.t,
     accepted m <-> in_score_range (SocialProof.overall_score m)) /\
  (forall m : HomepageAnalysis.t,
     accepted m <->
     accepted (HomepageAnalysis.five_second_test m) /\
     accepted (HomepageAnalysis.hero m) /\
     accepted (HomepageAnalysis.social_proof m) /\
     in_score_range (HomepageAnalysis.information_hierarchy_score m) /\
     in_score_range (HomepageAnalysis.overall_score m)) /\
  (forall m : PMMEvaluationResult.t,
     accepted m <->
     PMMEvaluationResult.asset_type m ∈
       ["homepage"; "landing_page"; "sales_deck"; "email"; "ad"; "other"] /\
     accepted (PMMEvaluationResult.positioning m) /\
     accepted (PMMEvaluationResult.messaging m) /\
     (forall h, PMMEvaluationResult.homepage m = Some h -> accepted h) /\
     Forall accepted (PMMEvaluationResult.critical_issues m) /\
     Forall accepted (PMMEvaluationResult.high_priority_issues m) /\
     Forall accepted (PMMEvaluationResult.medium_issues m) /\
     Forall accepted (PMMEvaluationResult.low_issues m) /\
     in_score_range (PMMEvaluationResult.overall_score m)) /\
  (forall (M : Type) (model : BaseModel M) (m : M),
     (accepted m /\ ~ rejected m) \/ (rejected m /\ ~ accepted m)).
Proof.
  repeat match goal with |- score_enforced _ /\ _ => split end.
  1: { apply score_enforced_intro. intros m Hm. by apply TargetCustomer_accepted in Hm. }
  1-4: apply score_enforced_intro; intros m Hm;
       apply PositioningStrategy_accepted in Hm; tauto.
  1: { apply score_enforced_intro. intros m Hm. apply PositioningAnalysis_accepted in Hm. tauto. }
  1: { apply score_enforced_intro. intros m Hm. apply MessagingLayer_accepted in Hm. tauto. }
  1: { apply score_enforced_intro. intros m Hm. by apply MessagingHouse_accepted in Hm. }
  1-4: apply score_enforced_intro; intros m Hm;
       apply MessagingAnalysis_accepted in Hm; tauto.
  1-2: apply score_enforced_intro; intros m Hm; apply HeroSection_accepted in Hm; tauto.
  1: { apply score_enforced_intro. intros m Hm. by apply SocialProof_accepted in Hm. }
  1-2: apply score_enforced_intro; intros m Hm; apply HomepageAnalysis_accepted in Hm; tauto.
  1: { apply score_enforced_intro. intros m Hm. apply PMMEvaluationResult_accepted in Hm. tauto. }
  repeat match goal with |- (forall m : _, accepted m <-> _) /\ _ => split end.
  - apply TargetCustomer_accepted.
  - apply PositioningStrategy_accepted.
  - apply PositioningAnalysis_accepted.
  - apply MessagingLayer_accepted.
  - apply MessagingHouse_accepted.
  - apply MessagingAnalysis_accepted.
  - apply HeroSection_accepted.
  - apply SocialProof_accepted.
  - apply HomepageAnalysis_accepted.
  - apply PMMEvaluationResult_accepted.
  - intros M model m. apply model_validate_cases.
Qed.

(** A customer with specificity 101 is refused; the sample audit result
    with overall score 67 is accepted. *)
Lemma score_fields_enforced_witness :
  rejected (target_customer_with_score 101) /\ accepted (evaluation_with_score 67).
Proof.
  pose proof score_fields_enforced as Hall. split.
  - apply (proj1 Hall). unfold in_score_range. cbn. lia.
  - do 27 (destruct Hall as [_ Hall]). destruct Hall as [Hresult _].
    apply Hresult. unfold in_score_range.
    repeat split; first [ reflexivity | discriminate | compute_done | lia | idtac ].
    + repeat constructor.
    + repeat constructor.
    + repeat constructor.
    + repeat constructor.
Defined.

(** C6, as stated, fails on [PositioningCanvas]: [spreadsheets], which
    [CompetitiveAlternative] accepts, is refused as the [alternative_type]
    of a canvas whose other fields are all valid. *)
Lemma positioning_canvas_refuses_spreadsheets :
  accepted (alternative_of_type "spreadsheets") /\
  PositioningCanvas.positioning_approach (canvas_of_type "spreadsheets")
    ∈ PositioningCanvas.positioning_approach_literal /\
  model_validate (canvas_of_type "spreadsheets") =
    ValidationError [ {| loc := [Field "alternative_type"]; type := literal_error |} ] /\
  ~ accepted (canvas_of_type "spreadsheets").
Proof.
  split; [reflexivity|]. split; [compute_done|].
  split; [reflexivity|]. unfold accepted. discriminate.
Qed.

(** C6, amended. [CompetitiveAlternative.alternative_type] accepts exactly
    the five values direct_competitor, manual_process, status_quo,
    homegrown and spreadsheets; [PositioningCanvas.alternative_type]
    accepts exactly the first four, without spreadsheets (its only other
    constrained field being [positioning_approach]); each model refuses a
    candidate whose [alternative_type] is outside its own set. *)
Theorem alternative_type_accepted_values :
  (forall m : CompetitiveAlternative.t,
     accepted m <->
     CompetitiveAlternative.alternative_type m ∈
       ["direct_competitor"; "manual_process"; "status_quo"; "homegrown"; "spreadsheets"]) /\
  (forall m : CompetitiveAlternative.t,
     CompetitiveAlternative.alternative_type m ∉
       ["direct_competitor"; "manual_process"; "status_quo"; "homegrown"; "spreadsheets"] ->
     rejected m) /\
  (forall m : PositioningCanvas.t,
     accepted m <->
     PositioningCanvas.alternative_type m ∈
       ["direct_competitor"; "manual_process"; "status_quo"; "homegrown"] /\
     PositioningCanvas.positioning_approach m ∈ ["category_based"; "use_case_based"]) /\
  (forall m : PositioningCanvas.t,
     PositioningCanvas.alternative_type m ∉
       ["direct_competitor"; "manual_process"; "status_quo"; "homegrown"] ->
     rejected m).
Proof.
  split; [apply CompetitiveAlternative_accepted|].
  split.
  { intros m Hout. apply rejected_iff_not_accepted. intros Ha.
    by apply CompetitiveAlternative_accepted in Ha. }
  split; [apply PositioningCanvas_accepted|].
  intros m Hout. apply rejected_iff_not_accepted. intros Ha.
  apply PositioningCanvas_accepted in Ha. tauto.
Qed.

(** Neither model takes [freemium]; the canvas does not take
    [spreadsheets] either. *)
Lemma alternative_type_accepted_values_witness :
  rejected (alternative_of_type "freemium") /\ rejected (canvas_of_type "spreadsheets").
Proof.
  destruct alternative_type_accepted_values as (_ & Halternative & _ & Hcanvas). split.
  - apply Halternative. compute_done.
  - apply Hcanvas. compute_done.
Defined.

(** ** Enumerations *)

Lemma Severity_value_inj (a b : Severity) : Severity_value a = Severity_value b -> a = b.
Proof. destruct a, b; simpl; intros E; first [reflexivity | discriminate E]. Qed.

Lemma ScoreLevel_value_inj (a b : ScoreLevel) :
  ScoreLevel_value a = ScoreLevel_value b -> a = b.
Proof. destruct a, b; simpl; intros E; first [reflexivity | discriminate E]. Qed.

Lemma Severity_declared_order (i j : nat) (a b : Severity) :
  Severity_members !! i = Some a -> Severity_members !! j = Some b ->
  (Severity_lt a b <-> (i < j)%nat).
Proof.
  intros Hi Hj. unfold Severity_lt.
  repeat (destruct i as [|i]; simplify_eq/=);
    repeat (destruct j as [|j]; simplify_eq/=); lia.
Qed.

Lemma ScoreLevel_declared_order (i j : nat) (a b : ScoreLevel) :
  ScoreLevel_members !! i = Some a -> ScoreLevel_members !! j = Some b ->
  (ScoreLevel_lt a b <-> (i < j)%nat).
Proof.
  intros Hi Hj. unfold ScoreLevel_lt.
  repeat (destruct i as [|i]; simplify_eq/=);
    repeat (destruct j as [|j]; simplify_eq/=); lia.
Qed.

(** C8. [Severity] has exactly the four members LOW=1, MEDIUM=2, HIGH=3,
    CRITICAL=4 and [ScoreLevel] exactly the five members FAILING=0,
    POOR=25, NEEDS_WORK=50, GOOD=75, EXCELLENT=100; in each, comparing
    members by value is a strict total order that agrees with the order of
    declaration. *)
Theorem enumerations_members_and_order :
  (Severity_members = [LOW; MEDIUM; HIGH; CRITICAL] /\
   (forall s : Severity, s ∈ Severity_members) /\
   NoDup Severity_members /\
   length Severity_members = 4%nat /\
   map Severity_value Severity_members = [1; 2; 3; 4] /\
   (forall a b : Severity, Severity_lt a b \/ a = b \/ Severity_lt b a) /\
   (forall a : Severity, ~ Severity_lt a a) /\
   (forall a b c : Severity, Severity_lt a b -> Severity_lt b c -> Severity_lt a c) /\
   (forall (i j : nat) (a b : Severity),
      Severity_members !! i = Some a -> Severity_members !! j = Some b ->
      (Severity_lt a b <-> (i < j)%nat))) /\
  (ScoreLevel_members = [FAILING; POOR; NEEDS_WORK; GOOD; EXCELLENT] /\
   (forall s : ScoreLevel, s ∈ ScoreLevel_members) /\
   NoDup ScoreLevel_members /\
   length ScoreLevel_members = 5%nat /\
   map ScoreLevel_value ScoreLevel_members = [0; 25; 50; 75; 100] /\
   (forall a b : ScoreLevel, ScoreLevel_lt a b \/ a = b \/ ScoreLevel_lt b a) /\
   (forall a : ScoreLevel, ~ ScoreLevel_lt a a) /\
   (forall a b c : ScoreLevel, ScoreLevel_lt a b -> ScoreLevel_lt b c -> ScoreLevel_lt a c) /\
   (forall (i j : nat) (a b : ScoreLevel),
      ScoreLevel_members !! i = Some a -> ScoreLevel_members !! j = Some b ->
      (ScoreLevel_lt a b <-> (i < j)%nat))).
Proof.
  split.
  - split; [reflexivity|].
    split; [intros []; compute_done|].
    split; [compute_done|].
    split; [reflexivity|]. split; [reflexivity|].
    split.
    { intros a b. unfold Severity_lt.
      destruct (Z.lt_trichotomy (Severity_value a) (Severity_value b)) as [?|[E|?]]; auto.
      right; left. by apply Severity_value_inj. }
    split; [intros a; unfold Severity_lt; lia|].
    split; [intros a b c; unfold Severity_lt; lia|].
    apply Severity_declared_order.
  - split; [reflexivity|].
    split; [intros []; compute_done|].
    split; [compute_done|].
    split; [reflexivity|]. split; [reflexivity|].
    split.
    { intros a b. unfold ScoreLevel_lt.
      destruct (Z.lt_trichotomy (ScoreLevel_value a) (ScoreLevel_value b)) as [?|[E|?]]; auto.
      right; left. by apply ScoreLevel_value_inj. }
    split; [intros a; unfold ScoreLevel_lt; lia|].
    split; [intros a b c; unfold ScoreLevel_lt; lia|].
    apply ScoreLevel_declared_order.
Qed.

(** LOW is declared before CRITICAL and compares below it; POOR is
    declared before GOOD and compares below it. *)
Lemma enumerations_members_and_order_witness :
  Severity_lt LOW CRITICAL /\ ScoreLevel_lt POOR GOOD.
Proof.
  destruct enumerations_members_and_order
    as ((_ & _ & _ & _ & _ & _ & _ & _ & Hseverity) & (_ & _ & _ & _ & _ & _ & _ & _ & Hlevel)).
  split.
  - apply (Hseverity 0%nat 3%nat LOW CRITICAL); [reflexivity | reflexivity | lia].
  - apply (Hlevel 1%nat 3%nat POOR GOOD); [reflexivity | reflexivity | lia].
Defined.

(** ** The agent factory *)

Lemma create_pmm_agent_tools (in_api : bool) (model : option string) (mode : string)
    (use_memory include_subagents : bool) :
  agent.tools (agent.create_pmm_agent in_api model mode use_memory include_subagents) =
    if String.eqb mode "evaluate" then agent.EVALUATION_TOOLS ++ agent.WEB_TOOLS
    else if String.eqb mode "create" then agent.CREATION_TOOLS
    else agent.ALL_TOOLS.
Proof. reflexivity. Qed.

Lemma create_pmm_agent_subagents (in_api : bool) (model : option string) (mode : string)
    (use_memory include_subagents : bool) :
  agent.subagents (agent.create_pmm_agent in_api model mode use_memory include_subagents) =
    if include_subagents then specialists.PMM_SUBAGENTS else [].
Proof. reflexivity. Qed.

(** C4. Whatever the other arguments, mode evaluate selects exactly the
    nine evaluation tools followed by the four web tools, mode create
    exactly the four creation tools and none of the others, and mode full
    the three groups together. *)
Theorem mode_selects_tool_groups (in_api : bool) (model : option string)
    (use_memory include_subagents : bool) :
  agent.tools (agent.create_pmm_agent in_api model "evaluate" use_memory include_subagents) =
    [Tool.run_five_second_test; Tool.analyze_positioning; Tool.analyze_messaging;
     Tool.analyze_homepage_structure; Tool.detect_anti_patterns; Tool.generate_rewrite;
     Tool.build_competitive_frame; Tool.analyze_icp; Tool.run_complete_pmm_audit;
     Tool.fetch_homepage; Tool.fetch_competitor_homepage; Tool.analyze_landing_page;
     Tool.scrape_social_proof] /\
  agent.tools (agent.create_pmm_agent in_api model "create" use_memory include_subagents) =
    [Tool.create_positioning_canvas; Tool.create_messaging_framework;
     Tool.create_homepage_wireframe; Tool.generate_differentiation_statements] /\
  agent.tools (agent.create_pmm_agent in_api model "full" use_memory include_subagents) =
    agent.EVALUATION_TOOLS ++ agent.WEB_TOOLS ++ agent.CREATION_TOOLS /\
  (length agent.EVALUATION_TOOLS = 9 /\ length agent.WEB_TOOLS = 4 /\
   length agent.CREATION_TOOLS = 4)%nat /\
  NoDup (agent.EVALUATION_TOOLS ++ agent.WEB_TOOLS ++ agent.CREATION_TOOLS) /\
  (forall t : Tool.t,
     t ∈ agent.tools (agent.create_pmm_agent in_api model "evaluate" use_memory include_subagents)
     <-> t ∈ agent.EVALUATION_TOOLS \/ t ∈ agent.WEB_TOOLS) /\
  (forall t : Tool.t,
     t ∈ agent.tools (agent.create_pmm_agent in_api model "create" use_memory include_subagents)
     <-> t ∈ agent.CREATION_TOOLS) /\
  (forall t : Tool.t,
     t ∈ agent.tools (agent.create_pmm_agent in_api model "create" use_memory include_subagents)
     -> (t ∉ agent.EVALUATION_TOOLS) /\ (t ∉ agent.WEB_TOOLS)) /\
  (forall t : Tool.t,
     t ∈ agent.tools (agent.create_pmm_agent in_api model "full" use_memory include_subagents)
     <-> t ∈ agent.EVALUATION_TOOLS \/ t ∈ agent.WEB_TOOLS \/ t ∈ agent.CREATION_TOOLS).
Proof.
  rewrite !create_pmm_agent_tools. cbn [String.eqb Ascii.eqb Bool.eqb].
  split; [reflexivity|]. split; [reflexivity|]. split; [reflexivity|].
  split; [repeat split|]. split; [compute_done|].
  split; [intros t; apply elem_of_app|].
  split; [reflexivity|].
  split; [intros t; destruct t; compute_done|].
  intros t. unfold agent.ALL_TOOLS. rewrite !elem_of_app. reflexivity.
Qed.

(** In mode create the wireframe tool is selected, and it is neither an
    evaluation tool nor a web tool. *)
Lemma mode_selects_tool_groups_witness :
  (Tool.create_homepage_wireframe ∉ agent.EVALUATION_TOOLS) /\
  (Tool.create_homepage_wireframe ∉ agent.WEB_TOOLS).
Proof.
  destruct (mode_selects_tool_groups false None true true)
    as (_ & _ & _ & _ & _ & _ & _ & Honly & _).
  apply (Honly Tool.create_homepage_wireframe). compute_done.
Defined.

(** C10. For every mode and every setting of the other arguments the
    factory passes the same confirmation map: its keys are exactly
    create_positioning_canvas, create_messaging_framework and
    create_homepage_wireframe, each mapped to True; in mode evaluate none
    of the selected tools has one of these names. *)
Theorem interrupt_on_is_fixed (in_api : bool) (model : option string) (mode : string)
    (use_memory include_subagents : bool) :
  agent.interrupt_on (agent.create_pmm_agent in_api model mode use_memory include_subagents) =
    {[ "create_positioning_canvas" := true;
       "create_messaging_framework" := true;
       "create_homepage_wireframe" := true ]} /\
  dom (agent.interrupt_on
         (agent.create_pmm_agent in_api model mode use_memory include_subagents)) =
    ({[ "create_positioning_canvas"; "create_messaging_framework";
        "create_homepage_wireframe" ]} : gset string) /\
  (forall (key : string) (flag : bool),
     agent.interrupt_on
       (agent.create_pmm_agent in_api model mode use_memory include_subagents) !! key
       = Some flag ->
     flag = true /\
     key ∈ [Tool.name Tool.create_positioning_canvas;
            Tool.name Tool.create_messaging_framework;
            Tool.name Tool.create_homepage_wireframe]) /\
  (forall t : Tool.t,
     t ∈ agent.tools
           (agent.create_pmm_agent in_api model "evaluate" use_memory include_subagents) ->
     agent.interrupt_on
       (agent.create_pmm_agent in_api model "evaluate" use_memory include_subagents)
       !! Tool.name t = None) /\
  (forall t : Tool.t,
     t ∈ [Tool.create_positioning_canvas; Tool.create_messaging_framework;
          Tool.create_homepage_wireframe] ->
     t ∉ agent.tools
           (agent.create_pmm_agent in_api model "evaluate" use_memory include_subagents)).
Proof.
  split; [reflexivity|]. split; [compute_done|]. split; [|split].
  - intros key flag. cbn [agent.interrupt_on agent.create_pmm_agent].
    rewrite !lookup_insert, lookup_singleton.
    repeat case_decide; subst; intros [= <-]; (split; [reflexivity | compute_done]).
  - intros t Ht. rewrite create_pmm_agent_tools in Ht. cbn [String.eqb Ascii.eqb Bool.eqb] in Ht.
    destruct t; first [reflexivity | exfalso; revert Ht; compute_done].
  - intros t Ht. rewrite create_pmm_agent_tools. cbn [String.eqb Ascii.eqb Bool.eqb].
    list_cases Ht; subst t; compute_done.
Qed.

(** In mode evaluate the wireframe key asks for confirmation although the
    ICP analysis, a selected tool, does not. *)
Lemma interrupt_on_is_fixed_witness :
  (true = true /\
   "create_homepage_wireframe" ∈
     [Tool.name Tool.create_positioning_canvas;
      Tool.name Tool.create_messaging_framework;
      Tool.name Tool.create_homepage_wireframe]) /\
  agent.interrupt_on (agent.create_pmm_agent false None "evaluate" true true)
    !! Tool.name Tool.analyze_icp = None.
Proof.
  destruct (interrupt_on_is_fixed false None "evaluate" true true)
    as (_ & _ & Hkeys & Hevaluate & _).
  split.
  - apply (Hkeys "create_homepage_wireframe" true). reflexivity.
  - apply (Hevaluate Tool.analyze_icp). compute_done.
Defined.

(** ** The template operations *)

Lemma invoke_instructions (c : call) :
  invoke c !! "instructions" = Some (VStr (instructions c)).
Proof. destruct c; reflexivity. Qed.

Lemma instructions_nonempty (c : call) : instructions c <> EmptyString.
Proof.
  destruct c; first [ discriminate | apply append_nonempty; discriminate ].
Qed.

Lemma invoke_task (c : call) :
  exists task : string, invoke c !! "task" = Some (VStr task) /\ task <> EmptyString.
Proof. destruct c; eexists; (split; [reflexivity | discriminate]). Qed.

(** The operations with literal instructions return the same text for all
    arguments. *)
Lemma literal_instructions_fixed (c c' : call) :
  callee c ∈ literal_tools -> callee c = callee c' -> instructions c = instructions c'.
Proof.
  intros Hlit Hsame.
  destruct c; try (exfalso; revert Hlit; compute_done);
    destruct c'; try discriminate Hsame; reflexivity.
Qed.

Lemma rewrite_instructions_dom :
  dom evaluation.rewrite_instructions =
    (list_to_set evaluation.issue_type_literal : gset string).
Proof. compute_done. Qed.

(** The fix approach fills a line of its own in the instructions of
    [generate_rewrite]. *)
Lemma generate_rewrite_fix_line (original_copy issue_type : string)
    (target_persona competitive_alternative : option string) :
  Substring
    (nl +:+ "**Fix approach:** "
        +:+ default "Improve clarity and specificity"
              (evaluation.rewrite_instructions !! issue_type)
        +:+ nl)
    (evaluation.generate_rewrite_instructions
       original_copy issue_type target_persona competitive_alternative).
Proof.
  unfold evaluation.generate_rewrite_instructions.
  cbn [format PyType_str].
  do 6 apply Substring_app_r.
  eexists EmptyString, _. rewrite !append_assoc. reflexivity.
Qed.

Lemma rewrite_instructions_lookup (issue_type approach : string) :
  (issue_type, approach) ∈
    [("unclear_headline", "Rewrite to clearly state WHAT + WHO. No cleverness.");
     ("jargon_buzzwords", "Replace all jargon with customer language. Be specific.");
     ("feature_dump", "Apply 'So what?' to each feature until you reach benefit.");
     ("no_specificity", "Add numbers, timeframes, concrete outcomes.");
     ("clever_over_clear", "Make it boring and clear. State exactly what it does.");
     ("weak_cta", "Make CTA benefit-oriented. What happens when they click?");
     ("generic_value_prop", "Add problem + specific solution + for whom.");
     ("no_competitive_frame", "Add 'Unlike X' or 'Instead of Y' framing.")] ->
  evaluation.rewrite_instructions !! issue_type = Some approach /\
  issue_type ∈ evaluation.issue_type_literal /\
  approach <> "Improve clarity and specificity".
Proof.
  intros Hin. list_cases Hin; injection Hin as -> ->;
    (split; [reflexivity | split; [compute_done | discriminate]]).
Qed.

Lemma generate_rewrite_schema_errors (original_copy issue_type : string)
    (target_persona competitive_alternative : option string) :
  schema_errors
    (Call_generate_rewrite original_copy issue_type target_persona competitive_alternative)
  = check_literal evaluation.issue_type_literal "issue_type" issue_type.
Proof.
  unfold schema_errors. cbn [callee arguments argument_values Tool.parameters zip zip_with map].
  destruct target_persona, competitive_alternative; cbn; by rewrite app_nil_r.
Qed.

(** C5, as stated, fails: the operation called with the issue type [typo],
    which is none of the eight, raises [ValidationError] for [issue_type]
    and returns no envelope. *)
Lemma generate_rewrite_refuses_unknown_issue_type :
  ("typo" ∉
     ["unclear_headline"; "jargon_buzzwords"; "feature_dump"; "no_specificity";
      "clever_over_clear"; "weak_cta"; "generic_value_prop"; "no_competitive_frame"]) /\
  tool_invoke (Call_generate_rewrite "Synergize now" "typo" None None)
    = ValidationError [ {| loc := [Field "issue_type"]; type := literal_error |} ].
Proof. split; [compute_done | reflexivity]. Qed.

(** C5, amended. For each of the eight enumerated values of [issue_type]
    the operation [generate_rewrite] returns its envelope, and the
    instructions carry the fix approach of that issue on the fix approach
    line; that approach is never the fallback text. For every other value
    the argument schema of the operation raises [ValidationError] for
    [issue_type], so that no envelope is returned and the fallback of the
    function body is not reached. *)
Theorem generate_rewrite_by_issue_type (original_copy : string)
    (target_persona competitive_alternative : option string) :
  (forall issue_type : string,
     issue_type ∉
       ["unclear_headline"; "jargon_buzzwords"; "feature_dump"; "no_specificity";
        "clever_over_clear"; "weak_cta"; "generic_value_prop"; "no_competitive_frame"] ->
     tool_invoke
       (Call_generate_rewrite original_copy issue_type target_persona competitive_alternative)
     = ValidationError [ {| loc := [Field "issue_type"]; type := literal_error |} ]) /\
  (forall issue_type approach : string,
     (issue_type, approach) ∈
       [("unclear_headline", "Rewrite to clearly state WHAT + WHO. No cleverness.");
        ("jargon_buzzwords", "Replace all jargon with customer language. Be specific.");
        ("feature_dump", "Apply 'So what?' to each feature until you reach benefit.");
        ("no_specificity", "Add numbers, timeframes, concrete outcomes.");
        ("clever_over_clear", "Make it boring and clear. State exactly what it does.");
        ("weak_cta", "Make CTA benefit-oriented. What happens when they click?");
        ("generic_value_prop", "Add problem + specific solution + for whom.");
        ("no_competitive_frame", "Add 'Unlike X' or 'Instead of Y' framing.")] ->
     approach <> "Improve clarity and specificity" /\
     exists (envelope : dict) (instr : string),
       tool_invoke
         (Call_generate_rewrite original_copy issue_type target_persona competitive_alternative)
       = Ok envelope /\
       envelope !! "instructions" = Some (VStr instr) /\
       Substring approach instr /\
       Substring (nl +:+ "**Fix approach:** " +:+ approach +:+ nl) instr).
Proof.
  split.
  - intros issue_type Hout. unfold tool_invoke.
    rewrite generate_rewrite_schema_errors. unfold check_literal.
    rewrite bool_decide_false by exact Hout. reflexivity.
  - intros issue_type approach Hin.
    destruct (rewrite_instructions_lookup issue_type approach Hin)
      as (Happroach & Hknown & Hne).
    split; [exact Hne|].
    pose proof (generate_rewrite_fix_line
                  original_copy issue_type target_persona competitive_alternative) as Hline.
    rewrite Happroach in Hline.
    exists (evaluation.generate_rewrite
              original_copy issue_type target_persona competitive_alternative),
           (evaluation.generate_rewrite_instructions
              original_copy issue_type target_persona competitive_alternative).
    split; [|split; [reflexivity|]].
    + unfold tool_invoke. rewrite generate_rewrite_schema_errors. unfold check_literal.
      rewrite bool_decide_true by exact Hknown. reflexivity.
    + split; [|exact Hline].
      eapply Substring_trans; [|exact Hline].
      do 2 apply Substring_app_r. apply Substring_prefix.
Qed.

(** The approach for jargon. *)
Lemma generate_rewrite_by_issue_type_witness :
  exists (envelope : dict) (instr : string),
    tool_invoke (Call_generate_rewrite "Synergize now" "jargon_buzzwords" None None)
      = Ok envelope /\
    envelope !! "instructions" = Some (VStr instr) /\
    Substring "Replace all jargon with customer language. Be specific." instr.
Proof.
  destruct (proj2 (generate_rewrite_by_issue_type "Synergize now" None None)
              "jargon_buzzwords" "Replace all jargon with customer language. Be specific.")
    as (_ & envelope & instr & Hcall & Hinstr & Happroach & _); [compute_done|].
  exists envelope, instr. auto.
Defined.

(** C9. The five-second test called with the content <h1>Acme</h1> and
    the asset type homepage returns an object whose asset_type is homepage
    and whose instructions hold the four clarity questions: what they do,
    who it is for, what makes it different, what to do next. *)
Theorem five_second_test_scenario :
  evaluation.run_five_second_test "<h1>Acme</h1>" "homepage" !! "asset_type"
    = Some (VStr "homepage") /\
  exists instr : string,
    evaluation.run_five_second_test "<h1>Acme</h1>" "homepage" !! "instructions"
      = Some (VStr instr) /\
    Substring "1. **What do they do?** (clear/partial/unclear)" instr /\
    Substring "2. **Who is it for?** (clear/partial/unclear)" instr /\
    Substring "3. **What makes it different?** (clear/partial/unclear)" instr /\
    Substring "4. **What to do next?** (clear/partial/unclear)" instr.
Proof.
  split; [reflexivity|]. eexists. split; [reflexivity|].
  repeat split; apply contains_spec; vm_compute; reflexivity.
Qed.

(** Every operation but [generate_rewrite] stores each of its arguments
    under the parameter's name. *)
Lemma arguments_echoed (c : call) (key : string) (v : value) :
  callee c <> Tool.generate_rewrite ->
  (key, v) ∈ arguments c -> invoke c !! key = Some v.
Proof.
  intros Hne Hin. destruct c; try (exfalso; apply Hne; reflexivity);
    cbn in Hin; list_cases Hin; injection Hin as -> ->; reflexivity.
Qed.

(** [generate_rewrite] stores [original_copy] and [issue_type] only. *)
Lemma generate_rewrite_keys (original_copy issue_type : string)
    (target_persona competitive_alternative : option string) :
  dom (evaluation.generate_rewrite
         original_copy issue_type target_persona competitive_alternative) =
    ({[ "task"; "instructions"; "original_copy"; "issue_type" ]} : gset string) /\
  evaluation.generate_rewrite
    original_copy issue_type target_persona competitive_alternative !! "original_copy"
    = Some (VStr original_copy) /\
  evaluation.generate_rewrite
    original_copy issue_type target_persona competitive_alternative !! "issue_type"
    = Some (VStr issue_type).
Proof.
  split; [|split; reflexivity].
  unfold evaluation.generate_rewrite. rewrite !dom_insert_L, dom_singleton_L.
  compute_done.
Qed.

(** C1, at the input where the code departs from it.  Called with a
    persona and an alternative, [generate_rewrite] returns an object with
    the four keys task, instructions, original_copy and issue_type: its
    arguments target_persona and competitive_alternative are not echoed as
    keys, and reach the caller only inside the instructions. *)
Theorem generate_rewrite_omits_optional_echo :
  arguments rewrite_call_with_persona =
    [("original_copy", VStr "Revolutionize your workflow");
     ("issue_type", VStr "jargon_buzzwords");
     ("target_persona", VStr "CTO");
     ("competitive_alternative", VStr "spreadsheets")] /\
  dom (invoke rewrite_call_with_persona) =
    ({[ "task"; "instructions"; "original_copy"; "issue_type" ]} : gset string) /\
  invoke rewrite_call_with_persona !! "target_persona" = None /\
  invoke rewrite_call_with_persona !! "competitive_alternative" = None /\
  Substring "**Target persona:** CTO" (instructions rewrite_call_with_persona) /\
  Substring "**Competitive alternative:** spreadsheets" (instructions rewrite_call_with_persona).
Proof.
  split; [reflexivity|]. split; [apply generate_rewrite_keys|].
  split; [reflexivity|]. split; [reflexivity|].
  split; apply contains_spec; vm_compute; reflexivity.
Qed.

(** X1. What does hold of every operation: the object has a non-empty task
    and non-empty instructions, and every argument is echoed under its
    parameter's name, except that [generate_rewrite] echoes only
    original_copy and issue_type. *)
Theorem envelope_shape (c : call) :
  (exists task : string, invoke c !! "task" = Some (VStr task) /\ task <> EmptyString) /\
  (exists instr : string,
     invoke c !! "instructions" = Some (VStr instr) /\ instr <> EmptyString) /\
  (forall (key : string) (v : value),
     (key, v) ∈ arguments c ->
     callee c <> Tool.generate_rewrite \/ key ∈ ["original_copy"; "issue_type"] ->
     invoke c !! key = Some v).
Proof.
  split; [apply invoke_task|]. split.
  - exists (instructions c). split; [apply invoke_instructions | apply instructions_nonempty].
  - intros key v Hin [Hne | Hkey]; [by apply arguments_echoed|].
    destruct (decide (callee c = Tool.generate_rewrite)) as [Hgr | Hne];
      [|by apply arguments_echoed].
    destruct c; try discriminate Hgr.
    cbn in Hin. list_cases Hin; injection Hin as -> ->;
      first [reflexivity | exfalso; revert Hkey; compute_done].
Qed.

(** The positioning analysis hands its company context back under the
    key of that name. *)
Lemma envelope_shape_witness :
  invoke positioning_call_with_context !! "company_context"
    = Some (VStr "Series B fintech startup").
Proof.
  destruct (envelope_shape positioning_call_with_context) as (_ & _ & Hecho).
  apply Hecho; [compute_done | left; discriminate].
Defined.

Lemma instructions_unfold (c : call) :
  instructions c =
    match c with
    | Call_run_five_second_test _ _ => evaluation.run_five_second_test_instructions
    | Call_analyze_positioning _ _ => evaluation.analyze_positioning_instructions
    | Call_analyze_messaging _ _ => evaluation.analyze_messaging_instructions
    | Call_analyze_homepage_structure _ _ => evaluation.analyze_homepage_structure_instructions
    | Call_detect_anti_patterns _ _ => evaluation.detect_anti_patterns_instructions
    | Call_generate_rewrite a b c d => evaluation.generate_rewrite_instructions a b c d
    | Call_build_competitive_frame _ _ _ => evaluation.build_competitive_frame_instructions
    | Call_analyze_icp _ _ => evaluation.analyze_icp_instructions
    | Call_run_complete_pmm_audit _ _ _ _ => evaluation.run_complete_pmm_audit_instructions
    | Call_fetch_homepage a b => web.fetch_homepage_instructions a b
    | Call_fetch_competitor_homepage a b => web.fetch_competitor_homepage_instructions a b
    | Call_analyze_landing_page a b => web.analyze_landing_page_instructions a b
    | Call_scrape_social_proof a => web.scrape_social_proof_instructions a
    | Call_create_positioning_canvas a b c d =>
        creation.create_positioning_canvas_instructions a b c d
    | Call_create_messaging_framework a b c =>
        creation.create_messaging_framework_instructions a b c
    | Call_create_homepage_wireframe a b => creation.create_homepage_wireframe_instructions a b
    | Call_generate_differentiation_statements a b c d =>
        creation.generate_differentiation_statements_instructions a b c d
    end.
Proof. destruct c; reflexivity. Qed.

(** Finds an occurrence of the text among the pieces of a concatenation. *)
Ltac find_sub :=
  match goal with
  | |- Substring EmptyString _ => apply Substring_empty
  | |- Substring ?s ?s => apply Substring_refl
  | |- Substring ?s (?s +:+ _) => apply Substring_prefix
  | |- Substring _ (_ +:+ _) => apply Substring_app_l; find_sub
  | |- Substring _ (_ +:+ _) => apply Substring_app_r; find_sub
  end.

(** Evaluates the truth tests and renderings of an f-string whose
    arguments are known to be empty or not. *)
Ltac render :=
  cbn [format truthy to_value or_else PyType_str PyType_bool PyType_list PyType_optional
       negb String.eqb Ascii.eqb Bool.eqb].

(** Where the instructions are an f-string, an optional string occurs
    in them as it is, and an optional list that is not empty in its
    rendering. *)
Lemma interpolated_optional_rendered (c : call) (key : string) :
  callee c ∈ interpolating_tools ->
  key ∈ Tool.optional_parameters (callee c) ->
  (forall s : string, (key, VStr s) ∈ arguments c -> Substring s (instructions c)) /\
  (forall l : list string,
     (key, VList l) ∈ arguments c -> l <> [] -> Substring (repr_list l) (instructions c)).
Proof.
  intros Hint Hkey. rewrite instructions_unfold.
  destruct c; try (exfalso; revert Hint; compute_done); clear Hint;
    repeat match goal with o : option _ |- _ => destruct o end;
    cbn in Hkey; list_cases Hkey; subst key;
    (split; [intros ? Hin | intros ? Hin Hnonempty]);
    cbn in Hin; list_cases Hin; simplify_eq;
    first [ match goal with Hl : ?l <> [] |- _ => destruct l; [congruence|] end
          | match goal with |- Substring ?x _ => destruct x end ];
    cbv beta iota;
    unfold evaluation.generate_rewrite_instructions, web.fetch_homepage_instructions,
      web.fetch_competitor_homepage_instructions, web.analyze_landing_page_instructions,
      creation.create_positioning_canvas_instructions,
      creation.create_messaging_framework_instructions,
      creation.create_homepage_wireframe_instructions,
      creation.generate_differentiation_statements_instructions;
    render; find_sub.
Qed.

(** C3, as stated, fails on the operations with literal instructions:
    the company context given to [analyze_positioning] is an optional
    parameter of the call and does not occur in the instructions. *)
Lemma analyze_positioning_context_not_in_instructions :
  "company_context" ∈ Tool.optional_parameters (callee positioning_call_with_context) /\
  ("company_context", VStr "Series B fintech startup")
    ∈ arguments positioning_call_with_context /\
  invoke positioning_call_with_context !! "instructions"
    = Some (VStr (instructions positioning_call_with_context)) /\
  ~ Substring "Series B fintech startup" (instructions positioning_call_with_context).
Proof.
  split; [compute_done|]. split; [cbn; repeat constructor|].
  split; [reflexivity|].
  apply not_contains_spec. vm_compute. reflexivity.
Qed.

(** C3, amended. For [generate_rewrite], the web operations and the
    creation operations, whose instructions are rendered from the
    parameters, every optional parameter given as a string occurs verbatim
    in the instructions, and an optional list parameter given non-empty
    occurs in its Python list rendering. The other eight evaluation
    operations return instructions that are the same for all arguments,
    and hand an optional parameter back as a key of the object only. *)
Theorem optional_parameters_rendered (c : call) :
  (callee c ∈ interpolating_tools ->
   forall key : string,
     key ∈ Tool.optional_parameters (callee c) ->
     (forall s : string, (key, VStr s) ∈ arguments c -> Substring s (instructions c)) /\
     (forall l : list string,
        (key, VList l) ∈ arguments c -> l <> [] -> Substring (repr_list l) (instructions c))) /\
  (callee c ∈ literal_tools ->
   (forall c' : call, callee c' = callee c -> instructions c' = instructions c) /\
   (forall (key : string) (v : value),
      key ∈ Tool.optional_parameters (callee c) ->
      (key, v) ∈ arguments c -> invoke c !! key = Some v)).
Proof.
  split.
  - intros Hint key Hkey. by apply interpolated_optional_rendered.
  - intros Hlit. split.
    + intros c' Hsame. symmetry. by apply literal_instructions_fixed.
    + intros key v _ Hin. apply arguments_echoed; [|exact Hin].
      intros Hgr. rewrite Hgr in Hlit. revert Hlit. compute_done.
Qed.

(** The rendering at work: a persona, and a list of competitors in its
    Python rendering. *)
Lemma optional_parameters_rendered_witness :
  Substring "CFOs of hospitals"
    (instructions
       (Call_create_positioning_canvas "Invoice automation" (Some "CFOs of hospitals")
          (Some ["Bill.com"; "Tipalti"]) None)) /\
  Substring "['Bill.com', 'Tipalti']"
    (instructions
       (Call_create_positioning_canvas "Invoice automation" (Some "CFOs of hospitals")
          (Some ["Bill.com"; "Tipalti"]) None)).
Proof.
  pose proof (optional_parameters_rendered
                (Call_create_positioning_canvas "Invoice automation"
                   (Some "CFOs of hospitals") (Some ["Bill.com"; "Tipalti"]) None)) as [Hint _].
  split.
  - refine (proj1 (Hint _ "target_audience" _) "CFOs of hospitals" _); compute_done.
  - refine (proj2 (Hint _ "known_competitors" _) ["Bill.com"; "Tipalti"] _ _);
      first [compute_done | discriminate].
Defined.

(** A call is determined by its operation and the values of its
    arguments. *)
Lemma call_of_arguments (c1 c2 : call) :
  callee c1 = callee c2 -> arguments c1 = arguments c2 -> c1 = c2.
Proof.
  intros Hcallee Hargs.
  destruct c1, c2; try discriminate Hcallee;
    repeat match goal with o : option _ |- _ => destruct o end;
    cbn in Hargs; simplify_eq; reflexivity.
Qed.

(** C7. A template operation and the selector are deterministic: two
    invocations of the same operation with the same arguments return the
    same object, and two selections with the same arguments build the same
    agent. The selected tools depend on the mode alone and the subagents on
    [include_subagents] alone, whatever the model, the memory toggle and
    the hosting flag. *)
Theorem operations_and_selector_deterministic :
  (forall c1 c2 : call,
     callee c1 = callee c2 -> arguments c1 = arguments c2 -> invoke c1 = invoke c2) /\
  (forall (in_api : bool) (model1 model2 : option string) (mode1 mode2 : string)
          (use_memory1 use_memory2 include_subagents1 include_subagents2 : bool),
     model1 = model2 -> mode1 = mode2 -> use_memory1 = use_memory2 ->
     include_subagents1 = include_subagents2 ->
     agent.create_pmm_agent in_api model1 mode1 use_memory1 include_subagents1 =
     agent.create_pmm_agent in_api model2 mode2 use_memory2 include_subagents2) /\
  (forall (in_api1 in_api2 : bool) (model1 model2 : option string) (mode1 mode2 : string)
          (use_memory1 use_memory2 include_subagents1 include_subagents2 : bool),
     (mode1 = mode2 ->
      agent.tools
        (agent.create_pmm_agent in_api1 model1 mode1 use_memory1 include_subagents1) =
      agent.tools
        (agent.create_pmm_agent in_api2 model2 mode2 use_memory2 include_subagents2)) /\
     (include_subagents1 = include_subagents2 ->
      agent.subagents
        (agent.create_pmm_agent in_api1 model1 mode1 use_memory1 include_subagents1) =
      agent.subagents
        (agent.create_pmm_agent in_api2 model2 mode2 use_memory2 include_subagents2))).
Proof.
  split.
  { intros c1 c2 Hcallee Hargs. by rewrite (call_of_arguments c1 c2). }
  split; [intros in_api m1 m2 d1 d2 u1 u2 s1 s2 -> -> -> ->; reflexivity|].
  intros. rewrite !create_pmm_agent_tools, !create_pmm_agent_subagents.
  split; intros ->; reflexivity.
Qed.

(** Two calls of the five-second test with the same arguments, and two
    selections in mode evaluate with different models and memory toggles. *)
Lemma operations_and_selector_deterministic_witness :
  invoke (Call_run_five_second_test "<h1>Acme</h1>" "homepage") =
  invoke (Call_run_five_second_test "<h1>Acme</h1>" "homepage") /\
  agent.tools (agent.create_pmm_agent false None "evaluate" true true) =
  agent.tools (agent.create_pmm_agent true (Some "claude-opus") "evaluate" false true).
Proof.
  split.
  - apply (proj1 operations_and_selector_deterministic); reflexivity.
  - apply (proj1 (proj2 (proj2 operations_and_selector_deterministic)
                   false true None (Some "claude-opus") "evaluate" "evaluate"
                   true false true true)).
    reflexivity.
Defined.

(** ** Further facts about the registry and the selector *)

Lemma arguments_names (c : call) : map fst (arguments c) = Tool.parameters (callee c).
Proof. destruct c; reflexivity. Qed.

Lemma optional_parameters_declared (tool : Tool.t) :
  Tool.optional_parameters tool ⊆ Tool.parameters tool.
Proof. destruct tool; compute_done. Qed.

Lemma tools_partition (tool : Tool.t) :
  tool ∈ interpolating_tools <-> tool ∉ literal_tools.
Proof. destruct tool; split; compute_done. Qed.

Lemma tool_name_inj (t1 t2 : Tool.t) : Tool.name t1 = Tool.name t2 -> t1 = t2.
Proof. destruct t1, t2; intros E; first [reflexivity | discriminate E]. Qed.

(** X3. A mode other than evaluate and create selects every tool, as mode full
    does; memory is switched on exactly when it is asked for outside the
    hosted API; the subagents are the six specialists or none. *)
Theorem selector_other_settings (in_api : bool) (model : option string) (mode : string)
    (use_memory include_subagents : bool) :
  (mode <> "evaluate" -> mode <> "create" ->
   agent.tools (agent.create_pmm_agent in_api model mode use_memory include_subagents)
     = agent.ALL_TOOLS) /\
  (agent.checkpointer (agent.create_pmm_agent in_api model mode use_memory include_subagents)
     = Some true <-> use_memory = true /\ in_api = false) /\
  (agent.checkpointer (agent.create_pmm_agent in_api model mode use_memory include_subagents)
     = None <-> use_memory = false \/ in_api = true) /\
  agent.subagents (agent.create_pmm_agent in_api model mode use_memory include_subagents)
    = (if include_subagents
       then [specialists.positioning_analyst_subagent;
             specialists.messaging_analyst_subagent;
             specialists.homepage_analyst_subagent;
             specialists.anti_pattern_detector_subagent;
             specialists.icp_analyst_subagent;
             specialists.competitive_analyst_subagent]
       else []) /\
  agent.system_prompt (agent.create_pmm_agent in_api model mode use_memory include_subagents)
    = prompts.PMM_EVALUATOR_SYSTEM_PROMPT.
Proof.
  split.
  { intros He Hc. rewrite create_pmm_agent_tools.
    apply String.eqb_neq in He, Hc. by rewrite He, Hc. }
  split; [destruct use_memory, in_api; cbn; intuition congruence|].
  split; [destruct use_memory, in_api; cbn; intuition congruence|].
  split; reflexivity.
Qed.

(** A mode that is not one of the three names still selects every tool. *)
Lemma selector_other_settings_witness :
  agent.tools (agent.create_pmm_agent false None "audit" true true) = agent.ALL_TOOLS.
Proof.
  apply (proj1 (selector_other_settings false None "audit" true true)); discriminate.
Defined.

(** ** Rendering of a list of names *)

Lemma repr_char_plain (c : ascii) :
  plain_char c = true -> repr_char squote c = String c EmptyString.
Proof.
  destruct c as [[] [] [] [] [] [] [] []]; intros Hplain;
    first [ discriminate Hplain | reflexivity ].
Qed.

Lemma plain_has_no_quote (s : string) : plain s = true -> has_char squote s = false.
Proof.
  induction s as [|c s IH]; [reflexivity|].
  cbn [plain has_char]. unfold plain_char.
  rewrite !andb_true_iff, !negb_true_iff. intros [[[[Hq _] _] _] Hs].
  by rewrite Hq, (IH Hs).
Qed.

Lemma repr_chars_plain (s : string) : plain s = true -> repr_chars squote s = s.
Proof.
  induction s as [|c s IH]; [reflexivity|].
  cbn [plain repr_chars]. rewrite andb_true_iff. intros [Hc Hs].
  by rewrite (repr_char_plain c Hc), (IH Hs).
Qed.

Lemma repr_str_plain (s : string) :
  plain s = true -> repr_str s = String squote EmptyString +:+ s +:+ String squote EmptyString.
Proof.
  intros Hplain. unfold repr_str. cbv zeta.
  rewrite (plain_has_no_quote s Hplain). cbn [andb].
  by rewrite (repr_chars_plain s Hplain).
Qed.

Lemma Substring_join (sep x : string) (l : list string) :
  x ∈ l -> Substring x (join sep l).
Proof.
  induction l as [|y l IH]; intros Hin; [by apply elem_of_nil in Hin|].
  apply elem_of_cons in Hin as [-> | Hin].
  - destruct l; [apply Substring_refl | apply Substring_prefix].
  - destruct l as [|z l]; [by apply elem_of_nil in Hin|].
    change (join sep (y :: z :: l)) with (y +:+ sep +:+ join sep (z :: l)).
    do 2 apply Substring_app_r. by apply IH.
Qed.

Lemma Substring_repr_list (x : string) (l : list string) :
  x ∈ l -> plain x = true -> Substring x (repr_list l).
Proof.
  intros Hin Hplain. unfold repr_list.
  apply Substring_app_r, Substring_app_l.
  apply (Substring_trans _ (repr_str x)).
  - rewrite (repr_str_plain x Hplain). apply Substring_app_r, Substring_prefix.
  - apply Substring_join. apply list_elem_of_fmap. by exists x.
Qed.

(** X4. A name in an optional list parameter of a rendering operation
    occurs verbatim in the instructions when it is made of characters that
    the list rendering leaves alone: printable ASCII characters other than
    the single quote and the backslash. *)
Theorem plain_list_items_verbatim (c : call) (key x : string) (l : list string) :
  callee c ∈ interpolating_tools ->
  key ∈ Tool.optional_parameters (callee c) ->
  (key, VList l) ∈ arguments c ->
  x ∈ l -> plain x = true ->
  Substring x (instructions c).
Proof.
  intros Hint Hkey Hargs Hin Hplain.
  apply (Substring_trans _ (repr_list l)); [by apply Substring_repr_list|].
  apply (interpolated_optional_rendered c key Hint Hkey); [exact Hargs|].
  intros ->. by apply elem_of_nil in Hin.
Qed.

(** Tipalti, given among the competitors, is named in the canvas
    instructions. *)
Lemma plain_list_items_verbatim_witness :
  Substring "Tipalti"
    (instructions
       (Call_create_positioning_canvas "Invoice automation" None
          (Some ["Bill.com"; "Tipalti"]) None)).
Proof.
  apply (plain_list_items_verbatim _ "known_competitors" "Tipalti" ["Bill.com"; "Tipalti"]);
    first [ reflexivity | compute_done ].
Defined.

(** ** Scores of an accepted audit result *)

Lemma positioning_scores_in_range (m : PositioningAnalysis.t) :
  accepted m -> Forall in_score_range (positioning_scores m).
Proof.
  intros (Hcustomer & _ & Hstrategy & Hoverall)%PositioningAnalysis_accepted.
  apply TargetCustomer_accepted in Hcustomer.
  apply PositioningStrategy_accepted in Hstrategy as (_ & ? & ? & ? & ?).
  unfold positioning_scores. repeat (constructor; [assumption|]). constructor.
Qed.

Lemma messaging_scores_in_range (m : MessagingAnalysis.t) :
  accepted m -> Forall in_score_range (messaging_scores m).
Proof.
  intros (Hlayers & Hhouse & ? & ? & ? & ?)%MessagingAnalysis_accepted.
  apply MessagingHouse_accepted in Hhouse.
  unfold messaging_scores. apply Forall_app. split.
  - apply Forall_fmap. eapply Forall_impl; [exact Hlayers|].
    intros layer Hlayer. by apply MessagingLayer_accepted in Hlayer as [_ ?].
  - repeat (constructor; [assumption|]). constructor.
Qed.

Lemma homepage_scores_in_range (m : HomepageAnalysis.t) :
  accepted m -> Forall in_score_range (homepage_scores m).
Proof.
  intros (_ & Hhero & Hproof & ? & ?)%HomepageAnalysis_accepted.
  apply HeroSection_accepted in Hhero as [? ?].
  apply SocialProof_accepted in Hproof.
  unfold homepage_scores. repeat (constructor; [assumption|]). constructor.
Qed.

(** X5. In an audit result that construction accepted, every score lies
    in the range 0..100: its own overall score and the scores of the
    positioning, messaging and homepage analyses nested in it, down to each
    messaging layer. *)
Theorem accepted_result_scores_in_range (m : PMMEvaluationResult.t) :
  accepted m -> Forall in_score_range (all_scores m).
Proof.
  intros (_ & Hpos & Hmsg & Hhome & _ & _ & _ & _ & Hoverall)%PMMEvaluationResult_accepted.
  unfold all_scores. rewrite !Forall_app. repeat split.
  - by apply positioning_scores_in_range.
  - by apply messaging_scores_in_range.
  - destruct (PMMEvaluationResult.homepage m) as [h|]; [|constructor].
    apply homepage_scores_in_range. by apply Hhome.
  - constructor; [assumption | constructor].
Qed.

(** The scores of the sample audit result. *)
Lemma accepted_result_scores_in_range_witness :
  Forall in_score_range [80; 0; 100; 50; 75; 70; 60; 70; 80; 40; 90; 65; 70; 55; 60; 64; 67].
Proof.
  apply (accepted_result_scores_in_range (evaluation_with_score 67)). reflexivity.
Defined.

(** ** More on the template operations *)

(** X2. Where the instructions are rendered from the parameters, every
    required parameter is rendered: a required string occurs in the
    instructions as it is, and the required list of
    [generate_differentiation_statements] in its Python rendering, empty
    or not. *)
Theorem required_parameters_rendered (c : call) (key : string) :
  callee c ∈ interpolating_tools ->
  key ∉ Tool.optional_parameters (callee c) ->
  (forall s : string, (key, VStr s) ∈ arguments c -> Substring s (instructions c)) /\
  (forall l : list string, (key, VList l) ∈ arguments c -> Substring (repr_list l) (instructions c)).
Proof.
  intros Hint Hkey. rewrite instructions_unfold.
  destruct c; try (exfalso; revert Hint; compute_done); clear Hint;
    (split; intros ? Hin);
    cbn in Hin; list_cases Hin;
    try (exfalso; apply Hkey; injection Hin as -> _; compute_done);
    repeat match goal with o : option _ |- _ => destruct o end;
    simplify_eq;
    cbv beta iota;
    unfold evaluation.generate_rewrite_instructions, web.fetch_homepage_instructions,
      web.fetch_competitor_homepage_instructions, web.analyze_landing_page_instructions,
      web.scrape_social_proof_instructions,
      creation.create_positioning_canvas_instructions,
      creation.create_messaging_framework_instructions,
      creation.create_homepage_wireframe_instructions,
      creation.generate_differentiation_statements_instructions;
    cbn [format PyType_str PyType_list];
    find_sub.
Qed.

(** The alternative a differentiation is written against. *)
Lemma required_parameters_rendered_witness :
  Substring "manual spreadsheets"
    (instructions
       (Call_generate_differentiation_statements "Invoice automation" "manual spreadsheets"
          ["OCR"; "ERP sync"] None)).
Proof.
  refine (proj1 (required_parameters_rendered
                   (Call_generate_differentiation_statements "Invoice automation"
                      "manual spreadsheets" ["OCR"; "ERP sync"] None)
                   "competitive_alternative" _ _) "manual spreadsheets" _);
    compute_done.
Defined.

(** X7. The task tag identifies the operation: two calls return the same
    text under [task] exactly when they call the same operation. *)
Theorem task_identifies_operation (c1 c2 : call) :
  invoke c1 !! "task" = invoke c2 !! "task" <-> callee c1 = callee c2.
Proof.
  pose (tag := fun tool : Tool.t =>
          match tool with
          | Tool.run_five_second_test => "five_second_test"
          | Tool.analyze_positioning => "positioning_analysis"
          | Tool.analyze_messaging => "messaging_analysis"
          | Tool.analyze_homepage_structure => "homepage_structure_analysis"
          | Tool.detect_anti_patterns => "anti_pattern_detection"
          | Tool.generate_rewrite => "copy_rewrite"
          | Tool.build_competitive_frame => "competitive_frame_building"
          | Tool.analyze_icp => "icp_analysis"
          | Tool.run_complete_pmm_audit => "complete_pmm_audit"
          | Tool.fetch_homepage => "fetch_homepage"
          | Tool.fetch_competitor_homepage => "competitor_analysis"
          | Tool.analyze_landing_page => "landing_page_analysis"
          | Tool.scrape_social_proof => "social_proof_inventory"
          | Tool.create_positioning_canvas => "create_positioning_canvas"
          | Tool.create_messaging_framework => "create_messaging_framework"
          | Tool.create_homepage_wireframe => "create_homepage_wireframe"
          | Tool.generate_differentiation_statements => "generate_differentiation"
          end).
  assert (Htag : forall c : call, invoke c !! "task" = Some (VStr (tag (callee c))))
    by (intros []; reflexivity).
  rewrite !Htag. split; [|by intros ->].
  intros [= Hsame]. revert Hsame.
  destruct (callee c1), (callee c2); intros Hsame;
    first [reflexivity | discriminate Hsame].
Qed.

(** X8. The keys of the object an operation returns are [task],
    [instructions] and the names of its parameters, nothing else; for
    [generate_rewrite] only two of its four parameters. No parameter is called
    [task] or [instructions], so that no argument overwrites them. *)
Theorem result_keys (c : call) (key : string) :
  is_Some (invoke c !! key) <->
  key = "task" \/ key = "instructions" \/
  (key ∈ Tool.parameters (callee c) /\
   (callee c = Tool.generate_rewrite -> key ∈ ["original_copy"; "issue_type"])).
Proof.
  rewrite <- elem_of_dom.
  destruct c; cbn [invoke callee Tool.parameters];
    unfold evaluation.run_five_second_test, evaluation.analyze_positioning,
      evaluation.analyze_messaging, evaluation.analyze_homepage_structure,
      evaluation.detect_anti_patterns, evaluation.generate_rewrite,
      evaluation.build_competitive_frame, evaluation.analyze_icp,
      evaluation.run_complete_pmm_audit, web.fetch_homepage, web.fetch_competitor_homepage,
      web.analyze_landing_page, web.scrape_social_proof, creation.create_positioning_canvas,
      creation.create_messaging_framework, creation.create_homepage_wireframe,
      creation.generate_differentiation_statements;
    rewrite !dom_insert, dom_singleton; set_unfold;
    (split; [intros Hkey | intros [-> | [-> | [Hkey Hrewrite]]]]); try tauto;
    try (specialize (Hrewrite eq_refl); set_unfold; tauto);
    try (repeat destruct Hkey as [Hkey | Hkey]; subst key;
         first [ by left | by right; left
               | right; right; split; [set_unfold; tauto | intros [=] ]
               | right; right; split; [set_unfold; tauto | intros _; set_unfold; tauto ] ]).
Qed.

Lemma falsy_optional_str (o1 o2 : option string) :
  alike (to_value o1) (to_value o2) ->
  truthy o1 = truthy o2 /\ (truthy o1 = true -> o1 = o2).
Proof.
  intros [Hsame | [H1 H2]].
  - destruct o1, o2; cbn in Hsame; simplify_eq; auto.
  - destruct o1 as [s1|], o2 as [s2|]; cbn in *;
      repeat match goal with Hb : negb _ = true |- _ => apply negb_true_iff in Hb end;
      rewrite ?H1, ?H2; split; congruence.
Qed.

Lemma falsy_optional_list (o1 o2 : option (list string)) :
  alike (to_value o1) (to_value o2) ->
  truthy o1 = truthy o2 /\ (truthy o1 = true -> o1 = o2).
Proof.
  intros [Hsame | [H1 H2]].
  - destruct o1, o2; cbn in Hsame; simplify_eq; auto.
  - destruct o1 as [[|]|], o2 as [[|]|]; cbn in *; split; congruence.
Qed.

Lemma alike_str (s1 s2 : string) : alike (VStr s1) (VStr s2) -> s1 = s2.
Proof.
  intros [[= ->] | [H1 H2]]; [reflexivity|].
  destruct s1, s2; cbn in *; congruence.
Qed.

Lemma alike_list (l1 l2 : list string) : alike (VList l1) (VList l2) -> l1 = l2.
Proof.
  intros [[= ->] | [H1 H2]]; [reflexivity|].
  destruct l1, l2; cbn in *; congruence.
Qed.

Lemma or_else_alike (o1 o2 : option string) (otherwise : string) :
  alike (to_value o1) (to_value o2) -> or_else o1 otherwise = or_else o2 otherwise.
Proof.
  intros Halike. destruct (falsy_optional_str o1 o2 Halike) as [Htruthy Hsame].
  destruct (truthy o1) eqn:Ho1; [by rewrite (Hsame eq_refl)|].
  destruct o1 as [s1|], o2 as [s2|]; cbn in *; rewrite ?Ho1, <- ?Htruthy; reflexivity.
Qed.

(** X9. An empty optional argument is rendered as an absent one: two
    calls of the same operation whose arguments differ only where both
    are empty ([None], the empty string, the empty list) get the same
    instructions. *)
Theorem empty_optional_rendered_as_absent (c1 c2 : call) :
  callee c1 = callee c2 ->
  Forall2 alike (argument_values c1) (argument_values c2) ->
  instructions c1 = instructions c2.
Proof.
  intros Hcallee Halike.
  destruct (decide (callee c1 ∈ literal_tools)) as [Hliteral | Hrendered];
    [by apply literal_instructions_fixed|].
  rewrite !instructions_unfold.
  destruct c1, c2; try discriminate Hcallee;
    try (exfalso; apply Hrendered; compute_done); clear Hcallee Hrendered;
    cbn [argument_values] in Halike;
    repeat match goal with
           | Hv : Forall2 _ (_ :: _) (_ :: _) |- _ =>
               apply Forall2_cons_1 in Hv as [? Hv]
           end;
    unfold evaluation.generate_rewrite_instructions, web.fetch_homepage_instructions,
      web.fetch_competitor_homepage_instructions, web.analyze_landing_page_instructions,
      web.scrape_social_proof_instructions,
      creation.create_positioning_canvas_instructions,
      creation.create_messaging_framework_instructions,
      creation.create_homepage_wireframe_instructions,
      creation.generate_differentiation_statements_instructions;
    repeat match goal with
           | Hv : alike (to_value ?o1) (to_value ?o2) |- _ =>
               first
                 [ rewrite !(or_else_alike o1 o2) by exact Hv; clear Hv
                 | apply alike_str in Hv; subst
                 | apply alike_list in Hv; subst
                 | apply falsy_optional_str in Hv as [? ?]
                 | apply falsy_optional_list in Hv as [? ?] ]
           end;
    repeat match goal with
           | Ht : truthy ?o1 = truthy ?o2, Hsame : truthy ?o1 = true -> ?o1 = ?o2 |- _ =>
               let Ho := fresh "Ho" in
               destruct (truthy o1) eqn:Ho;
               [ specialize (Hsame eq_refl); subst o2; rewrite ?Ho; clear Ht Ho
               | rewrite <- Ht; clear Ht Hsame Ho ]
           end;
    reflexivity.
Qed.

(** A persona given as the empty string, and competitors given as the
    empty list. *)
Lemma empty_optional_rendered_as_absent_witness :
  instructions (Call_create_positioning_canvas "Invoice automation" (Some EmptyString) (Some []) None)
  = instructions (Call_create_positioning_canvas "Invoice automation" None None None).
Proof.
  apply empty_optional_rendered_as_absent; [reflexivity|].
  repeat constructor; right; split; reflexivity.
Defined.

(** ** More on the agent factory *)

(** X10. The agent always gets a model with a name. A model name that is
    missing or empty is replaced by the default model; any other name is
    passed on unchanged; the token limit is 20000 in every case. *)
Theorem model_name_never_empty (in_api : bool) (model : option string) (mode : string)
    (use_memory include_subagents : bool) :
  let chat := agent.model (agent.create_pmm_agent in_api model mode use_memory include_subagents) in
  agent.model_name chat <> EmptyString /\
  agent.max_tokens chat = 20000 /\
  (model = None \/ model = Some EmptyString -> agent.model_name chat = agent.DEFAULT_MODEL) /\
  (forall name : string,
     model = Some name -> name <> EmptyString -> agent.model_name chat = name).
Proof.
  cbn. repeat split.
  - destruct model as [[|a name]|]; cbn; discriminate.
  - intros [-> | ->]; reflexivity.
  - intros name -> Hname. destruct name; [congruence | reflexivity].
Qed.

(** X11. The mode narrows the tools of the main agent only. The subagents
    hold the same ten tools between them in every mode; so in mode
    evaluate the positioning canvas, and in
    mode create the positioning analysis, is withheld from the main agent
    and yet in the hands of a subagent. Without subagents no tool is
    delegated. *)
Theorem subagent_tools_ignore_mode (in_api : bool) (model : option string) (mode : string)
    (use_memory : bool) :
  let with_subagents := agent.create_pmm_agent in_api model mode use_memory true in
  let alone := agent.create_pmm_agent in_api model mode use_memory false in
  (forall tool : Tool.t,
     tool ∈ delegated_tools with_subagents <->
     tool ∈ [Tool.analyze_positioning; Tool.build_competitive_frame;
             Tool.create_positioning_canvas; Tool.generate_differentiation_statements;
             Tool.fetch_competitor_homepage; Tool.analyze_messaging; Tool.generate_rewrite;
             Tool.detect_anti_patterns; Tool.fetch_homepage; Tool.analyze_icp]) /\
  (mode = "evaluate" ->
   (Tool.create_positioning_canvas ∉ agent.tools with_subagents) /\
   (Tool.create_positioning_canvas ∈ delegated_tools with_subagents)) /\
  (mode = "create" ->
   (Tool.analyze_positioning ∉ agent.tools with_subagents) /\
   (Tool.analyze_positioning ∈ delegated_tools with_subagents)) /\
  delegated_tools alone = [].
Proof.
  cbn zeta. unfold delegated_tools. rewrite !create_pmm_agent_subagents.
  split; [|split; [|split]].
  - intros tool. destruct tool; split; intros Hin;
      first [compute_done | exfalso; revert Hin; compute_done].
  - intros ->. split; compute_done.
  - intros ->. split; compute_done.
  - reflexivity.
Qed.

(** X12. Every key of [interrupt_on] is the name of a registered tool, a
    creation tool; of the four creation tools only
    [generate_differentiation_statements] runs without approval. In mode
    evaluate no tool of the main agent is subject to approval. *)
Theorem approval_keys_name_creation_tools (in_api : bool) (model : option string)
    (mode : string) (use_memory include_subagents : bool) :
  let a := agent.create_pmm_agent in_api model mode use_memory include_subagents in
  (forall key : string,
     is_Some (agent.interrupt_on a !! key) ->
     exists tool : Tool.t, tool ∈ agent.CREATION_TOOLS /\ Tool.name tool = key) /\
  (forall tool : Tool.t,
     agent.interrupt_on a !! Tool.name tool = Some true <->
     tool ∈ agent.CREATION_TOOLS /\ tool <> Tool.generate_differentiation_statements) /\
  (mode = "evaluate" ->
   forall tool : Tool.t, tool ∈ agent.tools a -> agent.interrupt_on a !! Tool.name tool = None).
Proof.
  cbn zeta. split; [|split].
  - intros key. cbn [agent.interrupt_on agent.create_pmm_agent].
    rewrite <- elem_of_dom, !dom_insert, dom_singleton. set_unfold.
    intros [-> | [-> | ->]].
    + exists Tool.create_positioning_canvas. split; [|reflexivity]. tauto.
    + exists Tool.create_messaging_framework. split; [|reflexivity]. tauto.
    + exists Tool.create_homepage_wireframe. split; [|reflexivity]. tauto.
  - intros tool. destruct tool; cbn; split;
      first [ discriminate | intros _; split; [compute_done | discriminate]
            | intros [Hin Hne]; first [congruence | exfalso; revert Hin; compute_done]
            | reflexivity ].
  - intros -> tool Hin. rewrite create_pmm_agent_tools in Hin. cbn in Hin.
    list_cases Hin; subst tool; reflexivity.
Qed.

(** X13. The registry is consistent. Each of the seventeen template
    operations is registered in [ALL_TOOLS], once, and no two under the
    same name; the six subagents have distinct names, and each holds at
    least one tool and no tool twice. *)
Theorem registry_consistent :
  NoDup agent.ALL_TOOLS /\
  (forall tool : Tool.t, tool ∈ agent.ALL_TOOLS) /\
  NoDup (map Tool.name agent.ALL_TOOLS) /\
  NoDup (map specialists.name specialists.PMM_SUBAGENTS) /\
  Forall (fun sub : specialists.SubAgent =>
            specialists.tools sub <> [] /\ NoDup (specialists.tools sub))
    specialists.PMM_SUBAGENTS.
Proof.
  split; [compute_done|]. split; [intros []; compute_done|].
  split; [compute_done|]. split; [compute_done|].
  repeat (apply List.Forall_cons; [split; [discriminate | compute_done]|]).
  apply List.Forall_nil.
Qed.

(** ** The quick start functions *)

(** X14. Each quick start function sends one message, as the user, to an
    agent of the mode that fits: the homepage audit and the competitor
    comparison to an agent with the evaluation and web tools and no
    creation tool, the positioning to an agent with the four creation
    tools only, which include the messaging framework its prompt goes on
    to ask for. All three keep the subagents and the given model. *)
Theorem quick_start_requests (in_api : bool) (model : option string) :
  (forall url : string,
     let request := quick_start.evaluate_homepage in_api url model in
     agent.tools (quick_start.receiver request) = agent.EVALUATION_TOOLS ++ agent.WEB_TOOLS /\
     agent.subagents (quick_start.receiver request) = specialists.PMM_SUBAGENTS /\
     agent.model (quick_start.receiver request) = agent.get_model model /\
     map quick_start.role (quick_start.messages request) = ["user"]) /\
  (forall (product : string) (audience : option string) (competitors : option (list string)),
     let request := quick_start.create_positioning in_api product audience competitors model in
     agent.tools (quick_start.receiver request) = agent.CREATION_TOOLS /\
     Tool.create_messaging_framework ∈ agent.tools (quick_start.receiver request) /\
     agent.subagents (quick_start.receiver request) = specialists.PMM_SUBAGENTS /\
     agent.model (quick_start.receiver request) = agent.get_model model /\
     map quick_start.role (quick_start.messages request) = ["user"]) /\
  (forall (your_url : string) (competitor_urls : list string),
     let request := quick_start.compare_competitors in_api your_url competitor_urls model in
     agent.tools (quick_start.receiver request) = agent.EVALUATION_TOOLS ++ agent.WEB_TOOLS /\
     agent.subagents (quick_start.receiver request) = specialists.PMM_SUBAGENTS /\
     agent.model (quick_start.receiver request) = agent.get_model model /\
     map quick_start.role (quick_start.messages request) = ["user"]).
Proof.
  repeat split; compute_done.
Qed.

Lemma Substring_join_item (sep pre x : string) (l : list string) :
  x ∈ l -> Substring (pre +:+ x) (join sep (map (fun y => pre +:+ y) l)).
Proof.
  intros Hin. apply Substring_join. apply list_elem_of_fmap. by exists x.
Qed.

(** The positioning prompt, part by part. *)
Lemma create_positioning_prompt_parts (product : string) (audience : option string)
    (competitors : option (list string)) :
  quick_start.create_positioning_prompt product audience competitors =
    "Create a positioning canvas for: " +:+ product
    +:+ (if truthy audience then nl +:+ "Target audience: " +:+ format audience
         else EmptyString)
    +:+ (if truthy competitors
         then nl +:+ "Competitors: " +:+ join ", " (default [] competitors)
         else EmptyString)
    +:+ nl +:+ nl +:+ "After the positioning canvas, also create a messaging framework.".
Proof.
  unfold quick_start.create_positioning_prompt. cbv zeta.
  destruct (truthy audience), (truthy competitors); cbn [format PyType_str];
    rewrite ?append_assoc; reflexivity.
Qed.

(** X15. The quick start prompts hold what they are given, as it is: the
    URL of the audit; the product, the audience and every competitor of
    a positioning, the competitors separated by commas and not quoted; the
    user's URL and, each on a line of its own after a dash, every
    competitor URL of a comparison. An audience given as the empty string
    and competitors given as the empty list change nothing in the
    prompt. *)
Theorem quick_start_prompts_hold_inputs (in_api : bool) (model : option string) :
  (forall (url : string) (m : quick_start.Message),
     m ∈ quick_start.messages (quick_start.evaluate_homepage in_api url model) ->
     Substring url (quick_start.content m)) /\
  (forall (product audience : string) (competitors : list string) (m : quick_start.Message),
     m ∈ quick_start.messages
           (quick_start.create_positioning in_api product (Some audience) (Some competitors)
              model) ->
     Substring product (quick_start.content m) /\
     Substring audience (quick_start.content m) /\
     forall competitor : string,
       competitor ∈ competitors ->
       Substring competitor (quick_start.content m) /\
       Substring (join ", " competitors) (quick_start.content m)) /\
  (forall product : string,
     quick_start.create_positioning in_api product (Some EmptyString) (Some []) model
     = quick_start.create_positioning in_api product None None model) /\
  (forall (your_url : string) (competitor_urls : list string) (m : quick_start.Message),
     m ∈ quick_start.messages
           (quick_start.compare_competitors in_api your_url competitor_urls model) ->
     Substring your_url (quick_start.content m) /\
     forall competitor : string,
       competitor ∈ competitor_urls -> Substring ("- " +:+ competitor) (quick_start.content m)).
Proof.
  split; [|split; [|split]].
  - intros url m Hm. cbn in Hm. list_cases Hm. subst m. cbn. find_sub.
  - intros product audience competitors m Hm. cbn in Hm. list_cases Hm. subst m.
    cbn [quick_start.content]. rewrite create_positioning_prompt_parts.
    split; [find_sub|]. split.
    + destruct audience as [|a audience]; [apply Substring_empty|].
      cbn [truthy PyType_optional PyType_str negb String.eqb format]. find_sub.
    + intros competitor Hin.
      destruct competitors as [|first others]; [by apply elem_of_nil in Hin|].
      cbn [truthy PyType_optional PyType_list default].
      assert (Hlist : Substring (join ", " (first :: others))
                        ("Create a positioning canvas for: " +:+ product
                         +:+ (if truthy audience
                              then nl +:+ "Target audience: " +:+ format (Some audience)
                              else EmptyString)
                         +:+ (nl +:+ "Competitors: " +:+ join ", " (first :: others))
                         +:+ nl +:+ nl
                         +:+ "After the positioning canvas, also create a messaging framework."))
        by (do 3 apply Substring_app_r; apply Substring_app_l; do 2 apply Substring_app_r;
            apply Substring_refl).
      split; [|exact Hlist].
      eapply Substring_trans; [|exact Hlist]. by apply Substring_join.
  - reflexivity.
  - intros your_url competitor_urls m Hm. cbn in Hm. list_cases Hm. subst m.
    cbn [quick_start.content format PyType_str]. split; [find_sub|].
    intros competitor Hin.
    apply Substring_app_r, Substring_app_r, Substring_app_r, Substring_app_l.
    unfold quick_start.competitor_list. by apply Substring_join_item.
Qed.

(** ** List fields of the models *)

(** X6. Construction checks the items of a list field and nothing about
    the list as a whole. A messaging analysis is accepted with any layers
    that are each acceptable, none at all or one layer name many times
    over; an audit result is accepted with any issues among its critical
    issues whose category is one of the five, whatever their severity. *)
Theorem list_fields_checked_itemwise :
  (forall layers : list MessagingLayer.t,
     accepted (messaging_with_layers layers) <-> Forall accepted layers) /\
  (forall issues : list PMMIssue.t,
     accepted (evaluation_with_critical issues) <->
     Forall (fun issue => PMMIssue.category issue ∈ PMMIssue.category_literal) issues).
Proof.
  split.
  - intros layers. rewrite MessagingAnalysis_accepted. cbn.
    split; [tauto|]. intros Hlayers.
    split; [exact Hlayers|]. split; [reflexivity|]. unfold in_score_range. lia.
  - intros issues. rewrite PMMEvaluationResult_accepted. cbn.
    assert (Hitems : Forall accepted issues <->
                     Forall (fun issue => PMMIssue.category issue ∈ PMMIssue.category_literal)
                       issues)
      by (apply Forall_iff; intros issue; apply PMMIssue_accepted).
    rewrite <- Hitems.
    split; [tauto|]. intros Hissues.
    split; [compute_done|]. split; [reflexivity|]. split; [reflexivity|].
    split; [discriminate|]. split; [exact Hissues|].
    repeat (split; [constructor|]). unfold in_score_range. lia.
Qed.

(** ** The shell *)

Lemma satisfies_weaken `{cli.Runtime} {A : Type} (m : cli.M A)
    (Q Q' : cli.outcome A -> list cli.event -> list string -> Prop -> Prop) :
  satisfies m Q ->
  (forall r consumed new ended, Q r consumed new ended -> Q' r consumed new ended) ->
  satisfies m Q'.
Proof.
  intros Hm HQ c r c' Hrun.
  destruct (Hm c r c' Hrun) as (consumed & new & ? & ? & ? & ? & ?).
  exists consumed, new. auto 6.
Qed.

Lemma satisfies_ret `{cli.Runtime} {A : Type} (a : A)
    (Q : cli.outcome A -> list cli.event -> list string -> Prop -> Prop) :
  (forall ended : Prop, Q (cli.Return a) [] [] ended) -> satisfies (cli.ret a) Q.
Proof.
  intros HQ c r c' [= <- <-]. exists [], [].
  rewrite app_nil_r. repeat split; first [discriminate | apply HQ].
Qed.

Lemma satisfies_print `{cli.Runtime} (text : string)
    (Q : cli.outcome unit -> list cli.event -> list string -> Prop -> Prop) :
  (forall ended : Prop, Q (cli.Return tt) [] [] ended) -> satisfies (cli.print text) Q.
Proof.
  intros HQ c r c' [= <- <-]. exists [], []. cbn.
  rewrite app_nil_r. repeat split; first [discriminate | apply HQ].
Qed.

Lemma satisfies_input `{cli.Runtime} (prompt : string)
    (Q : cli.outcome string -> list cli.event -> list string -> Prop -> Prop) :
  (forall ended : Prop, Q cli.Blocked [] [] ended) ->
  (forall ended : Prop, ended -> Q (cli.Raised cli.EOFError) [] [] ended) ->
  (forall (text : string) (ended : Prop), Q (cli.Return text) [cli.Line text] [] ended) ->
  (forall (e : cli.exception) (ended : Prop), Q (cli.Raised e) [cli.Raises e] [] ended) ->
  satisfies (cli.input prompt) Q.
Proof.
  intros Hblocked Hend Hline Hraise c r c'. unfold cli.input. cbn.
  destruct (cli.stdin c) as [|[text | e] rest] eqn:Hin.
  - destruct (cli.stdin_closed c) eqn:Hclosed; intros [= <- <-];
      exists [], []; unfold at_end; cbn; rewrite Hin, !app_nil_r.
    + repeat split; first [assumption | discriminate | apply Hend; by split].
    + repeat split; first [assumption | apply Hblocked].
  - intros [= <- <-]. cbn. exists [cli.Line text], []. rewrite app_nil_r.
    repeat split; first [discriminate | apply Hline].
  - intros [= <- <-]. cbn. exists [cli.Raises e], []. rewrite app_nil_r.
    repeat split; first [discriminate | apply Hraise].
Qed.

Lemma satisfies_ask_agent `{cli.Runtime} (prompt : string)
    (Q : cli.outcome string -> list cli.event -> list string -> Prop -> Prop) :
  (forall (response : string) (ended : Prop), Q (cli.Return response) [] [prompt] ended) ->
  (forall (e : cli.exception) (ended : Prop), Q (cli.Raised e) [] [prompt] ended) ->
  satisfies (cli.ask_agent prompt) Q.
Proof.
  intros Hanswer Hraise c r c'. unfold cli.ask_agent.
  destruct (cli.invoke (cli.pmm_agent c) prompt) as [agent' [response | e]];
    intros [= <- <-]; exists [], [prompt]; cbn;
    (repeat split; first [discriminate | auto]).
Qed.

Lemma satisfies_bind `{cli.Runtime} {A B : Type} (m : cli.M A) (k : A -> cli.M B)
    (Q : cli.outcome B -> list cli.event -> list string -> Prop -> Prop) :
  satisfies m
    (fun r consumed new ended =>
       match r with
       | cli.Return a =>
           satisfies (k a)
             (fun r' consumed' new' ended' =>
                Q r' (consumed ++ consumed') (new ++ new') ended')
       | cli.Raised e => Q (cli.Raised e) consumed new ended
       | cli.Blocked => Q cli.Blocked consumed new ended
       end) ->
  satisfies (cli.bind m k) Q.
Proof.
  intros Hm c r c'. unfold cli.bind.
  destruct (m c) as [r1 c1] eqn:Hrun1.
  destruct (Hm c r1 c1 Hrun1) as (consumed & new & Hin & Hsent & Hclosed & Hblocked & HQ).
  destruct r1 as [a | e |].
  - intros Hrun2.
    destruct (HQ c1 r c' Hrun2)
      as (consumed' & new' & Hin' & Hsent' & Hclosed' & Hblocked' & HQ').
    exists (consumed ++ consumed'), (new ++ new').
    rewrite Hin, Hin', Hsent', Hsent, Hclosed', Hclosed, !app_assoc.
    rewrite Hclosed', Hclosed in Hblocked'. auto 6.
  - intros [= <- <-]. exists consumed, new.
    repeat split; first [assumption | discriminate].
  - intros [= <- <-]. exists consumed, new.
    repeat split; first [assumption | by apply Hblocked].
Qed.

Lemma satisfies_try_except `{cli.Runtime} {A : Type} (m : cli.M A) (handler : string -> cli.M A)
    (Q : cli.outcome A -> list cli.event -> list string -> Prop -> Prop) :
  satisfies m
    (fun r consumed new ended =>
       match r with
       | cli.Raised (cli.Exception text) =>
           satisfies (handler text)
             (fun r' consumed' new' ended' =>
                Q r' (consumed ++ consumed') (new ++ new') ended')
       | other => Q other consumed new ended
       end) ->
  satisfies (cli.try_except_Exception m handler) Q.
Proof.
  intros Hm c r c'. unfold cli.try_except_Exception.
  destruct (m c) as [r1 c1] eqn:Hrun1.
  destruct (Hm c r1 c1 Hrun1) as (consumed & new & Hin & Hsent & Hclosed & Hblocked & HQ).
  destruct r1 as [a | [|text] |].
  - intros [= <- <-]. exists consumed, new.
    repeat split; first [assumption | discriminate].
  - intros [= <- <-]. exists consumed, new.
    repeat split; first [assumption | discriminate].
  - intros Hrun2.
    destruct (HQ c1 r c' Hrun2)
      as (consumed' & new' & Hin' & Hsent' & Hclosed' & Hblocked' & HQ').
    exists (consumed ++ consumed'), (new ++ new').
    rewrite Hin, Hin', Hsent', Hsent, Hclosed', Hclosed, !app_assoc.
    rewrite Hclosed', Hclosed in Hblocked'. auto 6.
  - intros [= <- <-]. exists consumed, new.
    repeat split; first [assumption | by apply Hblocked].
Qed.

(** Walks through a step of the shell, one primitive at a time. *)
Ltac walk :=
  repeat first
    [ lazymatch goal with
      | |- satisfies (cli.bind _ _) _ => apply satisfies_bind
      | |- satisfies (cli.try_except_Exception _ _) _ => apply satisfies_try_except
      | |- satisfies (cli.print _) _ => apply satisfies_print; intros ?
      | |- satisfies (cli.ret _) _ => apply satisfies_ret; intros ?
      | |- satisfies (cli.ask_agent _) _ => apply satisfies_ask_agent; intros ? ?
      | |- satisfies (cli.input _) _ =>
          apply satisfies_input; [intros ? | intros ? ? | intros ? ? | intros ? ?]
      | |- satisfies (if ?b then _ else _) _ => destruct b eqn:?
      end
    | progress cbv beta zeta ];
  cbn [app].

Lemma print_welcome_sends_nothing `{cli.Runtime} :
  satisfies cli.print_welcome
    (fun r consumed new _ => r = cli.Return tt /\ consumed = [] /\ new = []).
Proof. unfold cli.print_welcome. walk. auto. Qed.

Lemma run_prompt_sends_once `{cli.Runtime} (prompt : string) :
  satisfies (cli.run_prompt prompt)
    (fun r consumed new _ =>
       consumed = [] /\ new = [prompt] /\
       (r = cli.Return tt \/ r = cli.Raised cli.KeyboardInterrupt)).
Proof.
  unfold cli.run_prompt. walk; [auto|].
  destruct e; walk; auto.
Qed.

(** Uses what is known of a step in place of walking through it. *)
Ltac known_step lemma :=
  eapply satisfies_weaken; [apply lemma | cbv beta].

Lemma truthy_str (s : string) : truthy s = true <-> s <> EmptyString.
Proof. destruct s; cbn; split; congruence. Qed.

Lemma falsy_str (s : string) : truthy s = false <-> s = EmptyString.
Proof. destruct s; cbn; split; congruence. Qed.

(** The actions the quick picks stand for. *)
Lemma QUICK_PICKS_lookup (pick action : string) :
  cli.QUICK_PICKS !! pick = Some action ->
  action ∈ ["analyze_homepage"; "five_second_test"; "anti_patterns"; "positioning_canvas";
            "messaging_framework"; "competitor_compare"].
Proof.
  unfold cli.QUICK_PICKS.
  rewrite !lookup_insert_Some, lookup_singleton_Some.
  intros Hlookup.
  repeat (destruct Hlookup as [[_ <-] | [_ Hlookup]]; [compute_done|]).
  destruct Hlookup as [_ <-]. compute_done.
Qed.


(** A text that starts with a literal is not empty. *)
Ltac starts_with_text :=
  lazymatch goal with
  | |- (_ +:+ _) <> EmptyString => apply append_nonempty; starts_with_text
  | |- _ => discriminate
  end.

(** What the truth tests of a branch say about the lines read. *)
Ltac truth_facts :=
  repeat match goal with
         | |- context [if truthy ?x then _ else _] => destruct (truthy x) eqn:?
         end;
  repeat match goal with
         | Hb : negb _ = true |- _ => apply negb_true_iff in Hb
         | Hb : negb _ = false |- _ => apply negb_false_iff in Hb
         | Hb : _ || _ = false |- _ => apply orb_false_iff in Hb as [? ?]
         | Hb : _ || _ = true |- _ => apply orb_true_iff in Hb as [? | ?]
         | Hb : truthy _ = true |- _ => apply truthy_str in Hb
         | Hb : truthy _ = false |- _ => apply falsy_str in Hb
         end.

Lemma handle_quick_pick_effect `{cli.Runtime} (pick : string) :
  satisfies (cli.handle_quick_pick pick) (quick_pick_effect pick).
Proof.
  unfold cli.handle_quick_pick. cbv zeta.
  repeat case_bool_decide; walk;
    try (known_step run_prompt_sends_once; intros r ? ? ? (-> & -> & [-> | ->]));
    cbn [app]; truth_facts; unfold quick_pick_effect.
  all: split; [|split; [|split; [|split]]].
  all: try lazymatch goal with
       | |- forall p : string, p ∈ [] -> _ =>
           intros p Hp; by apply elem_of_nil in Hp
       | |- forall p : string, p ∈ _ -> _ =>
           intros p Hp; list_cases Hp; subst p;
           (split; [reflexivity|]); split;
           [ starts_with_text
           | intros line Hline; list_cases Hline; injection Hline as ->;
             repeat match goal with
                    | Hb : cli.strip _ = EmptyString |- _ => rewrite Hb
                    end;
             find_sub ]
       | |- forall e : cli.exception, cli.Raises e ∈ _ -> _ =>
           intros e' He; list_cases He; first [discriminate He | injection He as ->]; reflexivity
       | |- cli.QUICK_PICKS !! _ = None -> _ =>
           first [ congruence | intros _; repeat split ]
       | |- [] <> [] -> _ => congruence
       | |- _ <> [] -> exists _, _ =>
           intros _;
           match goal with
           | Hb : cli.strip ?text <> EmptyString |- _ =>
               exists text; split; [repeat constructor | exact Hb]
           end
       | |- is_Some _ -> _ = cli.Return tt -> _ =>
           intros _ Hr; try discriminate Hr; (split; [discriminate|]);
           intros Hall; try discriminate;
           exfalso;
           match goal with
           | Hb : cli.strip ?text = EmptyString |- _ =>
               apply (Hall text); [repeat constructor | exact Hb]
           end
       end.
  intros [action Haction] _. exfalso.
  pose proof (QUICK_PICKS_lookup _ _ Haction) as Hin.
  list_cases Hin; subst action; contradiction.
Qed.

(** Settles what a pass did when the events it read and the prompts it
    sent are written out. *)
Ltac pass_leaf :=
  truth_facts; unfold pass_effect;
  (split; [|split; [|split]]);
  [ repeat (constructor; [assumption|]); constructor
  | cbn; lia
  | intros ? He; list_cases He; first [discriminate He | injection He as ->]; reflexivity
  | first [ congruence | intros _; left; discriminate | intros _; right; by repeat split ] ].

Lemma quick_pick_prompts_nonempty `{cli.Runtime} (pick : string) (r : cli.outcome unit)
    (consumed : list cli.event) (new : list string) (ended : Prop) :
  quick_pick_effect pick r consumed new ended ->
  Forall (fun p : string => p <> EmptyString) new /\ (length new <= 1)%nat.
Proof.
  intros (Hnew & _). destruct new as [|p new].
  - split; [constructor | cbn; lia].
  - destruct (Hnew p) as ([= ->] & Hp & _); [left|].
    split; [repeat constructor; exact Hp | cbn; lia].
Qed.

Lemma loop_body_effect `{cli.Runtime} : satisfies cli.loop_body pass_effect.
Proof.
  unfold cli.loop_body. walk.
  - pass_leaf.
  - pass_leaf.
  - pass_leaf.
  - pass_leaf.
  - known_step print_welcome_sends_nothing. intros r ? ? ? (-> & -> & ->).
    walk. pass_leaf.
  - known_step handle_quick_pick_effect. intros r consumed new ended' Heffect.
    destruct (quick_pick_prompts_nonempty _ _ _ _ _ Heffect) as [Hnonempty Hlength].
    destruct Heffect as (_ & Hraises & _).
    assert (Hmember : forall e, cli.Raises e ∈ cli.Line text :: consumed ->
                                cli.Raises e ∈ consumed).
    { intros e He. apply elem_of_cons in He as [He | He]; [discriminate He | exact He]. }
    destruct r as [[] | e |]; walk; rewrite ?app_nil_r;
      (split; [exact Hnonempty|]); (split; [cbn; lia|]);
      (split; [|intros _; left; discriminate]).
    + intros e He. discriminate (Hraises e (Hmember e He)).
    + intros e' He. injection (Hraises e' (Hmember e' He)) as ->. reflexivity.
    + intros e He. discriminate (Hraises e (Hmember e He)).
  - known_step run_prompt_sends_once. intros r ? ? ? (-> & -> & [-> | ->]).
    + walk. pass_leaf.
    + pass_leaf.
  - pass_leaf.
Qed.

Lemma iteration_effect_holds `{cli.Runtime} : satisfies cli.iteration iteration_effect.
Proof.
  intros c r c'. unfold cli.iteration.
  destruct (cli.loop_body c) as [r1 c1] eqn:Hbody.
  destruct (loop_body_effect c r1 c1 Hbody)
    as (consumed & new & Hin & Hsent & Hclosed & Hblocked & Hnonempty & Hlength & Hraises
        & Hread).
  assert (Hsome : r1 <> cli.Blocked -> r1 <> cli.Raised cli.EOFError -> consumed <> []).
  { intros Hr Heof. destruct (Hread Hr) as [Hsome | (Hr' & _)]; [exact Hsome | contradiction]. }
  destruct r1 as [[|] | [|text] |]; intros [= <- <-]; exists consumed, new;
    unfold iteration_effect, at_end in *; cbn;
    (split; [exact Hin|]); (split; [exact Hsent|]); (split; [exact Hclosed|]);
    (split; [first [discriminate | exact Hblocked]|]);
    (split; [exact Hnonempty|]); (split; [exact Hlength|]);
    (split; [first [reflexivity | intros He; discriminate (Hraises _ He)]|]);
    try (apply Hsome; discriminate); try exact I.
  - left. apply Hsome; discriminate.
  - destruct (Hread ltac:(discriminate)) as [Hsome' | (_ & Hnew & Hended)];
      [by left | right; by split].
Qed.

Lemma lines_read_app (events events' : list cli.event) :
  lines_read (events ++ events') = (lines_read events + lines_read events')%nat.
Proof.
  induction events as [|[text | e] events IH]; cbn; [reflexivity | rewrite IH; reflexivity | exact IH].
Qed.

Lemma loop_unfold `{cli.Runtime} (fuel : nat) (c : cli.console) :
  cli.loop (S fuel) c =
    match cli.iteration c with
    | (cli.Return cli.Continue, c') => cli.loop fuel c'
    | (cli.Return cli.Break, c') => (cli.Returned, c')
    | (cli.Raised e, c') => (cli.Crashed e, c')
    | (cli.Blocked, c') => (cli.Waiting, c')
    end.
Proof. reflexivity. Qed.

(** Runs a step of the shell on a console whose next events are known. *)
Ltac run_step :=
  unfold cli.iteration, cli.loop_body, cli.run_prompt, cli.try_except_Exception,
    cli.bind, cli.input, cli.print, cli.ret, cli.ask_agent, cli.write;
  cbn [cli.stdin cli.stdin_closed cli.stdout cli.pmm_agent cli.sent].

(** The text of [EOFError]. *)
Lemma EOFError_text : cli.EOFError = cli.Exception "EOF when reading a line".
Proof. reflexivity. Qed.

(** At the end of standard input a pass of the loop reports the failed
    read and goes on, still at the end. *)
Lemma iteration_at_end `{cli.Runtime} (c : cli.console) :
  at_end c ->
  cli.iteration c =
    (cli.Return cli.Continue,
     {| cli.stdin := [];
        cli.stdin_closed := true;
        cli.stdout := cli.stdout c ++ failed_read_report "EOF when reading a line";
        cli.pmm_agent := cli.pmm_agent c;
        cli.sent := cli.sent c |}).
Proof.
  intros [Hin Hclosed]. run_step. rewrite Hin, Hclosed. cbn.
  rewrite <- !app_assoc. reflexivity.
Qed.

(** So the loop never leaves the end of standard input: after any number
    of passes it is still going, with one report more for each pass. *)
Lemma loop_at_end `{cli.Runtime} (fuel : nat) (c : cli.console) :
  at_end c ->
  cli.loop fuel c =
    (cli.OutOfFuel,
     {| cli.stdin := [];
        cli.stdin_closed := true;
        cli.stdout :=
          cli.stdout c
          ++ concat (replicate fuel (failed_read_report "EOF when reading a line"));
        cli.pmm_agent := cli.pmm_agent c;
        cli.sent := cli.sent c |}).
Proof.
  revert c. induction fuel as [|fuel IH]; intros c Hend.
  - destruct Hend as [Hin Hclosed]. destruct c as [events closed out agent prompts].
    cbn in *. subst. by rewrite app_nil_r.
  - rewrite loop_unfold, (iteration_at_end c Hend), IH by (by split).
    cbn [cli.stdout cli.pmm_agent cli.sent replicate concat].
    by rewrite <- !app_assoc.
Qed.

(** Passes of the loop add up. *)
Lemma loop_add `{cli.Runtime} (fuel more : nat) (c : cli.console) :
  cli.loop (fuel + more) c =
    match cli.loop fuel c with
    | (cli.OutOfFuel, c') => cli.loop more c'
    | stopped => stopped
    end.
Proof.
  revert c. induction fuel as [|fuel IH]; intros c; [reflexivity|].
  change (S fuel + more)%nat with (S (fuel + more)). rewrite !loop_unfold.
  destruct (cli.iteration c) as [[[|] | e |] c1]; try reflexivity. apply IH.
Qed.

(** What the loop did, given more passes than there are events: it
    stopped because the user left, or it waits at the end of what an open
    standard input holds, or it is still going at the end of a closed
    one; never did an exception leave it. *)
Lemma loop_effect `{cli.Runtime} (fuel : nat) (c : cli.console) :
  (length (cli.stdin c) < fuel)%nat ->
  exists (consumed : list cli.event) (new : list string),
    cli.stdin c = consumed ++ cli.stdin (cli.loop fuel c).2 /\
    cli.sent (cli.loop fuel c).2 = cli.sent c ++ new /\
    cli.stdin_closed (cli.loop fuel c).2 = cli.stdin_closed c /\
    Forall (fun p : string => p <> EmptyString) new /\
    (length new <= lines_read consumed)%nat /\
    ((cli.loop fuel c).1 = cli.Returned \/
     ((cli.loop fuel c).1 = cli.Waiting /\ cli.stdin_closed c = false \/
      (cli.loop fuel c).1 = cli.OutOfFuel /\ cli.stdin_closed c = true) /\
     cli.stdin (cli.loop fuel c).2 = [] /\
     cli.Raises cli.KeyboardInterrupt ∉ consumed).
Proof.
  revert c. induction fuel as [|fuel IH]; intros c Hfuel; [lia|].
  rewrite loop_unfold. destruct (cli.iteration c) as [r c1] eqn:Hpass.
  destruct (iteration_effect_holds c r c1 Hpass)
    as (consumed & new & Hin & Hsent & Hclosed & Hblocked & Hnonempty & Hlength & Hinterrupt
        & Hr).
  destruct r as [[|] | e |]; [| | destruct Hr |].
  - destruct Hr as [Hsome | [-> Hend]].
    + assert (Hfuel' : (length (cli.stdin c1) < fuel)%nat).
      { rewrite Hin, length_app in Hfuel. destruct consumed; [congruence | cbn in Hfuel; lia]. }
      destruct (IH c1 Hfuel')
        as (consumed' & new' & Hin' & Hsent' & Hclosed' & Hnonempty' & Hlength' & Hstop).
      exists (consumed ++ consumed'), (new ++ new').
      rewrite <- !app_assoc, <- Hin', Hsent', Hsent, Hclosed', Hclosed, lines_read_app,
        length_app.
      split; [exact Hin|]. split; [by rewrite app_assoc|]. split; [reflexivity|].
      split; [by apply Forall_app|]. split; [lia|].
      rewrite Hclosed in Hstop.
      destruct Hstop as [Hstop | (Hstop & Hempty & Hnone)]; [by left | right].
      repeat split; [exact Hstop | exact Hempty |].
      rewrite elem_of_app. intros [He | He]; [|by apply Hnone].
      discriminate (Hinterrupt He).
    + rewrite (loop_at_end fuel c1 Hend). destruct Hend as [Hempty Hcl].
      exists consumed, []. cbn. rewrite Hin, Hempty, app_nil_r, <- Hclosed, Hcl.
      split; [reflexivity|]. split; [exact Hsent|]. split; [reflexivity|].
      split; [constructor|]. split; [lia|]. right.
      split; [by right|]. split; [reflexivity|].
      intros He. discriminate (Hinterrupt He).
  - exists consumed, new. cbn. repeat split; try assumption. by left.
  - exists consumed, new. cbn. destruct (Hblocked eq_refl) as [Hempty Hopen].
    repeat split; try assumption. right.
    repeat split; [left; split; [reflexivity | by rewrite <- Hclosed] | exact Hempty |].
    intros He. discriminate (Hinterrupt He).
Qed.

Lemma api_key_set_truthy (environ : gmap string string) :
  api_key_set environ <-> truthy (environ !! "ANTHROPIC_API_KEY") = true.
Proof.
  unfold api_key_set. destruct (environ !! "ANTHROPIC_API_KEY") as [key|]; cbn.
  - split.
    + intros (key' & [= <-] & Hkey). by destruct key.
    + intros Hkey. exists key. split; [reflexivity|]. by destruct key.
  - split; [intros (? & [=] & _) | discriminate].
Qed.

(** The console [main] enters its loop with. *)
Lemma run_main_enters_loop `{cli.Runtime} (closed : bool) (environ : gmap string string)
    (events : list cli.event) :
  api_key_set environ ->
  exists c : cli.console,
    cli.stdin c = events /\ cli.stdin_closed c = closed /\ cli.sent c = [] /\
    forall fuel : nat,
      cli.run_main fuel closed environ events =
        {| cli.state := (cli.loop fuel c).1;
           cli.transcript := cli.stdout (cli.loop fuel c).2;
           cli.prompts := cli.sent (cli.loop fuel c).2;
           cli.unread := cli.stdin (cli.loop fuel c).2 |}.
Proof.
  intros Hkey. apply api_key_set_truthy in Hkey.
  unfold cli.run_main. rewrite Hkey. cbn [negb].
  match goal with |- context [cli.print_welcome ?c0] => set (c := c0) end.
  destruct (cli.print_welcome c) as [r c1] eqn:Hwelcome.
  destruct (print_welcome_sends_nothing c r c1 Hwelcome)
    as (consumed & new & Hin & Hsent & Hclosed & _ & -> & -> & ->).
  exists c1. rewrite app_nil_r in Hsent. cbn in Hin, Hsent, Hclosed.
  repeat split; [by rewrite <- Hin | exact Hclosed | exact Hsent |].
  intros fuel. destruct (cli.loop fuel c1); reflexivity.
Qed.

Lemma main_enters_loop `{cli.Runtime} (environ : gmap string string) (events : list cli.event) :
  api_key_set environ ->
  exists c : cli.console,
    cli.stdin c = events /\ cli.stdin_closed c = false /\ cli.sent c = [] /\
    cli.main environ events =
      {| cli.state := (cli.loop (S (length events)) c).1;
         cli.transcript := cli.stdout (cli.loop (S (length events)) c).2;
         cli.prompts := cli.sent (cli.loop (S (length events)) c).2;
         cli.unread := cli.stdin (cli.loop (S (length events)) c).2 |}.
Proof.
  intros Hkey.
  destruct (run_main_enters_loop false environ events Hkey) as (c & Hin & Hopen & Hsent & Hrun).
  exists c. repeat split; try assumption. apply Hrun.
Qed.

(** An exit word ends the loop. *)
Lemma iteration_exit `{cli.Runtime} (c : cli.console) (text : string) (rest : list cli.event) :
  cli.stdin c = cli.Line text :: rest ->
  cli.lower (cli.strip text) ∈ ["exit"; "quit"; "q"; "bye"] ->
  cli.iteration c =
    (cli.Return cli.Break,
     {| cli.stdin := rest;
        cli.stdin_closed := cli.stdin_closed c;
        cli.stdout := cli.stdout c ++ [cli.Ask "You: "; cli.Print (nl +:+ "Goodbye!")];
        cli.pmm_agent := cli.pmm_agent c;
        cli.sent := cli.sent c |}).
Proof.
  intros Hin Hexit. run_step. rewrite Hin.
  rewrite bool_decide_true by exact Hexit. cbn. rewrite <- app_assoc. reflexivity.
Qed.

(** A read that fails with an exception is reported, and the loop goes on. *)
Lemma iteration_failed_read `{cli.Runtime} (c : cli.console) (text : string)
    (rest : list cli.event) :
  cli.stdin c = cli.Raises (cli.Exception text) :: rest ->
  cli.iteration c =
    (cli.Return cli.Continue,
     {| cli.stdin := rest;
        cli.stdin_closed := cli.stdin_closed c;
        cli.stdout := cli.stdout c ++ failed_read_report text;
        cli.pmm_agent := cli.pmm_agent c;
        cli.sent := cli.sent c |}).
Proof.
  intros Hin. run_step. rewrite Hin. cbn. rewrite <- !app_assoc. reflexivity.
Qed.

Lemma loop_failed_reads `{cli.Runtime} (n : nat) (c : cli.console) (text : string) :
  cli.stdin c = replicate n (cli.Raises (cli.Exception text)) ->
  cli.stdin_closed c = false ->
  cli.loop (S n) c =
    (cli.Waiting,
     {| cli.stdin := [];
        cli.stdin_closed := false;
        cli.stdout :=
          cli.stdout c ++ concat (replicate n (failed_read_report text)) ++ [cli.Ask "You: "];
        cli.pmm_agent := cli.pmm_agent c;
        cli.sent := cli.sent c |}).
Proof.
  revert c. induction n as [|n IH]; intros c Hin Hopen.
  - rewrite loop_unfold. run_step. rewrite Hin, Hopen. reflexivity.
  - rewrite loop_unfold, (iteration_failed_read c text _ Hin).
    rewrite IH by (first [reflexivity | exact Hopen]). cbn. rewrite <- !app_assoc.
    reflexivity.
Qed.

(** A line that is no command is sent to the agent as it is, white space
    at its ends apart. *)
Lemma iteration_free_text `{cli.Runtime} (c : cli.console) (text : string)
    (rest : list cli.event) :
  cli.stdin c = cli.Line text :: rest ->
  cli.lower (cli.strip text) ∉ ["exit"; "quit"; "q"; "bye"; "help"; "?"; "h"] ->
  cli.strip text <> EmptyString ->
  cli.QUICK_PICKS !! cli.strip text = None ->
  cli.stdin (cli.iteration c).2 = rest /\
  cli.sent (cli.iteration c).2 = cli.sent c ++ [cli.strip text] /\
  ((cli.iteration c).1 = cli.Return cli.Continue \/
   (cli.iteration c).1 = cli.Return cli.Break).
Proof.
  intros Hin Hcommand Hblank Hpick. run_step. rewrite Hin.
  rewrite bool_decide_false by (intros Hexit; apply Hcommand; set_unfold; tauto).
  apply truthy_str in Hblank. rewrite Hblank. cbn [negb].
  rewrite bool_decide_false by (intros Hhelp; apply Hcommand; set_unfold; tauto).
  rewrite bool_decide_false by (rewrite Hpick; apply is_Some_None).
  cbn [cli.stdin cli.stdin_closed cli.stdout cli.pmm_agent cli.sent].
  destruct (cli.invoke (cli.pmm_agent c) (cli.strip text)) as [agent' [response | [|message]]];
    cbn; auto.
Qed.

(** ** What the shell guarantees *)

(** X16. Without an API key the shell does not start: when the variable
    ANTHROPIC_API_KEY is missing or empty, [main] prints its two lines
    of advice and leaves with exit code 1, having built no agent, read
    nothing and sent nothing. *)
Theorem main_requires_api_key `{cli.Runtime} (environ : gmap string string)
    (events : list cli.event) :
  environ !! "ANTHROPIC_API_KEY" = None \/ environ !! "ANTHROPIC_API_KEY" = Some EmptyString ->
  cli.main environ events =
    {| cli.state := cli.SystemExit 1;
       cli.transcript :=
         [cli.Print "Error: ANTHROPIC_API_KEY not set.";
          cli.Print "Create a .env file with your API key or set the environment variable."];
       cli.prompts := [];
       cli.unread := events |}.
Proof.
  intros [Hkey | Hkey]; unfold cli.main, cli.run_main; rewrite Hkey; reflexivity.
Qed.

(** An empty key counts as no key. *)
Lemma main_requires_api_key_witness :
  cli.state
    (@cli.main sample_runtime {[ "ANTHROPIC_API_KEY" := EmptyString ]} [cli.Line "1"])
  = cli.SystemExit 1.
Proof.
  rewrite (@main_requires_api_key sample_runtime
             {[ "ANTHROPIC_API_KEY" := EmptyString ]} [cli.Line "1"]); [reflexivity|].
  right. reflexivity.
Defined.

(** How the loop goes beyond the passes that the events call for: not at
    all if it has stopped, and at the end of standard input by one more
    report for each pass. *)
Lemma loop_beyond `{cli.Runtime} (base more : nat) (c : cli.console) :
  (length (cli.stdin c) < base)%nat ->
  cli.loop (base + more) c =
    match cli.loop base c with
    | (cli.OutOfFuel, c') =>
        (cli.OutOfFuel,
         {| cli.stdin := [];
            cli.stdin_closed := true;
            cli.stdout :=
              cli.stdout c'
              ++ concat (replicate more (failed_read_report "EOF when reading a line"));
            cli.pmm_agent := cli.pmm_agent c';
            cli.sent := cli.sent c' |})
    | stopped => stopped
    end /\
  ((cli.loop base c).1 = cli.OutOfFuel ->
   cli.stdin (cli.loop base c).2 = [] /\ cli.stdin_closed c = true).
Proof.
  intros Hbase. rewrite loop_add.
  destruct (loop_effect base c Hbase) as (? & ? & _ & _ & Hclosed & _ & _ & Hstop).
  destruct (cli.loop base c) as [st c'] eqn:Hrun. cbn in *.
  destruct Hstop as [-> | ([[-> Hopen] | [-> Hshut]] & Hempty & _)].
  - split; [reflexivity | discriminate].
  - split; [reflexivity | discriminate].
  - split; [|auto].
    apply loop_at_end. split; [exact Hempty | by rewrite Hclosed].
Qed.

(** X17. The outcomes of the shell. Follow [main] for more passes of
    its loop than there are events on standard input, whatever the events
    are and whatever the agent does. Then it has left with exit code 1,
    for lack of an API key; or it has returned, after an exit word or
    Ctrl-C; or it waits for input, standard input being open and read
    to the last event; or it is still in its loop, standard input having
    ended: there every further pass reads the end of file again and adds
    the same error line and hint to what was written. No exception leaves
    the loop. Which of the four it is, what was sent and what is left
    unread do not depend on the number of passes, and unless the shell is
    still in its loop neither does what was written. *)
Theorem main_outcomes `{cli.Runtime} (fuel : nat) (closed : bool)
    (environ : gmap string string) (events : list cli.event) :
  (length events < fuel)%nat ->
  let run := fun passes : nat => cli.run_main passes closed environ events in
  match cli.state (run fuel) with
  | cli.SystemExit code => code = 1 /\ ~ api_key_set environ
  | cli.Returned => api_key_set environ
  | cli.Waiting => api_key_set environ /\ closed = false /\ cli.unread (run fuel) = []
  | cli.OutOfFuel =>
      api_key_set environ /\ closed = true /\ cli.unread (run fuel) = [] /\
      cli.transcript (run (S fuel))
        = cli.transcript (run fuel) ++ failed_read_report "EOF when reading a line"
  | cli.Crashed _ => False
  end /\
  forall passes : nat,
    (length events < passes)%nat ->
    cli.state (run passes) = cli.state (run fuel) /\
    cli.prompts (run passes) = cli.prompts (run fuel) /\
    cli.unread (run passes) = cli.unread (run fuel) /\
    (cli.state (run fuel) <> cli.OutOfFuel -> run passes = run fuel).
Proof.
  intros Hfuel run.
  destruct (truthy (environ !! "ANTHROPIC_API_KEY")) eqn:Hkey.
  - apply api_key_set_truthy in Hkey.
    destruct (run_main_enters_loop closed environ events Hkey)
      as (c & Hin & Hclosed & _ & Hrun).
    unfold run. rewrite !Hrun. cbn [cli.state cli.transcript cli.prompts cli.unread].
    subst events closed. split.
    + destruct (loop_effect fuel c Hfuel) as (? & ? & _ & _ & _ & _ & _ & Hstop).
      destruct Hstop as [-> | ([[-> Hopen] | [Hgoing Hshut]] & Hempty & _)]; auto.
      rewrite Hgoing. repeat split; try assumption.
      replace (S fuel) with (fuel + 1)%nat by lia.
      destruct (loop_beyond fuel 1 c Hfuel) as [-> _].
      destruct (cli.loop fuel c) as [st c'] eqn:Hloop. cbn in Hgoing. subst st.
      reflexivity.
    + intros passes Hpasses. rewrite !Hrun.
      cbn [cli.state cli.transcript cli.prompts cli.unread].
      set (base := S (length (cli.stdin c))).
      replace passes with (base + (passes - base))%nat by (unfold base; lia).
      replace fuel with (base + (fuel - base))%nat by (unfold base; lia).
      destruct (loop_beyond base (passes - base) c) as [-> _]; [unfold base; lia|].
      destruct (loop_beyond base (fuel - base) c) as [-> _]; [unfold base; lia|].
      destruct (cli.loop base c) as [[| | | |] c']; cbn; repeat split; congruence.
  - assert (Hnone : forall passes : nat,
               run passes =
                 {| cli.state := cli.SystemExit 1;
                    cli.transcript :=
                      [cli.Print "Error: ANTHROPIC_API_KEY not set.";
                       cli.Print
                         "Create a .env file with your API key or set the environment variable."];
                    cli.prompts := [];
                    cli.unread := events |})
      by (intros passes; unfold run, cli.run_main; rewrite Hkey; reflexivity).
    rewrite !Hnone. cbn. split.
    + split; [reflexivity|]. rewrite api_key_set_truthy, Hkey. discriminate.
    + intros passes _. rewrite Hnone. auto.
Qed.

(** A pipe that delivers one question and ends: the shell answers it and
    is then caught in its loop, however long one follows it. *)
Lemma main_outcomes_witness :
  cli.state (@cli.run_main sample_runtime 7%nat true sample_environ [cli.Line "What is PMM?"])
    = cli.OutOfFuel /\
  cli.prompts (@cli.run_main sample_runtime 7%nat true sample_environ [cli.Line "What is PMM?"])
    = ["What is PMM?"].
Proof.
  destruct (@main_outcomes sample_runtime 2%nat true sample_environ [cli.Line "What is PMM?"])
    as [_ Hsame]; [cbn; lia|].
  destruct (Hsame 7%nat) as (Hstate & Hprompts & _); [cbn; lia|].
  rewrite Hstate, Hprompts. split; vm_compute; reflexivity.
Defined.

(** X18. The shell reads standard input in order and sends the agent at
    most one prompt for each line it has read, never an empty one. *)
Theorem prompts_nonempty_one_per_line `{cli.Runtime} (environ : gmap string string)
    (events : list cli.event) :
  exists consumed : list cli.event,
    events = consumed ++ cli.unread (cli.main environ events) /\
    Forall (fun p : string => p <> EmptyString) (cli.prompts (cli.main environ events)) /\
    (length (cli.prompts (cli.main environ events)) <= lines_read consumed)%nat.
Proof.
  destruct (truthy (environ !! "ANTHROPIC_API_KEY")) eqn:Hkey.
  - apply api_key_set_truthy in Hkey.
    destruct (main_enters_loop environ events Hkey) as (c & Hin & _ & Hsent & ->).
    cbn [cli.state cli.transcript cli.prompts cli.unread].
    subst events.
    destruct (loop_effect (S (length (cli.stdin c))) c)
      as (consumed & new & Hin' & Hsent' & _ & Hnonempty & Hlength & _); [lia|].
    exists consumed. rewrite Hsent', Hsent. cbn [app].
    repeat split; [exact Hin' | exact Hnonempty | exact Hlength].
  - unfold cli.main, cli.run_main. rewrite Hkey. cbn. exists [].
    repeat split; [constructor | lia].
Qed.

(** X19. Ctrl-C always ends the session. If a KeyboardInterrupt is among
    the events of standard input, [main] returns: either it reaches the
    interrupt, at the main prompt or inside a quick pick, and says
    goodbye, or the user has left before. *)
Theorem interrupt_ends_session `{cli.Runtime} (environ : gmap string string)
    (events : list cli.event) :
  api_key_set environ ->
  cli.Raises cli.KeyboardInterrupt ∈ events ->
  cli.state (cli.main environ events) = cli.Returned.
Proof.
  intros Hkey Hinterrupt.
  destruct (main_enters_loop environ events Hkey) as (c & Hin & _ & _ & ->).
  cbn [cli.state cli.transcript cli.prompts cli.unread].
  subst events.
  destruct (loop_effect (S (length (cli.stdin c))) c)
    as (consumed & ? & Hin' & _ & _ & _ & _ & Hend); [lia|].
  destruct Hend as [Hend | (_ & Hempty & Hnone)]; [exact Hend|].
  rewrite Hempty, app_nil_r in Hin'. rewrite Hin' in Hinterrupt. contradiction.
Qed.

(** Ctrl-C at the question of a quick pick. *)
Lemma interrupt_ends_session_witness :
  cli.state
    (@cli.main sample_runtime sample_environ
       [cli.Line "2"; cli.Raises cli.KeyboardInterrupt; cli.Line "later"])
  = cli.Returned.
Proof.
  apply (@interrupt_ends_session sample_runtime).
  - exists "sk-ant-test". split; [reflexivity | discriminate].
  - right. left.
Defined.

(** X20. An exit word ends the session at once. When the first line is
    one of exit, quit, q and bye, in whatever case [str.lower] maps to
    them and with white space around it, [main] says goodbye and returns;
    nothing was sent to the agent and the rest of standard input is left
    unread. *)
Theorem exit_word_ends_session `{cli.Runtime} (environ : gmap string string)
    (text : string) (rest : list cli.event) :
  api_key_set environ ->
  cli.lower (cli.strip text) ∈ ["exit"; "quit"; "q"; "bye"] ->
  cli.state (cli.main environ (cli.Line text :: rest)) = cli.Returned /\
  cli.prompts (cli.main environ (cli.Line text :: rest)) = [] /\
  cli.unread (cli.main environ (cli.Line text :: rest)) = rest /\
  exists shown : list cli.output,
    cli.transcript (cli.main environ (cli.Line text :: rest))
      = shown ++ [cli.Ask "You: "; cli.Print (nl +:+ "Goodbye!")].
Proof.
  intros Hkey Hexit.
  destruct (main_enters_loop environ (cli.Line text :: rest) Hkey)
    as (c & Hin & _ & Hsent & ->).
  rewrite loop_unfold, (iteration_exit c text rest Hin Hexit). cbn.
  repeat split; [exact Hsent|]. by exists (cli.stdout c).
Qed.

Lemma exit_word_ends_session_witness :
  cli.state (@cli.main sample_runtime sample_environ [cli.Line "  Quit "; cli.Line "1"])
    = cli.Returned /\
  cli.unread (@cli.main sample_runtime sample_environ [cli.Line "  Quit "; cli.Line "1"])
    = [cli.Line "1"].
Proof.
  destruct (@exit_word_ends_session sample_runtime sample_environ "  Quit " [cli.Line "1"])
    as (Hstate & _ & Hunread & _).
  - exists "sk-ant-test". split; [reflexivity | discriminate].
  - vm_compute. right. left.
  - split; [exact Hstate | exact Hunread].
Defined.

(** X21. A failing read does not end the session. When every read of
    standard input fails with an exception that is no KeyboardInterrupt,
    as at the end of a file, each failure is reported by the error line
    and the hint, and the shell asks again: after [n] failures it still
    waits for input, and has sent nothing. *)
Theorem failed_reads_keep_shell_waiting `{cli.Runtime} (environ : gmap string string)
    (text : string) (n : nat) :
  api_key_set environ ->
  cli.state (cli.main environ (replicate n (cli.Raises (cli.Exception text)))) = cli.Waiting /\
  cli.prompts (cli.main environ (replicate n (cli.Raises (cli.Exception text)))) = [] /\
  exists shown : list cli.output,
    cli.transcript (cli.main environ (replicate n (cli.Raises (cli.Exception text))))
      = shown ++ concat (replicate n (failed_read_report text)) ++ [cli.Ask "You: "].
Proof.
  intros Hkey.
  destruct (main_enters_loop environ (replicate n (cli.Raises (cli.Exception text))) Hkey)
    as (c & Hin & Hopen & Hsent & ->).
  rewrite length_replicate, (loop_failed_reads n c text Hin Hopen). cbn.
  repeat split; [exact Hsent|]. by exists (cli.stdout c).
Qed.

Lemma failed_reads_keep_shell_waiting_witness :
  cli.state
    (@cli.main sample_runtime sample_environ
       (replicate 3 (cli.Raises (cli.Exception "EOF when reading a line"))))
  = cli.Waiting.
Proof.
  apply (@failed_reads_keep_shell_waiting sample_runtime sample_environ
           "EOF when reading a line" 3).
  exists "sk-ant-test". split; [reflexivity | discriminate].
Defined.

(** X22. A quick pick whose questions are all answered with blank lines
    sends nothing to the agent. *)
Theorem quick_pick_blank_answers_send_nothing `{cli.Runtime} (pick : string)
    (c : cli.console) :
  (forall text : string, cli.Line text ∈ cli.stdin c -> cli.strip text = EmptyString) ->
  cli.sent (cli.handle_quick_pick pick c).2 = cli.sent c.
Proof.
  intros Hblank.
  destruct (cli.handle_quick_pick pick c) as [r c'] eqn:Hrun.
  destruct (handle_quick_pick_effect pick c r c' Hrun)
    as (consumed & new & Hin & Hsent & _ & _ & _ & _ & Hanswered & _).
  cbn. rewrite Hsent. destruct new as [|p new]; [by rewrite app_nil_r|].
  destruct Hanswered as (text & Htext & Hfilled); [discriminate|].
  exfalso. apply Hfilled, Hblank. rewrite Hin, elem_of_app. by left.
Qed.

(** The comparison asked for with two blank URLs. *)
Lemma quick_pick_blank_answers_send_nothing_witness :
  cli.sent (cli.handle_quick_pick "6" (sample_console [cli.Line "  "; cli.Line ""])).2 = [].
Proof.
  apply (@quick_pick_blank_answers_send_nothing sample_runtime "6"
           (sample_console [cli.Line "  "; cli.Line ""])).
  intros text Hin. cbn in Hin.
  list_cases Hin; injection Hin as ->; reflexivity.
Defined.

(** X23. What a quick pick sends. It reads its answers from standard
    input in order and sends the agent at most one prompt; the prompt
    holds every answer it has read, white space at the ends removed.
    When the pick is one of 1 to 6 and it returns after answers none of
    which was blank, the prompt was sent. *)
Theorem quick_pick_prompt_holds_answers `{cli.Runtime} (pick : string) (c : cli.console) :
  exists (consumed : list cli.event) (new : list string),
    cli.stdin c = consumed ++ cli.stdin (cli.handle_quick_pick pick c).2 /\
    cli.sent (cli.handle_quick_pick pick c).2 = cli.sent c ++ new /\
    (forall p : string,
       p ∈ new ->
       new = [p] /\
       forall text : string, cli.Line text ∈ consumed -> Substring (cli.strip text) p) /\
    (is_Some (cli.QUICK_PICKS !! pick) ->
     (cli.handle_quick_pick pick c).1 = cli.Return tt ->
     (forall text : string, cli.Line text ∈ consumed -> cli.strip text <> EmptyString) ->
     new <> []).
Proof.
  destruct (cli.handle_quick_pick pick c) as [r c'] eqn:Hrun.
  destruct (handle_quick_pick_effect pick c r c' Hrun)
    as (consumed & new & Hin & Hsent & _ & _ & Hprompt & _ & _ & Hsends & _).
  exists consumed, new. cbn. repeat split; try assumption.
  - by destruct (Hprompt p) as (-> & _).
  - intros text Htext. destruct (Hprompt p) as (_ & _ & Hholds); auto.
  - intros Hpick Hr. by apply Hsends.
Qed.

(** X24. [run_prompt] sends the prompt to the agent exactly once and
    survives its failure: the answer is printed, followed by an empty
    line; an exception of the agent is caught and its text printed
    after the word Error; only a KeyboardInterrupt goes on to the
    caller. *)
Theorem run_prompt_reports_agent_failure `{cli.Runtime} (prompt : string) (c : cli.console) :
  cli.run_prompt prompt c =
    let thinking := cli.stdout c ++ [cli.Print (nl +:+ "Analyzing..." +:+ nl)] in
    match cli.invoke (cli.pmm_agent c) prompt with
    | (agent', inl response) =>
        (cli.Return tt,
         {| cli.stdin := cli.stdin c;
            cli.stdin_closed := cli.stdin_closed c;
            cli.stdout := thinking ++ [cli.Print response; cli.Print EmptyString];
            cli.pmm_agent := agent';
            cli.sent := cli.sent c ++ [prompt] |})
    | (agent', inr (cli.Exception text)) =>
        (cli.Return tt,
         {| cli.stdin := cli.stdin c;
            cli.stdin_closed := cli.stdin_closed c;
            cli.stdout := thinking ++ [cli.Print (nl +:+ "Error: " +:+ text +:+ nl)];
            cli.pmm_agent := agent';
            cli.sent := cli.sent c ++ [prompt] |})
    | (agent', inr cli.KeyboardInterrupt) =>
        (cli.Raised cli.KeyboardInterrupt,
         {| cli.stdin := cli.stdin c;
            cli.stdin_closed := cli.stdin_closed c;
            cli.stdout := thinking;
            cli.pmm_agent := agent';
            cli.sent := cli.sent c ++ [prompt] |})
    end.
Proof.
  run_step.
  destruct (cli.invoke (cli.pmm_agent c) prompt) as [agent' [response | [|text]]];
    cbn; rewrite <- ?app_assoc; reflexivity.
Qed.

(** X25. Free text goes to the agent as typed. A first line that, white
    space at its ends removed, is not empty, is no exit or help word in
    lower case and is no quick pick, is the first prompt the agent
    receives; its case is kept. *)
Theorem free_text_is_forwarded `{cli.Runtime} (environ : gmap string string)
    (text : string) (rest : list cli.event) :
  api_key_set environ ->
  cli.lower (cli.strip text) ∉ ["exit"; "quit"; "q"; "bye"; "help"; "?"; "h"] ->
  cli.strip text <> EmptyString ->
  cli.QUICK_PICKS !! cli.strip text = None ->
  exists more : list string,
    cli.prompts (cli.main environ (cli.Line text :: rest)) = cli.strip text :: more.
Proof.
  intros Hkey Hcommand Hblank Hpick.
  destruct (main_enters_loop environ (cli.Line text :: rest) Hkey)
    as (c & Hin & _ & Hsent & ->).
  cbn [cli.prompts]. rewrite loop_unfold.
  destruct (iteration_free_text c text rest Hin Hcommand Hblank Hpick)
    as (Hin1 & Hsent1 & Hr).
  destruct (cli.iteration c) as [r c1]. cbn in Hin1, Hsent1, Hr.
  rewrite Hsent in Hsent1. cbn in Hsent1.
  destruct Hr as [-> | ->].
  - destruct (loop_effect (length (cli.Line text :: rest)) c1)
      as (? & new & _ & Hsent' & _); [rewrite Hin1; cbn; lia|].
    exists new. rewrite Hsent', Hsent1. reflexivity.
  - exists []. exact Hsent1.
Qed.

Lemma free_text_is_forwarded_witness :
  exists more : list string,
    cli.prompts
      (@cli.main sample_runtime sample_environ [cli.Line " Is Our Pricing Page clear?  "])
    = "Is Our Pricing Page clear?" :: more.
Proof.
  apply (@free_text_is_forwarded sample_runtime sample_environ
           " Is Our Pricing Page clear?  " []).
  - exists "sk-ant-test". split; [reflexivity | discriminate].
  - vm_compute. set_unfold. intros Hword. repeat destruct Hword as [Hword | Hword]; discriminate Hword || exact Hword.
  - vm_compute. discriminate.
  - reflexivity.
Defined.
